(** * OAuth proxy of the Meta Graph MCP server: a shallow embedding

    The development follows [src/index.ts]: the signed-token codec
    ([createJWT], [verifyJWT]), the four in-memory tables with their periodic
    sweep, the upstream credential exchange ([exchangeFacebookCode]) and the
    request handler built by [createOAuthServer].

    Conventions.
    - JavaScript runs handlers on one thread: the code between two [await]s
      is atomic.  Each atomic segment is a function on the [Store]; the
      callback endpoint, which awaits the upstream exchange, is cut in two
      segments ([callback_begin], [callback_end]).
    - [Date.now()] readings, [crypto.randomBytes] draws and the upstream
      HTTP answers are inputs of the functions that consume them.
    - Timestamps are integers ([Z]); JSON numbers are integers, as every
      number the server itself writes is.
    - The bodies of the upstream are read at the types the code asserts for
      them; the shapes on which the code throws ([null] where an object is
      expected, a list of pages that cannot be iterated) are part of the
      model. *)

From Stdlib Require Import ZArith String Ascii List Lia Bool DecimalString.
From stdpp Require Import base option gmap strings fin_maps.

Import ListNotations.
Set Warnings "-register-all".
Open Scope Z_scope.
Open Scope string_scope.

(** ** JavaScript values *)

(** A parsed JSON text.  [undefined] is not a JSON value: a JavaScript value
    read from a JSON document is an [option json], [None] being [undefined]. *)
Inductive json : Type :=
| JNull
| JBool (b : bool)
| JNum (n : Z)
| JStr (s : string)
| JArr (items : list json)
| JObj (fields : list (string * json)).

(** An exception object, with its [name] and [message]. *)
Record exn : Type := JsError { exn_name : string; exn_message : string }.

(** [String(err)], that is [Error.prototype.toString]: the name alone when
    the message is empty, the message alone when the name is empty, and
    otherwise both with a colon in between. *)
Definition String_of_exn (e : exn) : string :=
  if String.eqb (exn_message e) "" then exn_name e
  else if String.eqb (exn_name e) "" then exn_message e
  else exn_name e ++ ": " ++ exn_message e.

(** Outcome of evaluating JavaScript code that may throw. *)
Inductive completion (A : Type) : Type :=
| Normal (a : A)
| Throw (e : exn).
Arguments Normal {A} a.
Arguments Throw {A} e.

Definition bind {A B : Type} (c : completion A) (k : A -> completion B) : completion B :=
  match c with
  | Normal a => k a
  | Throw e => Throw e
  end.

Notation "'let!' x ':=' c 'in' k" := (bind c (fun x => k))
  (at level 10, x name, c at level 100, k at level 200).

Definition TypeError (msg : string) : exn := JsError "TypeError" msg.

(** Own-property lookup in an object literal; the first binding wins. *)
Fixpoint assoc {A : Type} (k : string) (fs : list (string * A)) : option A :=
  match fs with
  | [] => None
  | (k', v) :: r => if String.eqb k' k then Some v else assoc k r
  end.

(** [o.k = v]: an existing key keeps its position, a new key is appended. *)
Fixpoint obj_set {A : Type} (k : string) (v : A) (fs : list (string * A)) : list (string * A) :=
  match fs with
  | [] => [(k, v)]
  | (k', v') :: r =>
      if String.eqb k' k then (k', v) :: r else (k', v') :: obj_set k v r
  end.

(** [v.k] for a named (non-index) key [k]: reading a property of [null]
    throws, primitives and arrays have no such own property. *)
Definition get_prop (v : json) (k : string) : completion (option json) :=
  match v with
  | JNull => Throw (TypeError "Cannot read properties of null")
  | JObj fs => Normal (assoc k fs)
  | _ => Normal None
  end.

(** JavaScript truthiness of a JSON value or [undefined]. *)
Definition truthy (v : option json) : bool :=
  match v with
  | None => false
  | Some JNull => false
  | Some (JBool b) => b
  | Some (JNum n) => negb (Z.eqb n 0)
  | Some (JStr s) => negb (String.eqb s "")
  | Some (JArr _) => true
  | Some (JObj _) => true
  end.

(** Truthiness of a nullable string ([null], [undefined] and [""] are falsy). *)
Definition nonempty (s : option string) : bool :=
  match s with
  | Some s => negb (String.eqb s "")
  | None => false
  end.

(** [a === s] for a nullable string [a] and a string [s]. *)
Definition strict_eq (a : option string) (s : string) : bool :=
  match a with
  | Some x => String.eqb x s
  | None => false
  end.

(** [a || b] on nullable strings. *)
Definition or_else (a : option string) (b : string) : string :=
  match a with
  | Some s => if String.eqb s "" then b else s
  | None => b
  end.

(** [a || undefined] on nullable strings. *)
Definition or_undefined (a : option string) : option string :=
  match a with
  | Some s => if String.eqb s "" then None else Some s
  | None => None
  end.

(** [s.split(sep)] for a one-character separator. *)
Fixpoint split (sep : ascii) (s : string) : list string :=
  match s with
  | EmptyString => [EmptyString]
  | String a s' =>
      if Ascii.eqb a sep then EmptyString :: split sep s'
      else match split sep s' with
           | h :: t => String a h :: t
           | [] => [String a EmptyString]
           end
  end.

(** [xs.join(sep)]. *)
Fixpoint join (sep : string) (xs : list string) : string :=
  match xs with
  | [] => ""
  | [x] => x
  | x :: r => x ++ sep ++ join sep r
  end.

(** A template literal prints [undefined] by name. *)
Definition tmpl (s : option string) : string :=
  match s with
  | Some s => s
  | None => "undefined"
  end.

(** [URLSearchParams.get]: the first value bound to the name, or [null]. *)
Definition param (k : string) (q : list (string * string)) : option string :=
  assoc k q.

(** ** The runtime the server is written against

    Node primitives the code calls and whose implementation is outside the
    repository.  Everything below is stated for an arbitrary runtime. *)
Class Runtime : Type := {
  (** [crypto.createHmac("sha256", JWT_SECRET).update(m).digest("base64url")] *)
  hmac_sha256 : string -> string;
  (** [Buffer.from(s).toString("base64url")] *)
  base64url_encode : string -> string;
  (** [Buffer.from(s, "base64url").toString()]; never throws *)
  base64url_decode : string -> string;
  JSON_stringify : json -> string;
  (** [JSON.parse]; [None] when it throws a [SyntaxError] *)
  JSON_parse : string -> option json;
  (** ECMAScript [ToNumber] on a value that is not a number; the inner
      [None] is [NaN], [Throw] is a failed conversion to a primitive *)
  ToNumber : json -> completion (option Z);
  (** [new URLSearchParams(body)]; never throws *)
  parse_form : string -> list (string * string);
  (** whether [new URL(s)] returns rather than throws *)
  URL_valid : string -> bool;
  (** [process.env.FACEBOOK_APP_ID] *)
  appId : string;
  (** [process.env.BASE_URL], or the host and port default *)
  baseUrl : string
}.

(** ** Signed token codec *)

Section Codec.
Context `{Runtime}.

(** [const encode = (obj) => Buffer.from(JSON.stringify(obj)).toString("base64url")] *)
Definition encode (obj : json) : string :=
  base64url_encode (JSON_stringify obj).

Definition jwt_header : json :=
  JObj [("alg", JStr "HS256"); ("typ", JStr "JWT")].

(** [{ ...payload, iat: now, exp: now + expiresIn, jti }].  The time to live
    is a whole number of seconds (the one call of [createJWT] passes 3600);
    the sum is the integer sum, which is what the addition of the code gives
    as long as it does not exceed 2^53. *)
Definition fullPayload (payload : list (string * json)) (expiresIn now : Z) (jti : string)
  : list (string * json) :=
  obj_set "jti" (JStr jti)
    (obj_set "exp" (JNum (now + expiresIn))
       (obj_set "iat" (JNum now) payload)).

(** [createJWT(payload, expiresIn)], reading the clock at [now_ms]
    milliseconds and drawing [jti] from [crypto.randomBytes(16)]. *)
Definition createJWT (payload : list (string * json)) (expiresIn : Z)
    (now_ms : Z) (jti : string) : string :=
  let now := now_ms / 1000 in
  let headerB64 := encode jwt_header in
  let payloadB64 := encode (JObj (fullPayload payload expiresIn now jti)) in
  let signature := hmac_sha256 (headerB64 ++ "." ++ payloadB64) in
  headerB64 ++ "." ++ payloadB64 ++ "." ++ signature.

(** [{ valid: boolean; payload?: ... }] *)
Inductive verdict : Type :=
| Invalid
| Valid (payload : json).

(** [a < n] where [n] is a number. *)
Definition js_lt_number (a : json) (n : Z) : completion bool :=
  match a with
  | JNum m => Normal (Z.ltb m n)
  | _ =>
      let! m := ToNumber a in
      Normal (match m with Some m => Z.ltb m n | None => false end)
  end.

(** [payload.exp && payload.exp < Math.floor(Date.now() / 1000)] as a
    condition: the right operand is evaluated only for a truthy [exp]. *)
Definition exp_passed (payload : json) (now_ms : Z) : completion bool :=
  let! e := get_prop payload "exp" in
  if truthy e then
    match e with
    | Some v => js_lt_number v (now_ms / 1000)
    | None => Normal false
    end
  else Normal false.

(** The body of the [try] block of [verifyJWT]. *)
Definition verifyJWT_try (token : string) (now_ms : Z) : completion verdict :=
  let parts := split "." token in
  let headerB64 := nth_error parts 0 in
  let payloadB64 := nth_error parts 1 in
  let signature := nth_error parts 2 in
  let expectedSig := hmac_sha256 (tmpl headerB64 ++ "." ++ tmpl payloadB64) in
  match signature with
  | Some sig =>
      if negb (String.eqb sig expectedSig) then Normal Invalid
      else
        match payloadB64 with
        | None => Throw (TypeError "The first argument must be of type string")
        | Some p =>
            match JSON_parse (base64url_decode p) with
            | None => Throw (JsError "SyntaxError" "Unexpected token")
            | Some payload =>
                let! b := exp_passed payload now_ms in
                if b then Normal Invalid else Normal (Valid payload)
            end
        end
  | None => Normal Invalid
  end.

(** [verifyJWT(token)]: every exception is caught and reported as invalid. *)
Definition verifyJWT (token : string) (now_ms : Z) : verdict :=
  match verifyJWT_try token now_ms with
  | Normal v => v
  | Throw _ => Invalid
  end.

End Codec.

(** ** Upstream credential exchange *)

(** [PageTokenInfo] and [MetaSession] of [types.ts].  A field the code fills
    from an upstream JSON body is optional here when that body can lack it. *)
Record PageTokenInfo : Type := {
  pt_accessToken : string;
  pt_name : string;
  pt_category : option string;
  pt_instagramBusinessAccountId : option string
}.

Record MetaSession : Type := {
  userAccessToken : option string;
  userId : option string;
  userName : option string;
  expiresAt : option Z;
  pageTokens : gmap string PageTokenInfo
}.

(** What [fetch] followed by [response.json()] yields: the request fails
    (the promise rejects), or an HTTP answer arrives with its [ok] flag and a
    body that decodes as JSON or makes [json()] reject. *)
Inductive fetched (A : Type) : Type :=
| NetworkError (e : exn)
| Answer (ok : bool) (body : completion A).
Arguments NetworkError {A} e.
Arguments Answer {A} ok body.

(** [await fetch(...)] *)
Definition response {A : Type} (f : fetched A) : completion (bool * completion A) :=
  match f with
  | NetworkError e => Throw e
  | Answer ok body => Normal (ok, body)
  end.

(** The bodies of the upstream, seen at the types the code asserts for them
    ([as {...}]).  A record holds the members the code reads, a member the
    body lacks reading as [undefined]; a primitive or an array has none of
    them.  [error_message] stands for [error.error?.message].  Members are
    taken to have the asserted types; what is not taken for granted is the
    shape around them, on which the code can throw: a body is an
    [option], [None] being the JSON value [null], whose every property read
    throws. *)
Record TokenBody : Type := {
  access_token : option string;
  expires_in : option Z;
  error_message : option string
}.

Record UserBody : Type := {
  user_id : option string;
  user_name : option string
}.

Record PageBody : Type := {
  page_id : string;
  page_name : string;
  page_category : option string;
  page_access_token : string;
  page_instagram_business_account : option string
}.

(** [pagesData.data]: a falsy value ([undefined], [null], [0], [""],
    [false]), for which [|| []] takes over; a truthy value that cannot be
    iterated (a number, [true], an object); or an array, whose items are pages
    or [null]. *)
Inductive PagesData : Type :=
| Falsy
| NotIterable
| Pages (items : list (option PageBody)).

Record PagesBody : Type := {
  data : PagesData
}.

(** The answers of the upstream to the four calls of one exchange, in the
    order the code makes them. *)
Record upstream : Type := {
  up_code : fetched (option TokenBody);
  up_longLived : fetched (option TokenBody);
  up_user : fetched (option UserBody);
  up_pages : fetched (option PagesBody)
}.

(** [body.k], read through [read]: on [null] it throws, with the words of V8. *)
Definition member {A B : Type} (body : option A) (k : string) (read : A -> B)
  : completion B :=
  match body with
  | Some b => Normal (read b)
  | None => Throw (TypeError ("Cannot read properties of null (reading '" ++ k ++ "')"))
  end.

(** [expiresIn ? Date.now() + expiresIn * 1000 : undefined]; the clock is
    read only for a truthy [expiresIn]. *)
Definition expiry (expiresIn : option Z) (now : Z) : option Z :=
  match expiresIn with
  | Some n => if Z.eqb n 0 then None else Some (now + n * 1000)
  | None => None
  end.

(** The body of the loop [for (const page of ...) pageTokens[page.id] = {...}],
    item after item: [page.id] throws on the item [null]. *)
Fixpoint collect_items (items : list (option PageBody)) (acc : gmap string PageTokenInfo)
  : completion (gmap string PageTokenInfo) :=
  match items with
  | [] => Normal acc
  | None :: _ => Throw (TypeError "Cannot read properties of null (reading 'id')")
  | Some page :: rest =>
      collect_items rest
        (<[page_id page :=
             {| pt_accessToken := page_access_token page;
                pt_name := page_name page;
                pt_category := page_category page;
                pt_instagramBusinessAccountId := page_instagram_business_account page |}]>
           acc)
  end.

(** [for (const page of pagesData.data || []) pageTokens[page.id] = {...}] *)
Definition collect_pages (listed : PagesData) : completion (gmap string PageTokenInfo) :=
  match listed with
  | Falsy => Normal ∅
  | NotIterable => Throw (TypeError "pagesData.data is not iterable")
  | Pages items => collect_items items ∅
  end.

(** [exchangeFacebookCode(code, redirectUri)].  [code] and [redirectUri] only
    travel in the first request; what comes back is [up].  [now] is what
    [Date.now()] gives, if the last statement reads it.  The statements are
    in the order of the code: [tokens.access_token] is read to build the second
    request, the pages are collected before [userData.id] is read. *)
Definition exchangeFacebookCode (code redirectUri : string) (up : upstream) (now : Z)
  : completion MetaSession :=
  let! r := response (up_code up) in
  if negb (fst r) then
    let! error := snd r in
    let! message := member error "error" error_message in
    Throw (JsError "Error" (or_else message "Token exchange failed"))
  else
    let! tokens := snd r in
    let! fb_exchange_token := member tokens "access_token" access_token in
    let! longLivedResponse := response (up_longLived up) in
    let! longLivedTokens := snd longLivedResponse in
    let! accessToken :=
      (if fst longLivedResponse then member longLivedTokens "access_token" access_token
       else member tokens "access_token" access_token) in
    let! expiresIn :=
      (if fst longLivedResponse then member longLivedTokens "expires_in" expires_in
       else member tokens "expires_in" expires_in) in
    let! userResponse := response (up_user up) in
    let! userData := snd userResponse in
    let! pagesResponse := response (up_pages up) in
    let! pagesData := snd pagesResponse in
    let! listed := member pagesData "data" data in
    let! pageTokens := collect_pages listed in
    let! userId := member userData "id" user_id in
    let! userName := member userData "name" user_name in
    Normal {| userAccessToken := accessToken;
              userId := userId;
              userName := userName;
              expiresAt := expiry expiresIn now;
              pageTokens := pageTokens |}.

(** ** Ephemeral state store *)

Record OAuthTransaction : Type := {
  txn_clientId : string;
  txn_redirectUri : string;
  txn_state : string;
  txn_codeChallenge : option string;
  txn_codeChallengeMethod : option string;
  txn_scope : list string;
  txn_createdAt : Z
}.

Record AuthCode : Type := {
  ac_clientId : string;
  ac_redirectUri : string;
  ac_metaTokens : MetaSession;
  ac_createdAt : Z;
  ac_used : bool
}.

Record RegisteredClient : Type := {
  rc_redirectUris : json;
  rc_createdAt : Z
}.

Record TokenRecord : Type := {
  tr_metaTokens : MetaSession;
  tr_createdAt : Z
}.

(** The four module-level [Map]s. *)
Record Store : Type := {
  transactions : gmap string OAuthTransaction;
  authCodes : gmap string AuthCode;
  registeredClients : gmap string RegisteredClient;
  tokenStore : gmap string TokenRecord
}.

Definition empty_store : Store :=
  {| transactions := ∅; authCodes := ∅; registeredClients := ∅; tokenStore := ∅ |}.

(** [for (const [k, v] of m.entries()) if (now - v.createdAt > ttl) m.delete(k)]:
    every entry of the map is visited once, deletions apply to the map
    being iterated. *)
Definition purge {V : Type} (createdAt : V -> Z) (ttl now : Z) (m : gmap string V)
  : gmap string V :=
  map_fold (fun k v acc => if Z.ltb ttl (now - createdAt v) then delete k acc else acc) m m.

(** One run of the [setInterval] callback, reading the clock at [now]. *)
Definition sweep (now : Z) (st : Store) : Store :=
  {| transactions := purge txn_createdAt 600000 now (transactions st);
     authCodes := purge ac_createdAt 300000 now (authCodes st);
     registeredClients := registeredClients st;
     tokenStore := purge tr_createdAt 3600000 now (tokenStore st) |}.

(** ** Authorization-server facade *)

Definition FACEBOOK_AUTH_ENDPOINT : string := "https://www.facebook.com/v21.0/dialog/oauth".

Definition FACEBOOK_SCOPES : list string :=
  [ "pages_show_list"; "pages_read_engagement"; "pages_manage_posts";
    "pages_read_user_content"; "pages_manage_engagement"; "read_insights";
    "instagram_basic"; "instagram_content_publish"; "instagram_manage_comments";
    "instagram_manage_insights" ].

(** A parsed request: [req.method], [url.pathname], [url.searchParams] and
    the text [readBody()] resolves to. *)
Record Request : Type := {
  req_method : string;
  req_pathname : string;
  req_query : list (string * string);
  req_body : string
}.

(** What one handler run reads from outside the store: the successive
    [Date.now()] readings, the successive [crypto.randomBytes] draws (as
    encoded by the caller) and the answers of the upstream. *)
Record Env : Type := {
  Date_now : nat -> Z;
  randomBytes : nat -> string;
  fetch : upstream
}.

(** A [URL] object: the text it was parsed from and the search parameters
    set on it afterwards, in that order.  [searchParams.set(k, v)] replaces
    the value of a parameter [k] the text already has and leaves its other
    parameters in place; the text of the [Location] header, which is the
    serialisation of this object, is not computed here. *)
Record Url : Type := {
  url_href : string;
  url_searchParams : list (string * string)
}.

Inductive Response : Type :=
| Json (status : Z) (data : json)
| Found (location : Url)
| NoContent.

(** A handler run ends with a response, or with an exception nobody catches
    (no response is written). *)
Inductive Outcome : Type :=
| Responded (r : Response)
| Unhandled (e : exn).

Definition JStrs (xs : list string) : json := JArr (map JStr xs).

(** A property whose value may be [undefined] is left out by [JSON.stringify]. *)
Definition opt_field (k : string) (v : option json) : list (string * json) :=
  match v with
  | Some v => [(k, v)]
  | None => []
  end.

Definition nullable (s : option string) : json :=
  match s with
  | Some s => JStr s
  | None => JNull
  end.

Definition oauth_error (code description : string) : Response :=
  Json 400 (JObj [("error", JStr code); ("error_description", JStr description)]).

Section Facade.
Context `{Runtime}.

Definition callbackUri : string := baseUrl ++ "/oauth/callback".

Definition discovery : Response :=
  Json 200 (JObj
    [ ("issuer", JStr baseUrl);
      ("authorization_endpoint", JStr (baseUrl ++ "/oauth/authorize"));
      ("token_endpoint", JStr (baseUrl ++ "/oauth/token"));
      ("registration_endpoint", JStr (baseUrl ++ "/oauth/register"));
      ("response_types_supported", JStrs ["code"]);
      ("grant_types_supported", JStrs ["authorization_code"; "refresh_token"]);
      ("code_challenge_methods_supported", JStrs ["S256"; "plain"]);
      ("scopes_supported", JStrs FACEBOOK_SCOPES);
      ("token_endpoint_auth_methods_supported",
        JStrs ["client_secret_post"; "client_secret_basic"]) ]).

(** [POST /oauth/register] *)
Definition register (req : Request) (env : Env) (st : Store) : Store * Outcome :=
  match JSON_parse (req_body req) with
  | None => (st, Unhandled (JsError "SyntaxError" "Unexpected token"))
  | Some body =>
      let clientId := randomBytes env 0 in
      match get_prop body "redirect_uris" with
      | Throw e => (st, Unhandled e)
      | Normal redirect_uris =>
          let client :=
            {| rc_redirectUris := if truthy redirect_uris then default (JArr []) redirect_uris
                                  else JArr [];
               rc_createdAt := Date_now env 0 |} in
          ({| transactions := transactions st;
              authCodes := authCodes st;
              registeredClients := <[clientId := client]> (registeredClients st);
              tokenStore := tokenStore st |},
           Responded (Json 200 (JObj
             ([ ("client_id", JStr clientId);
                ("client_secret", JStr clientId);
                ("client_id_issued_at", JNum (Date_now env 1 / 1000));
                ("client_secret_expires_at", JNum 0) ]
              ++ opt_field "redirect_uris" redirect_uris
              ++ [ ("grant_types", JStrs ["authorization_code"; "refresh_token"]);
                   ("response_types", JStrs ["code"]);
                   ("token_endpoint_auth_method", JStr "client_secret_post") ]))))
      end
  end.

(** [/oauth/authorize] *)
Definition authorize (req : Request) (env : Env) (st : Store) : Store * Outcome :=
  let q := req_query req in
  let clientId := param "client_id" q in
  let redirectUri := param "redirect_uri" q in
  let responseType := param "response_type" q in
  let state := or_else (param "state" q) (randomBytes env 0) in
  let scope := param "scope" q in
  let codeChallenge := param "code_challenge" q in
  let codeChallengeMethod := param "code_challenge_method" q in
  match clientId, redirectUri with
  | Some clientId, Some redirectUri =>
      if String.eqb clientId "" || String.eqb redirectUri ""
         || negb (strict_eq responseType "code")
      then (st, Responded (oauth_error "invalid_request" "Missing required parameters"))
      else
        (* the state draw happens only when the request carries no state *)
        let txnId := randomBytes env (if nonempty (param "state" q) then 0 else 1)%nat in
        let txn :=
          {| txn_clientId := clientId;
             txn_redirectUri := redirectUri;
             txn_state := state;
             txn_codeChallenge := or_undefined codeChallenge;
             txn_codeChallengeMethod := or_undefined codeChallengeMethod;
             txn_scope := match scope with
                          | Some s => split " " s
                          | None => FACEBOOK_SCOPES
                          end;
             txn_createdAt := Date_now env 0 |} in
        ({| transactions := <[txnId := txn]> (transactions st);
            authCodes := authCodes st;
            registeredClients := registeredClients st;
            tokenStore := tokenStore st |},
         Responded (Found
           {| url_href := FACEBOOK_AUTH_ENDPOINT;
              url_searchParams :=
                [ ("client_id", appId);
                  ("redirect_uri", callbackUri);
                  ("state", txnId);
                  ("scope", join "," FACEBOOK_SCOPES);
                  ("response_type", "code") ] |}))
  | _, _ =>
      (st, Responded (oauth_error "invalid_request" "Missing required parameters"))
  end.

(** The client redirect of the callback: [new URL(txn.redirectUri)] throws on
    a text that is not a URL. *)
Definition client_redirect (txn : OAuthTransaction) (params : list (string * string))
  : completion Response :=
  if URL_valid (txn_redirectUri txn)
  then Normal (Found {| url_href := txn_redirectUri txn; url_searchParams := params |})
  else Throw (TypeError "Invalid URL").

(** [/oauth/callback], up to the [await] of the exchange: either the
    response is already decided, or the exchange starts for the upstream
    code with the transaction found under the state parameter. *)
Definition callback_begin (req : Request) (st : Store)
  : Response + (string * string * OAuthTransaction) :=
  let q := req_query req in
  let code := param "code" q in
  let txnId := param "state" q in
  let error := param "error" q in
  let errorDesc := param "error_description" q in
  if nonempty error then
    inl (Json 400 (JObj [("error", nullable error); ("error_description", nullable errorDesc)]))
  else
    match code, txnId with
    | Some code, Some txnId =>
        if String.eqb code "" || String.eqb txnId "" then
          inl (oauth_error "invalid_request" "Missing code or state")
        else
          match transactions st !! txnId with
          | None => inl (oauth_error "invalid_request" "Invalid or expired state")
          | Some txn => inr (code, txnId, txn)
          end
    | _, _ => inl (oauth_error "invalid_request" "Missing code or state")
    end.

(** [/oauth/callback], from the moment the exchange settles: the [try]
    block after the [await], and the [catch] block.  [st] is the store at that
    moment, [txn] the transaction read before the exchange. *)
Definition callback_end (txnId : string) (txn : OAuthTransaction)
    (exchanged : completion MetaSession) (ourCode : string) (now : Z) (st : Store)
  : Store * Outcome :=
  let on_error (st' : Store) (err : exn) : Store * Outcome :=
    match client_redirect txn
            [ ("error", "server_error");
              ("error_description", String_of_exn err);
              ("state", txn_state txn) ] with
    | Normal r => (st', Responded r)
    | Throw e => (st', Unhandled e)
    end in
  match exchanged with
  | Throw err => on_error st err
  | Normal metaTokens =>
      let authCode :=
        {| ac_clientId := txn_clientId txn;
           ac_redirectUri := txn_redirectUri txn;
           ac_metaTokens := metaTokens;
           ac_createdAt := now;
           ac_used := false |} in
      let st' :=
        {| transactions := delete txnId (transactions st);
           authCodes := <[ourCode := authCode]> (authCodes st);
           registeredClients := registeredClients st;
           tokenStore := tokenStore st |} in
      match client_redirect txn [("code", ourCode); ("state", txn_state txn)] with
      | Normal r => (st', Responded r)
      | Throw err => on_error st' err
      end
  end.

(** How many times the exchange that returned [metaTokens] has read the
    clock: once, for the expiry, when it has set one. *)
Definition clock_reads (metaTokens : MetaSession) : nat :=
  match expiresAt metaTokens with
  | Some _ => 1
  | None => 0
  end.

(** [/oauth/callback] when nothing else runs while the exchange is awaited.
    The [createdAt] of the stored code is the next reading of the clock after
    those of the exchange. *)
Definition callback (req : Request) (env : Env) (st : Store) : Store * Outcome :=
  match callback_begin req st with
  | inl r => (st, Responded r)
  | inr (code, txnId, txn) =>
      let exchanged := exchangeFacebookCode code callbackUri (fetch env) (Date_now env 0) in
      callback_end txnId txn exchanged (randomBytes env 0)
        (Date_now env (match exchanged with
                       | Normal metaTokens => clock_reads metaTokens
                       | Throw _ => 0%nat
                       end)) st
  end.

Definition mark_used (authCode : AuthCode) : AuthCode :=
  {| ac_clientId := ac_clientId authCode;
     ac_redirectUri := ac_redirectUri authCode;
     ac_metaTokens := ac_metaTokens authCode;
     ac_createdAt := ac_createdAt authCode;
     ac_used := true |}.

(** The claims of the bearer token: [{ sub: jti, scope: FACEBOOK_SCOPES.join(" ") }] *)
Definition bearer_claims (jti : string) : list (string * json) :=
  [("sub", JStr jti); ("scope", JStr (join " " FACEBOOK_SCOPES))].

(** [POST /oauth/token] *)
Definition token (req : Request) (env : Env) (st : Store) : Store * Outcome :=
  let params := parse_form (req_body req) in
  let grantType := param "grant_type" params in
  let code := param "code" params in
  if strict_eq grantType "authorization_code" then
    match code with
    | None => (st, Responded (oauth_error "invalid_request" "Missing code"))
    | Some code =>
        if String.eqb code "" then
          (st, Responded (oauth_error "invalid_request" "Missing code"))
        else
          match authCodes st !! code with
          | None => (st, Responded (oauth_error "invalid_grant" "Invalid or expired code"))
          | Some authCode =>
              if ac_used authCode then
                (st, Responded (oauth_error "invalid_grant" "Code already used"))
              else
                let jti := randomBytes env 0 in
                let accessToken :=
                  createJWT (bearer_claims jti) 3600 (Date_now env 0) (randomBytes env 1) in
                ({| transactions := transactions st;
                    authCodes := <[code := mark_used authCode]> (authCodes st);
                    registeredClients := registeredClients st;
                    tokenStore :=
                      <[jti := {| tr_metaTokens := ac_metaTokens authCode;
                                  tr_createdAt := Date_now env 1 |}]> (tokenStore st) |},
                 Responded (Json 200 (JObj
                   [ ("access_token", JStr accessToken);
                     ("token_type", JStr "Bearer");
                     ("expires_in", JNum 3600);
                     ("scope", JStr (join " " FACEBOOK_SCOPES)) ])))
          end
    end
  else (st, Responded (Json 400 (JObj [("error", JStr "unsupported_grant_type")]))).

(** The request listener of [createOAuthServer]. *)
Definition handle (req : Request) (env : Env) (st : Store) : Store * Outcome :=
  if String.eqb (req_method req) "OPTIONS" then (st, Responded NoContent)
  else if String.eqb (req_pathname req) "/.well-known/oauth-authorization-server" then
    (st, Responded discovery)
  else if String.eqb (req_pathname req) "/oauth/register"
          && String.eqb (req_method req) "POST" then register req env st
  else if String.eqb (req_pathname req) "/oauth/authorize" then authorize req env st
  else if String.eqb (req_pathname req) "/oauth/callback" then callback req env st
  else if String.eqb (req_pathname req) "/oauth/token"
          && String.eqb (req_method req) "POST" then token req env st
  else if String.eqb (req_pathname req) "/health" then
    (st, Responded (Json 200 (JObj [("status", JStr "ok"); ("oauth", JStr "ready")])))
  else (st, Responded (Json 404 (JObj [("error", JStr "not_found")]))).

(** The session resolver: the [authenticate] hook of the MCP server, given
    the [Authorization] header. *)
Definition authenticate (authorization : option string) (now_ms : Z) (st : Store)
  : option MetaSession :=
  match authorization with
  | Some authHeader =>
      if String.prefix "Bearer " authHeader then
        let token := String.substring 7 (String.length authHeader - 7) authHeader in
        match verifyJWT token now_ms with
        | Invalid => None
        | Valid payload =>
            match get_prop payload "sub" with
            | Normal (Some (JStr jti)) =>
                if String.eqb jti "" then None
                else tr_metaTokens <$> tokenStore st !! jti
            | _ => None
            end
        end
      else None
  | None => None
  end.

(** ** The server as a transition system

    What can happen to the store: a request handled in one go, the second
    segment of a callback whose exchange was pending while other events ran,
    or a run of the sweep. *)
Inductive event : Type :=
| Handle (req : Request) (env : Env)
| CallbackResumed (txnId : string) (txn : OAuthTransaction)
    (exchanged : completion MetaSession) (ourCode : string) (now : Z)
| Sweep (now : Z).

Definition step (st : Store) (ev : event) : Store * option Outcome :=
  match ev with
  | Handle req env => let (st', o) := handle req env st in (st', Some o)
  | CallbackResumed txnId txn exchanged ourCode now =>
      let (st', o) := callback_end txnId txn exchanged ourCode now st in (st', Some o)
  | Sweep now => (sweep now st, None)
  end.

Definition run (st : Store) (evs : list event) : Store :=
  fold_left (fun st ev => fst (step st ev)) evs st.

End Facade.

(** ** Vocabulary of the properties *)

(** The text holds no dot. *)
Fixpoint dotless (s : string) : bool :=
  match s with
  | EmptyString => true
  | String c r => negb (Ascii.eqb c ".") && dotless r
  end.

(** The code is used, or not in the table: it cannot be redeemed. *)
Definition spent (code : string) (st : Store) : Prop :=
  match authCodes st !! code with
  | Some authCode => ac_used authCode = true
  | None => True
  end.

(** The transaction with another PKCE challenge. *)
Definition with_challenge (challenge method : option string) (txn : OAuthTransaction)
  : OAuthTransaction :=
  {| txn_clientId := txn_clientId txn;
     txn_redirectUri := txn_redirectUri txn;
     txn_state := txn_state txn;
     txn_codeChallenge := challenge;
     txn_codeChallengeMethod := method;
     txn_scope := txn_scope txn;
     txn_createdAt := txn_createdAt txn |}.

(** The code record bound to another client and redirect URI. *)
Definition rebound (clientId redirectUri : string) (authCode : AuthCode) : AuthCode :=
  {| ac_clientId := clientId;
     ac_redirectUri := redirectUri;
     ac_metaTokens := ac_metaTokens authCode;
     ac_createdAt := ac_createdAt authCode;
     ac_used := ac_used authCode |}.

Definition with_authCodes (codes : gmap string AuthCode) (st : Store) : Store :=
  {| transactions := transactions st;
     authCodes := codes;
     registeredClients := registeredClients st;
     tokenStore := tokenStore st |}.

(** Two stores that differ at most in the table of registered clients. *)
Definition same_but_clients (st st' : Store) : Prop :=
  transactions st = transactions st'
  /\ authCodes st = authCodes st'
  /\ tokenStore st = tokenStore st'.

Section Vocabulary.
Context `{Runtime}.

(** The first three dot-separated parts of a token, when it has that many. *)
Definition three_parts (token : string) : option (string * string * string) :=
  match split "." token with
  | h :: p :: s :: _ => Some (h, p, s)
  | _ => None
  end.

(** The expiry claim of the payload counts as passed at the second [now_s]:
    it is there, it is truthy, and comparing it with [now_s] does not come
    out false. *)
Definition lapsed (payload : json) (now_s : Z) : Prop :=
  exists v, get_prop payload "exp" = Normal (Some v)
            /\ truthy (Some v) = true
            /\ js_lt_number v now_s <> Normal false.

(** What issuing and verifying need from the runtime on one payload: the
    three encoded parts hold no dot, and decoding then parsing the encoded
    payload gives the payload back. *)
Definition codec_round_trips (payload : json) : Prop :=
  dotless (encode jwt_header) = true
  /\ dotless (encode payload) = true
  /\ dotless (hmac_sha256 (encode jwt_header ++ "." ++ encode payload)) = true
  /\ JSON_parse (base64url_decode (encode payload)) = Some payload.

(** The code an event stores when its exchange succeeds: the draw of the
    callback. *)
Definition minted (ev : event) : option string :=
  match ev with
  | Handle req env =>
      if String.eqb (req_pathname req) "/oauth/callback" then Some (randomBytes env 0)
      else None
  | CallbackResumed _ _ _ ourCode _ => Some ourCode
  | Sweep _ => None
  end.

End Vocabulary.

(** ** A reference runtime

    An executable runtime on which the handlers can be run: base64url and
    compact JSON texts as Node writes them; the keyed digest, the number
    coercion and the URL check are stand-ins for the Node primitives. *)
Module Reference.

Definition alphabet : list ascii :=
  list_ascii_of_string "ABCDEFGHIJKLMNOPQRSTUVWXYZabcdefghijklmnopqrstuvwxyz0123456789-_".

Definition digit64 (n : N) : ascii := nth (N.to_nat n) alphabet "A"%char.

Fixpoint find_index (c : ascii) (l : list ascii) (i : N) : option N :=
  match l with
  | [] => None
  | x :: r => if Ascii.eqb x c then Some i else find_index c r (N.succ i)
  end.

Fixpoint encode_bytes (l : list N) : string :=
  match l with
  | [] => EmptyString
  | [a] =>
      let n := (a * 65536)%N in
      String (digit64 (n / 262144)) (String (digit64 (n / 4096 mod 64)) EmptyString)
  | [a; b] =>
      let n := (a * 65536 + b * 256)%N in
      String (digit64 (n / 262144)) (String (digit64 (n / 4096 mod 64))
        (String (digit64 (n / 64 mod 64)) EmptyString))
  | a :: b :: c :: r =>
      let n := (a * 65536 + b * 256 + c)%N in
      String (digit64 (n / 262144)) (String (digit64 (n / 4096 mod 64))
        (String (digit64 (n / 64 mod 64)) (String (digit64 (n mod 64)) (encode_bytes r))))
  end.

Fixpoint decode_digits (l : list N) : list N :=
  match l with
  | a :: b :: c :: d :: r =>
      let n := (a * 262144 + b * 4096 + c * 64 + d)%N in
      (n / 65536)%N :: (n / 256 mod 256)%N :: (n mod 256)%N :: decode_digits r
  | [a; b; c] =>
      let n := (a * 262144 + b * 4096 + c * 64)%N in
      [(n / 65536)%N; (n / 256 mod 256)%N]
  | [a; b] => [((a * 262144 + b * 4096) / 65536)%N]
  | _ => []
  end.

Definition bytes_of (s : string) : list N := map N_of_ascii (list_ascii_of_string s).
Definition string_of (l : list N) : string := string_of_list_ascii (map ascii_of_N l).

Definition b64url_encode (s : string) : string := encode_bytes (bytes_of s).

(** Characters outside the alphabet are skipped. *)
Definition b64url_decode (s : string) : string :=
  string_of (decode_digits
    (omap (fun c => find_index c alphabet 0%N) (list_ascii_of_string s))).

Definition quote : ascii := "034"%char.
Definition backslash : ascii := "092"%char.

Fixpoint escape (s : string) : string :=
  match s with
  | EmptyString => EmptyString
  | String c r =>
      if Ascii.eqb c quote || Ascii.eqb c backslash
      then String backslash (String c (escape r))
      else String c (escape r)
  end.

Definition quoted (s : string) : string :=
  String quote (escape s ++ String quote EmptyString).

Definition decimal (n : Z) : string := NilZero.string_of_int (Z.to_int n).

Fixpoint stringify (j : json) : string :=
  match j with
  | JNull => "null"
  | JBool b => if b then "true" else "false"
  | JNum n => decimal n
  | JStr s => quoted s
  | JArr items => "[" ++ join "," (map stringify items) ++ "]"
  | JObj fields =>
      "{" ++ join "," (map (fun kv => quoted (fst kv) ++ ":" ++ stringify (snd kv)) fields)
          ++ "}"
  end.

(** After the opening quote: the text up to the closing quote, and the rest. *)
Fixpoint string_body (s : string) : option (string * string) :=
  match s with
  | EmptyString => None
  | String c r =>
      if Ascii.eqb c quote then Some (EmptyString, r)
      else if Ascii.eqb c backslash then
        match r with
        | String d r' =>
            match string_body r' with
            | Some (x, rest) => Some (String d x, rest)
            | None => None
            end
        | EmptyString => None
        end
      else
        match string_body r with
        | Some (x, rest) => Some (String c x, rest)
        | None => None
        end
  end.

Definition is_digit (c : ascii) : bool :=
  (48 <=? N_of_ascii c)%N && (N_of_ascii c <=? 57)%N.

Fixpoint number_text (s : string) : string * string :=
  match s with
  | String c r =>
      if is_digit c || Ascii.eqb c "-"%char
      then let (x, rest) := number_text r in (String c x, rest)
      else (EmptyString, s)
  | EmptyString => (EmptyString, EmptyString)
  end.

Definition literal (word : string) (v : json) (s : string) : option (json * string) :=
  if String.prefix word s
  then Some (v, String.substring (String.length word) (String.length s - String.length word) s)
  else None.

(** A recursive-descent reader of compact JSON texts; [fuel] bounds the
    nesting and the number of items. *)
Fixpoint value (fuel : nat) (s : string) : option (json * string) :=
  match fuel with
  | O => None
  | S fuel =>
      match s with
      | EmptyString => None
      | String c r =>
          if Ascii.eqb c quote then
            match string_body r with
            | Some (x, rest) => Some (JStr x, rest)
            | None => None
            end
          else if Ascii.eqb c "["%char then
            match r with
            | String "]"%char rest => Some (JArr [], rest)
            | _ => match items fuel r with
                   | Some (xs, rest) => Some (JArr xs, rest)
                   | None => None
                   end
            end
          else if Ascii.eqb c "{"%char then
            match r with
            | String "}"%char rest => Some (JObj [], rest)
            | _ => match members fuel r with
                   | Some (fs, rest) => Some (JObj fs, rest)
                   | None => None
                   end
            end
          else if Ascii.eqb c "n"%char then literal "null" JNull s
          else if Ascii.eqb c "t"%char then literal "true" (JBool true) s
          else if Ascii.eqb c "f"%char then literal "false" (JBool false) s
          else
            let (x, rest) := number_text s in
            match NilZero.int_of_string x with
            | Some n => Some (JNum (Z.of_int n), rest)
            | None => None
            end
      end
  end
with items (fuel : nat) (s : string) : option (list json * string) :=
  match fuel with
  | O => None
  | S fuel =>
      match value fuel s with
      | Some (v, String ","%char rest) =>
          match items fuel rest with
          | Some (vs, rest') => Some (v :: vs, rest')
          | None => None
          end
      | Some (v, String "]"%char rest) => Some ([v], rest)
      | _ => None
      end
  end
with members (fuel : nat) (s : string) : option (list (string * json) * string) :=
  match fuel with
  | O => None
  | S fuel =>
      match s with
      | String c r =>
          if Ascii.eqb c quote then
            match string_body r with
            | Some (k, String ":"%char rest) =>
                match value fuel rest with
                | Some (v, String ","%char rest') =>
                    match members fuel rest' with
                    | Some (fs, rest'') => Some ((k, v) :: fs, rest'')
                    | None => None
                    end
                | Some (v, String "}"%char rest') => Some ([(k, v)], rest')
                | _ => None
                end
            | _ => None
            end
          else None
      | EmptyString => None
      end
  end.

Definition parse (s : string) : option json :=
  match value (String.length s) s with
  | Some (v, EmptyString) => Some v
  | _ => None
  end.

(** The text before the first [sep] and the text after it. *)
Fixpoint cut (sep : ascii) (s : string) : string * string :=
  match s with
  | EmptyString => (EmptyString, EmptyString)
  | String c r =>
      if Ascii.eqb c sep then (EmptyString, r)
      else let (a, b) := cut sep r in (String c a, b)
  end.

(** [k=v&k=v]; percent-decoding is left out. *)
Definition form (body : string) : list (string * string) :=
  map (cut "="%char)
      (List.filter (fun kv => negb (String.eqb kv EmptyString)) (split "&"%char body)).

#[export] Instance runtime : Runtime := {
  hmac_sha256 m := b64url_encode ("secret|" ++ m);
  base64url_encode := b64url_encode;
  base64url_decode := b64url_decode;
  JSON_stringify := stringify;
  JSON_parse := parse;
  ToNumber v :=
    Normal match v with
           | JNull => Some 0
           | JBool b => Some (if b then 1 else 0)
           | JNum n => Some n
           | JStr s => Z.of_int <$> NilZero.int_of_string s
           | _ => None
           end;
  parse_form := form;
  URL_valid s := String.prefix "https://" s || String.prefix "http://" s;
  appId := "app-id";
  baseUrl := "http://localhost:3000"
}.

End Reference.

(** ** Sample data *)

Module Sample.

Definition session : MetaSession :=
  {| userAccessToken := Some "EAAB-short";
     userId := Some "1001";
     userName := Some "Ada";
     expiresAt := Some 5184000000;
     pageTokens := ∅ |}.

Definition txn (created : Z) : OAuthTransaction :=
  {| txn_clientId := "c1";
     txn_redirectUri := "https://client/cb";
     txn_state := "s1";
     txn_codeChallenge := None;
     txn_codeChallengeMethod := None;
     txn_scope := FACEBOOK_SCOPES;
     txn_createdAt := created |}.

Definition authCode (created : Z) (used : bool) : AuthCode :=
  {| ac_clientId := "c1";
     ac_redirectUri := "https://client/cb";
     ac_metaTokens := session;
     ac_createdAt := created;
     ac_used := used |}.

Definition get (path : string) (query : list (string * string)) : Request :=
  {| req_method := "GET"; req_pathname := path; req_query := query; req_body := "" |}.

Definition post (path body : string) : Request :=
  {| req_method := "POST"; req_pathname := path; req_query := []; req_body := body |}.

(** A store holding one transaction and one unused code, both created at
    time 0, and one registered client. *)
Definition store : Store :=
  {| transactions := {[ "txn-1" := txn 0 ]};
     authCodes := {[ "code-1" := authCode 0 false ]};
     registeredClients :=
       {[ "client-1" := {| rc_redirectUris := JArr [JStr "https://client/cb"];
                           rc_createdAt := 0 |} ]};
     tokenStore := ∅ |}.

End Sample.

Module SampleUpstream.

Definition shortLived : TokenBody :=
  {| access_token := Some "EAAB-short"; expires_in := Some 3600; error_message := None |}.

Definition longLived : TokenBody :=
  {| access_token := Some "EAAB-long"; expires_in := Some 5184000; error_message := None |}.

Definition refusal : TokenBody :=
  {| access_token := None; expires_in := None; error_message := Some "Upgrade refused" |}.

Definition me : fetched (option UserBody) :=
  Answer true (Normal (Some {| user_id := Some "1001"; user_name := Some "Ada" |})).

Definition accounts : fetched (option PagesBody) :=
  Answer true (Normal (Some {| data := Pages
    [ Some {| page_id := "77"; page_name := "Bakery"; page_category := Some "Food";
              page_access_token := "EAAB-page-77";
              page_instagram_business_account := None |} ] |})).

(** The upstream answers every call. *)
Definition healthy : upstream :=
  {| up_code := Answer true (Normal (Some shortLived));
     up_longLived := Answer true (Normal (Some longLived));
     up_user := me; up_pages := accounts |}.

(** The upgrade is refused with an error body. *)
Definition upgradeRefused : upstream :=
  {| up_code := Answer true (Normal (Some shortLived));
     up_longLived := Answer false (Normal (Some refusal));
     up_user := me; up_pages := accounts |}.

(** The upgrade request does not reach the upstream. *)
Definition upgradeUnreachable : upstream :=
  {| up_code := Answer true (Normal (Some shortLived));
     up_longLived := NetworkError (TypeError "fetch failed");
     up_user := me; up_pages := accounts |}.

(** The upgrade is refused with a body that is not JSON. *)
Definition upgradeGarbled : upstream :=
  {| up_code := Answer true (Normal (Some shortLived));
     up_longLived := Answer false (Throw (JsError "SyntaxError" "Unexpected token <"));
     up_user := me; up_pages := accounts |}.

(** The short-lived token comes without [expires_in] and the upgrade is
    refused: the credential set has no expiry. *)
Definition noExpiry : upstream :=
  {| up_code := Answer true (Normal (Some
       {| access_token := Some "EAAB-short"; expires_in := None; error_message := None |}));
     up_longLived := Answer false (Normal (Some refusal));
     up_user := me; up_pages := accounts |}.

(** The code exchange itself is refused. *)
Definition codeRefused : upstream :=
  {| up_code := Answer false (Normal (Some
       {| access_token := None; expires_in := None;
          error_message := Some "This authorization code has been used." |}));
     up_longLived := Answer true (Normal (Some longLived));
     up_user := me; up_pages := accounts |}.

Definition env (up : upstream) : Env :=
  {| Date_now := fun n => (1000 + Z.of_nat n);
     randomBytes := fun n => match n with O => "r0" | _ => "r1" end;
     fetch := up |}.

End SampleUpstream.

Module SampleToken.

(** The token issued at time 0 for the claims [{sub: "a"}] with a time to
    live of one second, on the reference runtime: its expiry claim is 1. *)
Definition token : string :=
  createJWT (H := Reference.runtime) [("sub", JStr "a")] 1 0 "j".

Definition payload : json :=
  JObj [("sub", JStr "a"); ("iat", JNum 0); ("exp", JNum 1); ("jti", JStr "j")].

(** The text of the bearer token the sample redemption issues, at second 1
    with the draws "r0" and "r1": the header and the payload in base64url,
    and the digest of the reference runtime. *)
Definition bearer : string :=
  "eyJhbGciOiJIUzI1NiIsInR5cCI6IkpXVCJ9."
  ++ "eyJzdWIiOiJyMCIsInNjb3BlIjoicGFnZXNfc2hvd19saXN0IHBhZ2VzX3JlYWRfZW5nYWdlbWVudCBwYWdlc19tYW5hZ2VfcG9zdHMgcGFnZXNfcmVhZF91c2VyX2NvbnRlbnQgcGFnZXNfbWFuYWdlX2VuZ2FnZW1lbnQgcmVhZF9pbnNpZ2h0cyBpbnN0YWdyYW1fYmFzaWMgaW5zdGFncmFtX2NvbnRlbnRfcHVibGlzaCBpbnN0YWdyYW1fbWFuYWdlX2NvbW1lbnRzIGluc3RhZ3JhbV9tYW5hZ2VfaW5zaWdodHMiLCJpYXQiOjEsImV4cCI6MzYwMSwianRpIjoicjEifQ."
  ++ "c2VjcmV0fGV5SmhiR2NpT2lKSVV6STFOaUlzSW5SNWNDSTZJa3BYVkNKOS5leUp6ZFdJaU9pSnlNQ0lzSW5OamIzQmxJam9pY0dGblpYTmZjMmh2ZDE5c2FYTjBJSEJoWjJWelgzSmxZV1JmWlc1bllXZGxiV1Z1ZENCd1lXZGxjMTl0WVc1aFoyVmZjRzl6ZEhNZ2NHRm5aWE5mY21WaFpGOTFjMlZ5WDJOdmJuUmxiblFnY0dGblpYTmZiV0Z1WVdkbFgyVnVaMkZuWlcxbGJuUWdjbVZoWkY5cGJuTnBaMmgwY3lCcGJuTjBZV2R5WVcxZlltRnphV01nYVc1emRHRm5jbUZ0WDJOdmJuUmxiblJmY0hWaWJHbHphQ0JwYm5OMFlXZHlZVzFmYldGdVlXZGxYMk52YlcxbGJuUnpJR2x1YzNSaFozSmhiVjl0WVc1aFoyVmZhVzV6YVdkb2RITWlMQ0pwWVhRaU9qRXNJbVY0Y0NJNk16WXdNU3dpYW5ScElqb2ljakVpZlE".

End SampleToken.

Module SampleCollision.

Definition otherSession : MetaSession :=
  {| userAccessToken := Some "EAAB-other";
     userId := Some "2002";
     userName := Some "Grace";
     expiresAt := None;
     pageTokens := ∅ |}.

(** The sample store with a second unused code, issued to another user. *)
Definition store : Store :=
  {| transactions := transactions Sample.store;
     authCodes := <[ "code-2" := {| ac_clientId := "c2";
                                    ac_redirectUri := "https://other/cb";
                                    ac_metaTokens := otherSession;
                                    ac_createdAt := 0;
                                    ac_used := false |} ]> (authCodes Sample.store);
     registeredClients := registeredClients Sample.store;
     tokenStore := tokenStore Sample.store |}.

End SampleCollision.

Module SampleReplay.

Definition redeem : Request :=
  Sample.post "/oauth/token" "grant_type=authorization_code&code=code-1".

(** The same code presented with the client id, redirect URI and PKCE
    verifier of somebody else. *)
Definition redeemIntruder : Request :=
  Sample.post "/oauth/token"
    "grant_type=authorization_code&code=code-1&client_id=someone-else&redirect_uri=https://evil/cb&code_verifier=wrong".

Definition env : Env := SampleUpstream.env SampleUpstream.healthy.

End SampleReplay.

Module SampleAuthorize.

(** A client id the registration endpoint never issued, and a redirect URI
    no registered client lists. *)
Definition request : Request :=
  Sample.get "/oauth/authorize"
    [ ("client_id", "never-registered"); ("redirect_uri", "https://elsewhere/cb");
      ("response_type", "code"); ("state", "s9") ].

(** The sample store with no registered client at all. *)
Definition noClients : Store :=
  {| transactions := transactions Sample.store;
     authCodes := authCodes Sample.store;
     registeredClients := ∅;
     tokenStore := tokenStore Sample.store |}.

End SampleAuthorize.

Module SampleFlow.

Definition env (now : Z) (draw0 draw1 : string) : Env :=
  {| Date_now := fun n => now + Z.of_nat n;
     randomBytes := fun n => match n with O => draw0 | _ => draw1 end;
     fetch := SampleUpstream.healthy |}.

(** The client starts an authorization. *)
Definition started : Store * Outcome :=
  handle (H := Reference.runtime)
    (Sample.get "/oauth/authorize"
       [ ("client_id", "c1"); ("redirect_uri", "https://client/cb");
         ("response_type", "code"); ("state", "s1") ])
    (env 1000 "txn-A" "unused") empty_store.

(** The upstream redirects back with its code and the transaction id. *)
Definition calledBack : Store * Outcome :=
  handle (H := Reference.runtime)
    (Sample.get "/oauth/callback" [("code", "upstream_code_1"); ("state", "txn-A")])
    (env 2000 "local-code" "unused") (fst started).

(** The client redeems the local code. *)
Definition redeemed : Store * Outcome :=
  handle (H := Reference.runtime)
    (Sample.post "/oauth/token" "grant_type=authorization_code&code=local-code")
    (env 3000 "sub-1" "jti-1") (fst calledBack).

Definition bearer : string :=
  createJWT (H := Reference.runtime) (bearer_claims "sub-1") 3600 3000 "jti-1".

(** The transaction the authorize endpoint stored under ["txn-A"]. *)
Definition startedTxn : OAuthTransaction :=
  {| txn_clientId := "c1";
     txn_redirectUri := "https://client/cb";
     txn_state := "s1";
     txn_codeChallenge := None;
     txn_codeChallengeMethod := None;
     txn_scope := FACEBOOK_SCOPES;
     txn_createdAt := 1000 |}.

(** The same callback when the upstream refuses the code. *)
Definition calledBackRefused : Store * Outcome :=
  handle (H := Reference.runtime)
    (Sample.get "/oauth/callback" [("code", "upstream_code_1"); ("state", "txn-A")])
    (SampleUpstream.env SampleUpstream.codeRefused) (fst started).

(** The same callback when the upstream gives the token no expiry. *)
Definition calledBackNoExpiry : Store * Outcome :=
  handle (H := Reference.runtime)
    (Sample.get "/oauth/callback" [("code", "upstream_code_1"); ("state", "txn-A")])
    (SampleUpstream.env SampleUpstream.noExpiry) (fst started).

Definition redeem : Request :=
  Sample.post "/oauth/token" "grant_type=authorization_code&code=local-code".

(** The code record the callback stored under ["local-code"]. *)
Definition issuedCode : AuthCode :=
  default (Sample.authCode 0 true) (authCodes (fst calledBack) !! "local-code").

(** What happens after the redemption in the two replays below: the sweep
    runs, early or late, and another client starts an authorization. *)
Definition later (sweepAt : Z) : list event :=
  [ Sweep sweepAt;
    Handle (Sample.get "/oauth/authorize"
              [ ("client_id", "c2"); ("redirect_uri", "https://other/cb");
                ("response_type", "code") ])
           (env (sweepAt + 5) "state-B" "txn-B") ].

End SampleFlow.

(** ** Graph API client ([client/meta-graph-client.ts])

    The client and the formatters are written against JavaScript objects as
    [response.json()] returns them: they are modelled on [json] values, read
    with the property names the code uses. *)

(** The conversions of JavaScript the templates rely on: [`${v}`] for a value
    that is not [undefined], and [v.toLocaleString()] for a value that is
    neither [null] nor [undefined].  Both can throw, and the second depends on
    the locale of the process. *)
Class Conversions : Type := {
  ToString : json -> completion string;
  toLocaleString : json -> completion string
}.

(** [String(n)] for an integer. *)
Definition Number_toString (n : Z) : string := NilZero.string_of_int (Z.to_int n).

Definition newline : string := String "010"%char EmptyString.

(** [s.includes(c)] for a one-character [c]. *)
Fixpoint includes (c : ascii) (s : string) : bool :=
  match s with
  | EmptyString => false
  | String a r => Ascii.eqb a c || includes c r
  end.

(** [a || b] on two nullable strings. *)
Definition or_nullable (a b : option string) : option string :=
  if nonempty a then a else b.

Definition GRAPH_API_BASE : string := "https://graph.facebook.com/v21.0".

Record MetaGraphClientConfig : Type := {
  cfg_appId : string;
  cfg_appSecret : string;
  cfg_accessToken : option string;
  cfg_userAgent : option string
}.

Record MetaGraphClient : Type := {
  mgc_appId : string;
  mgc_appSecret : string;
  mgc_accessToken : option string;
  mgc_userAgent : string
}.

(** [new MetaGraphClient(config)] *)
Definition newMetaGraphClient (config : MetaGraphClientConfig) : MetaGraphClient :=
  {| mgc_appId := cfg_appId config;
     mgc_appSecret := cfg_appSecret config;
     mgc_accessToken := cfg_accessToken config;
     mgc_userAgent := or_else (cfg_userAgent config) "MetaGraphMCPServer/1.0.0" |}.

(** The [options] of [makeRequest]. *)
Record RequestOptions : Type := {
  opt_method : option string;
  opt_body : option string;
  opt_accessToken : option string
}.

Definition no_options : RequestOptions :=
  {| opt_method := None; opt_body := None; opt_accessToken := None |}.

(** What [makeRequest] hands to [fetch]. *)
Record GraphRequest : Type := {
  gr_url : string;
  gr_method : string;
  gr_headers : list (string * string);
  gr_body : option string
}.

(** [makeRequest] up to the call of [fetch]. *)
Definition buildRequest (client : MetaGraphClient) (path : string) (options : RequestOptions)
  : completion GraphRequest :=
  let token := or_nullable (opt_accessToken options) (mgc_accessToken client) in
  match or_undefined token with
  | None => Throw (JsError "Error" "No access token available")
  | Some token =>
      let url := if String.prefix "http" path then path else GRAPH_API_BASE ++ path in
      let separator := if includes "?" url then "&" else "?" in
      Normal {| gr_url := url ++ separator ++ "access_token=" ++ token;
                gr_method := or_else (opt_method options) "GET";
                gr_headers := [ ("User-Agent", mgc_userAgent client);
                                ("Content-Type", "application/json") ];
                gr_body := opt_body options |}
  end.

(** [v?.k] *)
Definition optional_prop (v : option json) (k : string) : completion (option json) :=
  match v with
  | None => Normal None
  | Some JNull => Normal None
  | Some v => get_prop v k
  end.

Section Client.
Context `{Conversions}.

(** [`${v}`] *)
Definition template (v : option json) : completion string :=
  match v with
  | None => Normal "undefined"
  | Some v => ToString v
  end.

(** [handleResponse(response)], given the [ok] flag and what [json()] gives. *)
Definition handleResponse (r : bool * completion json) : completion json :=
  let! data := snd r in
  let! failed :=
    (if negb (fst r) then Normal true
     else let! e := get_prop data "error" in Normal (truthy e)) in
  if failed then
    let! err := get_prop data "error" in
    let! code := optional_prop err "code" in
    let! codeText := template code in
    let! message := optional_prop err "message" in
    let! messageText :=
      (if truthy message then template message else Normal "Unknown error") in
    Throw (JsError "Error" ("Meta API Error [" ++ codeText ++ "]: " ++ messageText))
  else Normal data.

(** [makeRequest(path, options)]; [net] is what the network answers to a
    request. *)
Definition makeRequest (client : MetaGraphClient) (path : string) (options : RequestOptions)
    (net : GraphRequest -> fetched json) : completion json :=
  let! request := buildRequest client path options in
  let! r := response (net request) in
  handleResponse r.

(** [getMyPages()]: [response.data || []] *)
Definition getMyPages (client : MetaGraphClient) (net : GraphRequest -> fetched json)
  : completion json :=
  let! r := makeRequest client
              "/me/accounts?fields=id,name,category,about,description,website,fan_count,followers_count,picture,cover,instagram_business_account,access_token"
              no_options net in
  let! data := get_prop r "data" in
  Normal (match data with
          | Some v => if truthy data then v else JArr []
          | None => JArr []
          end).

(** [getPost(postId, pageAccessToken)] *)
Definition getPost (client : MetaGraphClient) (postId : string)
    (pageAccessToken : option string) (net : GraphRequest -> fetched json)
  : completion json :=
  let token := or_nullable pageAccessToken (mgc_accessToken client) in
  makeRequest client
    ("/" ++ postId ++ "?fields=id,message,story,created_time,updated_time,permalink_url,full_picture,attachments,shares,reactions.summary(true),comments.summary(true),is_published")
    {| opt_method := None; opt_body := None; opt_accessToken := token |} net.

(** [deletePost(postId, pageAccessToken)] *)
Definition deletePost (client : MetaGraphClient) (postId pageAccessToken : string)
    (net : GraphRequest -> fetched json) : completion unit :=
  let! _ := makeRequest client ("/" ++ postId)
              {| opt_method := Some "DELETE"; opt_body := None;
                 opt_accessToken := Some pageAccessToken |} net in
  Normal tt.

(** ** Formatters ([utils/formatters.ts]) *)

(** [v || "N/A"] inside a template, for a value read from an object. *)
Definition or_NA (v : option json) : completion string :=
  if truthy v then template v else Normal "N/A".

(** [v?.toLocaleString() || "N/A"] *)
Definition localized_or_NA (v : option json) : completion string :=
  match v with
  | None => Normal "N/A"
  | Some JNull => Normal "N/A"
  | Some v =>
      let! text := toLocaleString v in
      Normal (if String.eqb text "" then "N/A" else text)
  end.

(** The lines [formatPageList] pushes for the page at index [i]. *)
Definition page_lines (i : nat) (page : json) : completion (list string) :=
  let! name := get_prop page "name" in
  let! nameText := template name in
  let! id := get_prop page "id" in
  let! idText := template id in
  let! category := get_prop page "category" in
  let! categoryText := or_NA category in
  let! fanCount := get_prop page "fanCount" in
  let! fansText := localized_or_NA fanCount in
  let! instagram := get_prop page "instagramBusinessAccount" in
  let! instagramLines :=
    (if truthy instagram then
       let! accountId := optional_prop instagram "id" in
       let! accountText := template accountId in
       Normal ["- **Instagram**: Connected (" ++ accountText ++ ")"]
     else Normal []) in
  Normal (app [ "## " ++ Number_toString (Z.of_nat i + 1) ++ ". " ++ nameText;
                "- **ID**: " ++ idText;
                "- **Category**: " ++ categoryText;
                "- **Fans**: " ++ fansText ]
              (app instagramLines [""])).

(** [pages.forEach((page, i) => ...)], from index [i] on. *)
Fixpoint pages_lines (i : nat) (pages : list json) : completion (list string) :=
  match pages with
  | [] => Normal []
  | page :: rest =>
      let! first := page_lines i page in
      let! others := pages_lines (S i) rest in
      Normal (app first others)
  end.

(** [formatPageList(pages)].  The caller passes whatever [response.data] was:
    on a value that is not an array, [pages.length] is read as for any object
    and [pages.forEach] is not a function. *)
Definition formatPageList (pages : json) : completion string :=
  match pages with
  | JArr [] => Normal "No pages found."
  | JArr items =>
      let! lines := pages_lines 0 items in
      Normal (join newline
                (("# Your Facebook Pages (" ++ Number_toString (Z.of_nat (length items)) ++ ")")
                 :: "" :: lines))
  | JNull => Throw (TypeError "Cannot read properties of null")
  | JStr s =>
      if String.eqb s "" then Normal "No pages found."
      else Throw (TypeError "pages.forEach is not a function")
  | JObj fields =>
      match assoc "length" fields with
      | Some (JNum 0) => Normal "No pages found."
      | len =>
          let! _ := template len in
          Throw (TypeError "pages.forEach is not a function")
      end
  | JBool _ | JNum _ => Throw (TypeError "pages.forEach is not a function")
  end.

(** ** Tools of the MCP server ([index.ts]) *)

(** [if (!session?.userAccessToken) throw new Error("Not authenticated")] *)
Definition authenticated (session : option MetaSession) : completion MetaSession :=
  match session with
  | Some s =>
      if nonempty (userAccessToken s) then Normal s
      else Throw (JsError "Error" "Not authenticated")
  | None => Throw (JsError "Error" "Not authenticated")
  end.

(** [session.pageTokens[page_id]?.accessToken], refused when falsy. *)
Definition pageToken (session : MetaSession) (page_id : string) : completion string :=
  match pageTokens session !! page_id with
  | Some info =>
      if String.eqb (pt_accessToken info) ""
      then Throw (JsError "Error" ("No access token for page " ++ page_id))
      else Normal (pt_accessToken info)
  | None => Throw (JsError "Error" ("No access token for page " ++ page_id))
  end.

(** The server's own settings the tools pass to the client. *)
Record ServerConfig : Type := {
  server_appId : string;
  server_appSecret : string;
  server_userAgent : string
}.

(** [createMetaGraphClientFromSession(session)] *)
Definition createMetaGraphClientFromSession (config : ServerConfig) (session : MetaSession)
  : MetaGraphClient :=
  newMetaGraphClient
    {| cfg_appId := server_appId config;
       cfg_appSecret := server_appSecret config;
       cfg_accessToken := userAccessToken session;
       cfg_userAgent := Some (server_userAgent config) |}.

(** The tool [get_my_pages]. *)
Definition get_my_pages (config : ServerConfig) (session : option MetaSession)
    (net : GraphRequest -> fetched json) : completion string :=
  let! s := authenticated session in
  let client := createMetaGraphClientFromSession config s in
  let! pages := getMyPages client net in
  formatPageList pages.

(** The tool [delete_post]. *)
Definition delete_post (config : ServerConfig) (post_id page_id : string)
    (session : option MetaSession) (net : GraphRequest -> fetched json)
  : completion string :=
  let! s := authenticated session in
  let! token := pageToken s page_id in
  let client := createMetaGraphClientFromSession config s in
  let! _ := deletePost client post_id token net in
  Normal ("Post " ++ post_id ++ " deleted successfully.").

End Client.

(** A reference for the conversions: strings, integers, booleans and [null]
    as JavaScript prints them, numbers localized as the locale [en-US] groups
    them; arrays and objects are stand-ins. *)
Module ReferenceConversions.

Fixpoint print (v : json) : string :=
  match v with
  | JNull => "null"
  | JBool b => if b then "true" else "false"
  | JNum n => Number_toString n
  | JStr s => s
  | JArr items =>
      join "," (map (fun x => match x with JNull => EmptyString | _ => print x end) items)
  | JObj _ => "[object Object]"
  end.

(** The digits of a number, a comma before every group of three. *)
Fixpoint grouped (digits : list ascii) : string :=
  match digits with
  | [] => EmptyString
  | d :: rest =>
      String d (if (0 <? length rest)%nat && (length rest mod 3 =? 0)%nat
                then String ","%char (grouped rest) else grouped rest)
  end.

Definition localized (n : Z) : string :=
  if Z.ltb n 0
  then String "-"%char (grouped (list_ascii_of_string (Number_toString (- n))))
  else grouped (list_ascii_of_string (Number_toString n)).

#[export] Instance conversions : Conversions := {
  ToString v := Normal (print v);
  toLocaleString v := Normal match v with
                             | JNum n => localized n
                             | _ => print v
                             end
}.

End ReferenceConversions.

Module SampleGraph.

Definition config : ServerConfig :=
  {| server_appId := "app-id"; server_appSecret := "app-secret";
     server_userAgent := "MetaGraphMCPServer/1.0.0" |}.

(** A session with a token for page 77 only. *)
Definition session : MetaSession :=
  {| userAccessToken := Some "EAAB-user";
     userId := Some "1001";
     userName := Some "Ada";
     expiresAt := None;
     pageTokens := {[ "77" := {| pt_accessToken := "EAAB-page-77"; pt_name := "Bakery";
                                 pt_category := Some "Food";
                                 pt_instagramBusinessAccountId := None |} ]} |}.

(** A page as the Graph API names its fields. *)
Definition bakery : json :=
  JObj [ ("id", JStr "77"); ("name", JStr "Bakery"); ("category", JStr "Food");
         ("fan_count", JNum 10000);
         ("instagram_business_account", JObj [("id", JStr "ig77")]) ].

(** The same page as the tests of the formatters write it. *)
Definition bakeryCamel : json :=
  JObj [ ("id", JStr "77"); ("name", JStr "Bakery"); ("category", JStr "Food");
         ("fanCount", JNum 10000);
         ("instagramBusinessAccount", JObj [("id", JStr "ig77")]) ].

Definition answers (body : json) : GraphRequest -> fetched json :=
  fun _ => Answer true (Normal body).

Definition refuses (status_body : json) : GraphRequest -> fetched json :=
  fun _ => Answer false (Normal status_body).

(** Every request is recorded in the answer: the body is the URL asked for. *)
Definition echoes : GraphRequest -> fetched json :=
  fun request => Answer true (Normal (JObj [ ("url", JStr (gr_url request));
                                            ("method", JStr (gr_method request)) ])).

(** The network is down, and the failure names the URL that was asked for. *)
Definition rejects : GraphRequest -> fetched json :=
  fun request => NetworkError (TypeError (gr_url request)).

End SampleGraph.

Module SampleRegister.

Definition body : json := JObj [("redirect_uris", JArr [JStr "https://client/cb"])].

(** A registration naming one redirect URI. *)
Definition request : Request := Sample.post "/oauth/register" (Reference.stringify body).

(** A registration whose body is not JSON. *)
Definition garbled : Request := Sample.post "/oauth/register" "redirect_uris=x".

Definition env : Env := SampleFlow.env 500 "client-9" "unused".

End SampleRegister.

(** ** Vocabulary of the further properties *)

(** The event leaves in place a token record stored at [storedAt] under
    [jti]: a sweep runs no later than 3600 s after it was stored, a redemption
    draws another subject identifier. *)
Definition keeps_record (jti : string) (storedAt : Z) (ev : event) : Prop :=
  match ev with
  | Handle req env => req_pathname req = "/oauth/token" -> randomBytes env 0 <> jti
  | CallbackResumed _ _ _ _ _ => True
  | Sweep now => now - storedAt <= 3600000
  end.

(** The upstream with other [ok] flags on the two calls of the third step. *)
Definition with_step3_status (okUser okPages : bool) (up : upstream) : upstream :=
  {| up_code := up_code up;
     up_longLived := up_longLived up;
     up_user := match up_user up with
                | Answer _ body => Answer okUser body
                | NetworkError e => NetworkError e
                end;
     up_pages := match up_pages up with
                 | Answer _ body => Answer okPages body
                 | NetworkError e => NetworkError e
                 end |}.

(** The four paths whose handlers write to the store. *)
Definition stateful_path (path : string) : bool :=
  String.eqb path "/oauth/register" || String.eqb path "/oauth/authorize"
  || String.eqb path "/oauth/callback" || String.eqb path "/oauth/token".

(** The page with its member [k] set to [v]; a value that is no object is
    left alone. *)
Definition with_member (k : string) (v : json) (page : json) : json :=
  match page with
  | JObj fs => JObj (obj_set k v fs)
  | _ => page
  end.

(** The members of a page [formatPageList] reads. *)
Definition listed_member (k : string) : bool :=
  String.eqb k "name" || String.eqb k "id" || String.eqb k "category"
  || String.eqb k "fanCount" || String.eqb k "instagramBusinessAccount".

(** The network is down for every request. *)
Definition unreachable : GraphRequest -> fetched json :=
  fun _ => NetworkError (TypeError "fetch failed").

(** * Properties *)

(** ** The sweep *)

Section Purge.
Context {V : Type} (createdAt : V -> Z) (ttl now : Z).

(** The loop deletes the visited keys that are too old from whatever map it
    started with. *)
Lemma purge_fold_lookup (b m : gmap string V) (k : string) :
  map_fold (fun k v acc => if Z.ltb ttl (now - createdAt v) then delete k acc else acc) b m !! k
  = match m !! k with
    | Some v => if Z.ltb ttl (now - createdAt v) then None else b !! k
    | None => b !! k
    end.
Proof.
  revert k.
  apply (map_fold_weak_ind
    (fun r m' => forall k, r !! k = match m' !! k with
                                    | Some v => if Z.ltb ttl (now - createdAt v) then None
                                                else b !! k
                                    | None => b !! k
                                    end)).
  - intros k. by rewrite lookup_empty.
  - intros i x m' r Hi IH k.
    destruct (decide (i = k)) as [->|Hne].
    + rewrite lookup_insert_eq.
      destruct (Z.ltb ttl (now - createdAt x)).
      * by rewrite lookup_delete_eq.
      * by rewrite IH, Hi.
    + rewrite lookup_insert_ne by done.
      destruct (Z.ltb ttl (now - createdAt x)).
      * by rewrite lookup_delete_ne.
      * apply IH.
Qed.

Lemma purge_lookup (m : gmap string V) (k : string) :
  purge createdAt ttl now m !! k
  = match m !! k with
    | Some v => if Z.ltb ttl (now - createdAt v) then None else Some v
    | None => None
    end.
Proof.
  unfold purge. rewrite purge_fold_lookup.
  destruct (m !! k) as [v|] eqn:E; [|done].
  by destruct (Z.ltb ttl (now - createdAt v)).
Qed.

(** An entry is there after the loop exactly when it was there before and
    its age does not exceed the time to live. *)
Lemma purge_lookup_Some (m : gmap string V) (k : string) (v : V) :
  purge createdAt ttl now m !! k = Some v <-> m !! k = Some v /\ now - createdAt v <= ttl.
Proof.
  rewrite purge_lookup. destruct (m !! k) as [w|]; [|by split; [|intros [? _]]].
  destruct (Z.ltb_spec ttl (now - createdAt w)); split.
  - done.
  - intros [[= ->] ?]. lia.
  - intros [= ->]. split; [done|lia].
  - by intros [? _].
Qed.

Lemma purge_lookup_None (m : gmap string V) (k : string) :
  purge createdAt ttl now m !! k = None
  <-> m !! k = None \/ exists v, m !! k = Some v /\ ttl < now - createdAt v.
Proof.
  rewrite purge_lookup. destruct (m !! k) as [w|]; [|by split; [left|]].
  destruct (Z.ltb_spec ttl (now - createdAt w)); split.
  - intros _. right. by exists w.
  - done.
  - done.
  - intros [|(v & [= ->] & ?)]; [done|lia].
Qed.

End Purge.

(** C8.  One run of the sweep keeps, in each swept table, exactly the entries
    whose age does not exceed the time to live of the table (600 s for
    transactions, 300 s for codes, 3600 s for token records) and removes the
    others; it leaves the registered clients as they are.  So a transaction
    older than 600 s at a sweep is gone after it, and a callback carrying its
    id is answered with a 400 JSON error instead of starting an exchange. *)
Theorem sweep_removes_exactly_the_expired (now : Z) (st : Store) :
  (forall k v, transactions (sweep now st) !! k = Some v
     <-> transactions st !! k = Some v /\ now - txn_createdAt v <= 600000)
  /\ (forall k v, authCodes (sweep now st) !! k = Some v
     <-> authCodes st !! k = Some v /\ now - ac_createdAt v <= 300000)
  /\ (forall k v, tokenStore (sweep now st) !! k = Some v
     <-> tokenStore st !! k = Some v /\ now - tr_createdAt v <= 3600000)
  /\ registeredClients (sweep now st) = registeredClients st
  /\ (forall k txn, transactions st !! k = Some txn ->
       600000 < now - txn_createdAt txn ->
       transactions (sweep now st) !! k = None
       /\ forall req, param "state" (req_query req) = Some k ->
            exists data, callback_begin req (sweep now st) = inl (Json 400 data)).
Proof.
  split; [intros k v; apply purge_lookup_Some|].
  split; [intros k v; apply purge_lookup_Some|].
  split; [intros k v; apply purge_lookup_Some|].
  split; [reflexivity|].
  intros k txn Hin Hold. split.
  - simpl. apply purge_lookup_None. right. eauto.
  - intros req Hk. unfold callback_begin. rewrite Hk.
    assert (Hgone : transactions (sweep now st) !! k = None).
    { simpl. apply purge_lookup_None. right. eauto. }
    destruct (nonempty _); [by eexists|].
    destruct (param "code" _) as [code|]; [|by eexists].
    destruct (_ || _); [by eexists|].
    rewrite Hgone. by eexists.
Qed.

(** At time 700000 the transaction created at time 0 is swept; the callback
    that carries its id gets a JSON error. *)
Lemma sweep_removes_exactly_the_expired_witness :
  transactions (sweep 700000 Sample.store) !! "txn-1" = None
  /\ exists data,
      callback_begin (Sample.get "/oauth/callback" [("code", "up-1"); ("state", "txn-1")])
        (sweep 700000 Sample.store) = inl (Json 400 data).
Proof.
  destruct (sweep_removes_exactly_the_expired 700000 Sample.store)
    as (_ & _ & _ & _ & Hgone).
  destruct (Hgone "txn-1" (Sample.txn 0)) as [Hnone Hcb].
  - reflexivity.
  - simpl. lia.
  - split; [exact Hnone|]. apply Hcb. reflexivity.
Defined.

(** ** The upstream exchange *)



(** C3.  What the exchange does with a failure of the upgrade call, the
    first call having been answered with a success and a body other than
    [null].  A refusal, that is a non-success response whose body decodes, is
    swallowed as the claim says: when the two calls of the third step are
    answered with bodies other than [null] and the pages can be collected, the
    exchange returns the credential set with the access token and the expiry
    of the short-lived token.  A failure of the network is not swallowed, nor
    is an answer whose body does not decode: the exchange throws that very
    error, and a callback that awaited it, for a transaction whose redirect
    URI parses, answers with the [server_error] redirect and stores nothing. *)
Theorem upgrade_failure_swallowed_only_when_refused `{Runtime}
    (code redirectUri : string) (up : upstream) (now : Z) (tokens : TokenBody) :
  up_code up = Answer true (Normal (Some tokens)) ->
  (forall refusal okUser okPages userData pagesData pages,
      up_longLived up = Answer false (Normal refusal) ->
      up_user up = Answer okUser (Normal (Some userData)) ->
      up_pages up = Answer okPages (Normal (Some pagesData)) ->
      collect_pages (data pagesData) = Normal pages ->
      exchangeFacebookCode code redirectUri up now
      = Normal {| userAccessToken := access_token tokens;
                  userId := user_id userData;
                  userName := user_name userData;
                  expiresAt := expiry (expires_in tokens) now;
                  pageTokens := pages |})
  /\ (forall e, up_longLived up = NetworkError e ->
        exchangeFacebookCode code redirectUri up now = Throw e)
  /\ (forall ok e, up_longLived up = Answer ok (Throw e) ->
        exchangeFacebookCode code redirectUri up now = Throw e)
  /\ (forall e txnId txn ourCode now' st,
        exchangeFacebookCode code redirectUri up now = Throw e ->
        URL_valid (txn_redirectUri txn) = true ->
        callback_end txnId txn (exchangeFacebookCode code redirectUri up now) ourCode now' st
        = (st, Responded (Found {| url_href := txn_redirectUri txn;
                                   url_searchParams :=
                                     [ ("error", "server_error");
                                       ("error_description", String_of_exn e);
                                       ("state", txn_state txn) ] |}))).
Proof.
  intros H1. unfold exchangeFacebookCode. rewrite H1. cbn [response bind fst snd negb member].
  split; [|split; [|split]].
  - intros refusal okUser okPages userData pagesData pages H2 H3 H4 Hpages.
    rewrite H2, H3, H4. cbn [response bind fst snd member]. by rewrite Hpages.
  - intros e H2. by rewrite H2.
  - intros ok e H2. by rewrite H2.
  - intros e txnId txn ourCode now' st -> Hurl.
    unfold callback_end, client_redirect. by rewrite Hurl.
Qed.

(** The failing input: the code call is answered, the upgrade request does
    not reach the upstream.  The exchange throws, and the callback answers
    with the [server_error] redirect; nothing is stored.  The same upstream
    with the upgrade refused gives the credential set of the short-lived
    token. *)
Lemma upgrade_failure_swallowed_only_when_refused_witness :
  exchangeFacebookCode "up-1" "http://localhost:3000/oauth/callback"
    SampleUpstream.upgradeUnreachable 1000 = Throw (TypeError "fetch failed")
  /\ callback (H := Reference.runtime)
       (Sample.get "/oauth/callback" [("code", "up-1"); ("state", "txn-1")])
       (SampleUpstream.env SampleUpstream.upgradeUnreachable) Sample.store
     = (Sample.store,
        Responded (Found {| url_href := "https://client/cb";
                            url_searchParams :=
                              [ ("error", "server_error");
                                ("error_description", "TypeError: fetch failed");
                                ("state", "s1") ] |}))
  /\ exchangeFacebookCode "up-1" "http://localhost:3000/oauth/callback"
       SampleUpstream.upgradeGarbled 1000
     = Throw (JsError "SyntaxError" "Unexpected token <")
  /\ exists session,
       exchangeFacebookCode "up-1" "http://localhost:3000/oauth/callback"
         SampleUpstream.upgradeRefused 1000 = Normal session
       /\ userAccessToken session = Some "EAAB-short"
       /\ expiresAt session = Some 3601000.
Proof.
  destruct (upgrade_failure_swallowed_only_when_refused (H := Reference.runtime)
              "up-1" "http://localhost:3000/oauth/callback"
              SampleUpstream.upgradeUnreachable 1000 SampleUpstream.shortLived eq_refl)
    as (_ & Hnet & _ & Hcb).
  destruct (upgrade_failure_swallowed_only_when_refused (H := Reference.runtime)
              "up-1" "http://localhost:3000/oauth/callback"
              SampleUpstream.upgradeGarbled 1000 SampleUpstream.shortLived eq_refl)
    as (_ & _ & Hbody & _).
  destruct (upgrade_failure_swallowed_only_when_refused (H := Reference.runtime)
              "up-1" "http://localhost:3000/oauth/callback"
              SampleUpstream.upgradeRefused 1000 SampleUpstream.shortLived eq_refl)
    as (Hrefused & _).
  split; [exact (Hnet _ eq_refl)|].
  split; [exact (Hcb _ "txn-1" (Sample.txn 0) "r0" 1000 Sample.store
                   (Hnet _ eq_refl) eq_refl)|].
  split; [exact (Hbody _ _ eq_refl)|].
  eexists. split; [exact (Hrefused _ _ _ _ _ _ eq_refl eq_refl eq_refl eq_refl)|].
  split; reflexivity.
Defined.

(** ** Dispatch *)

Section Dispatch.
Context `{Runtime}.

Lemma handle_authorize (req : Request) (env : Env) (st : Store) :
  req_method req = "GET" -> req_pathname req = "/oauth/authorize" ->
  handle req env st = authorize req env st.
Proof. intros Hm Hp. unfold handle. by rewrite Hm, Hp. Qed.

Lemma handle_callback (req : Request) (env : Env) (st : Store) :
  req_method req = "GET" -> req_pathname req = "/oauth/callback" ->
  handle req env st = callback req env st.
Proof. intros Hm Hp. unfold handle. by rewrite Hm, Hp. Qed.

Lemma handle_token (req : Request) (env : Env) (st : Store) :
  req_method req = "POST" -> req_pathname req = "/oauth/token" ->
  handle req env st = token req env st.
Proof. intros Hm Hp. unfold handle. by rewrite Hm, Hp. Qed.

(** The exchange starts only for a transaction that is in the table. *)
Lemma callback_begin_found (req : Request) (st : Store) (code txnId : string)
    (txn : OAuthTransaction) :
  callback_begin req st = inr (code, txnId, txn) ->
  param "code" (req_query req) = Some code
  /\ param "state" (req_query req) = Some txnId
  /\ transactions st !! txnId = Some txn.
Proof.
  unfold callback_begin. destruct (nonempty _); [done|].
  destruct (param "code" _) as [c|]; [|done].
  destruct (param "state" _) as [t|]; [|done].
  destruct (_ || _); [done|].
  destruct (transactions st !! t) as [x|] eqn:E; [|done].
  by intros [= -> -> ->].
Qed.

End Dispatch.

(** ** The callback endpoint *)

(** Whatever ran while the exchange was pending: when the exchange has
    succeeded, the second segment of the callback leaves no transaction under
    the id; when it has failed, the segment leaves the store as it finds it. *)
Lemma callback_end_success_deletes `{Runtime} (txnId : string) (txn : OAuthTransaction)
    (session : MetaSession) (ourCode : string) (now : Z) (st : Store) :
  transactions (fst (callback_end txnId txn (Normal session) ourCode now st)) !! txnId = None.
Proof.
  unfold callback_end, client_redirect.
  destruct (URL_valid _); simpl; apply lookup_delete_eq.
Qed.

Lemma callback_end_failure_keeps `{Runtime} (txnId : string) (txn : OAuthTransaction)
    (err : exn) (ourCode : string) (now : Z) (st : Store) :
  fst (callback_end txnId txn (Throw err) ourCode now st) = st.
Proof.
  unfold callback_end, client_redirect. by destruct (URL_valid _).
Qed.

(** C2, as the code has it.  For a transaction found by the callback: when
    the exchange succeeds the transaction is no longer in the table once the
    callback has run; when the exchange fails the callback answers with the
    [server_error] redirect and leaves the store as it was, the transaction
    still in the table. *)
Theorem callback_deletes_transaction_only_on_success `{Runtime}
    (req : Request) (env : Env) (st : Store) (code txnId : string) (txn : OAuthTransaction) :
  callback_begin req st = inr (code, txnId, txn) ->
  URL_valid (txn_redirectUri txn) = true ->
  match exchangeFacebookCode code callbackUri (fetch env) (Date_now env 0) with
  | Normal _ =>
      transactions (fst (callback req env st)) !! txnId = None
      /\ snd (callback req env st)
         = Responded (Found {| url_href := txn_redirectUri txn;
                               url_searchParams := [("code", randomBytes env 0);
                                                    ("state", txn_state txn)] |})
  | Throw err =>
      transactions (fst (callback req env st)) !! txnId = Some txn
      /\ callback req env st
         = (st, Responded (Found {| url_href := txn_redirectUri txn;
                                    url_searchParams :=
                                      [ ("error", "server_error");
                                        ("error_description", String_of_exn err);
                                        ("state", txn_state txn) ] |}))
  end.
Proof.
  intros Hbegin Hurl.
  destruct (callback_begin_found _ _ _ _ _ Hbegin) as (_ & _ & Hin).
  unfold callback. rewrite Hbegin.
  destruct (exchangeFacebookCode _ _ _ _) as [session|err];
    unfold callback_end, client_redirect; rewrite Hurl; simpl.
  - split; [apply lookup_delete_eq|reflexivity].
  - by split.
Qed.

(** The failing input: the authorize endpoint has stored the transaction
    ["txn-A"], the upstream refuses the code; after the callback has answered
    with the [server_error] redirect the transaction is still in the table. *)
Lemma callback_deletes_transaction_only_on_success_witness :
  transactions (fst SampleFlow.started) !! "txn-A" = Some SampleFlow.startedTxn
  /\ transactions (fst SampleFlow.calledBackRefused) !! "txn-A" = Some SampleFlow.startedTxn
  /\ SampleFlow.calledBackRefused
     = (fst SampleFlow.started,
        Responded (Found {| url_href := "https://client/cb";
                            url_searchParams :=
                              [ ("error", "server_error");
                                ("error_description",
                                  "Error: This authorization code has been used.");
                                ("state", "s1") ] |})).
Proof.
  split; [reflexivity|].
  exact (callback_deletes_transaction_only_on_success (H := Reference.runtime)
           (Sample.get "/oauth/callback" [("code", "upstream_code_1"); ("state", "txn-A")])
           (SampleUpstream.env SampleUpstream.codeRefused) (fst SampleFlow.started)
           "upstream_code_1" "txn-A" SampleFlow.startedTxn eq_refl eq_refl).
Defined.

(** C7, as the code has it.  A GET to the callback endpoint that carries a
    code and a state under which no transaction is stored is answered with a
    400 JSON response, never with a redirect, and the store is left as it
    was.  When the request carries no non-empty [error] parameter the error
    code of that response is [invalid_request] (with the description
    "Invalid or expired state", or "Missing code or state" when the code or
    the state is empty).  When it carries one, the response passes that
    parameter on as the error code, and the [error_description] parameter, or
    [null] when there is none, as the description. *)
Theorem callback_unknown_state_is_json_error `{Runtime}
    (req : Request) (env : Env) (st : Store) (code state : string) :
  req_method req = "GET" ->
  req_pathname req = "/oauth/callback" ->
  param "code" (req_query req) = Some code ->
  param "state" (req_query req) = Some state ->
  transactions st !! state = None ->
  (nonempty (param "error" (req_query req)) = false ->
   handle req env st
   = (st, Responded (Json 400 (JObj
        [ ("error", JStr "invalid_request");
          ("error_description",
            JStr (if String.eqb code "" || String.eqb state ""
                  then "Missing code or state" else "Invalid or expired state")) ]))))
  /\ (forall error,
        param "error" (req_query req) = Some error ->
        error <> "" ->
        handle req env st
        = (st, Responded (Json 400 (JObj
             [ ("error", JStr error);
               ("error_description",
                 match param "error_description" (req_query req) with
                 | Some description => JStr description
                 | None => JNull
                 end) ])))).
Proof.
  intros Hm Hp Hcode Hstate Hnone.
  rewrite handle_callback by done.
  unfold callback, callback_begin. rewrite Hcode, Hstate, Hnone. split.
  - intros ->. by destruct (_ || _).
  - intros error -> Hne. simpl. by destruct (String.eqb_spec error "").
Qed.

(** A callback with a state that was never issued, without and with an
    [error] parameter. *)
Lemma callback_unknown_state_is_json_error_witness :
  handle (H := Reference.runtime)
    (Sample.get "/oauth/callback" [("code", "up-1"); ("state", "never-issued")])
    (SampleUpstream.env SampleUpstream.healthy) Sample.store
  = (Sample.store, Responded (Json 400 (JObj
       [ ("error", JStr "invalid_request");
         ("error_description", JStr "Invalid or expired state") ])))
  /\ handle (H := Reference.runtime)
       (Sample.get "/oauth/callback"
          [ ("code", "up-1"); ("state", "never-issued"); ("error", "access_denied");
            ("error_description", "The user denied the request") ])
       (SampleUpstream.env SampleUpstream.healthy) Sample.store
     = (Sample.store, Responded (Json 400 (JObj
          [ ("error", JStr "access_denied");
            ("error_description", JStr "The user denied the request") ]))).
Proof.
  split.
  - exact (proj1 (callback_unknown_state_is_json_error (H := Reference.runtime)
                    (Sample.get "/oauth/callback" [("code", "up-1"); ("state", "never-issued")])
                    (SampleUpstream.env SampleUpstream.healthy) Sample.store
                    "up-1" "never-issued" eq_refl eq_refl eq_refl eq_refl eq_refl)
                 eq_refl).
  - exact (proj2 (callback_unknown_state_is_json_error (H := Reference.runtime)
                    (Sample.get "/oauth/callback"
                       [ ("code", "up-1"); ("state", "never-issued");
                         ("error", "access_denied");
                         ("error_description", "The user denied the request") ])
                    (SampleUpstream.env SampleUpstream.healthy) Sample.store
                    "up-1" "never-issued" eq_refl eq_refl eq_refl eq_refl eq_refl)
                 "access_denied" eq_refl ltac:(discriminate)).
Defined.

(** C7 as stated fails: a callback that carries a code, a state no
    transaction is stored under, and an [error] parameter is answered with the
    error code of that parameter, not with [invalid_request]. *)
Lemma callback_unknown_state_with_error_param :
  transactions Sample.store !! "never-issued" = None
  /\ handle (H := Reference.runtime)
       (Sample.get "/oauth/callback"
          [("code", "up-1"); ("state", "never-issued"); ("error", "access_denied")])
       (SampleUpstream.env SampleUpstream.healthy) Sample.store
     = (Sample.store,
        Responded (Json 400 (JObj [("error", JStr "access_denied");
                                   ("error_description", JNull)]))).
Proof. split; reflexivity. Qed.

(** ** The signed token codec *)

Section CodecSpec.
Context `{Runtime}.

Lemma exp_passed_lapsed (payload : json) (now_ms : Z) :
  exp_passed payload now_ms = Normal false
  <-> payload <> JNull /\ ~ lapsed payload (now_ms / 1000).
Proof.
  unfold exp_passed, lapsed.
  destruct payload as [| b | n | s | items | fields]; simpl;
    try (split; [intros _; split; [done|by intros (v & ? & _)] | done]).
  - split; [done|by intros [? _]].
  - destruct (assoc "exp" fields) as [v|] eqn:E.
    + destruct (truthy (Some v)) eqn:T.
      * split.
        -- intros Hlt. split; [done|]. intros (w & [= <-] & _ & Hw). done.
        -- intros [_ Hn]. destruct (js_lt_number v (now_ms / 1000)) as [[]|e] eqn:L;
             [ | done | ]; exfalso; apply Hn; exists v; by rewrite L.
      * split; [|done]. intros _. split; [done|].
        intros (w & [= <-] & Tw & _). simpl in T. congruence.
    + split; [|done]. intros _. split; [done|]. by intros (w & ? & _).
Qed.

Lemma verifyJWT_Valid_iff (token : string) (now_ms : Z) (payload : json) :
  verifyJWT token now_ms = Valid payload
  <-> exists h p s,
        three_parts token = Some (h, p, s)
        /\ s = hmac_sha256 (h ++ "." ++ p)
        /\ JSON_parse (base64url_decode p) = Some payload
        /\ payload <> JNull
        /\ ~ lapsed payload (now_ms / 1000).
Proof.
  unfold verifyJWT, verifyJWT_try, three_parts.
  destruct (split "." token) as [|h [|p [|s rest]]]; simpl;
    try (split; [done|by intros (? & ? & ? & ? & _)]).
  split.
  - destruct (String.eqb_spec s (hmac_sha256 (h ++ "." ++ p))) as [Hs|Hs]; simpl; [|done].
    destruct (JSON_parse (base64url_decode p)) as [pl|] eqn:P; [|done].
    destruct (exp_passed pl now_ms) as [[]|e] eqn:X; simpl; [done| |done].
    intros [= <-]. apply exp_passed_lapsed in X as [Hnn Hl]. by exists h, p, s.
  - intros (h' & p' & s' & [= <- <- <-] & Hs & Hp & Hx).
    apply exp_passed_lapsed in Hx.
    rewrite <- Hs, String.eqb_refl, Hp. simpl. by rewrite Hx.
Qed.

Lemma lapsed_number (payload : json) (e now_s : Z) :
  get_prop payload "exp" = Normal (Some (JNum e)) ->
  lapsed payload now_s <-> e <> 0 /\ e < now_s.
Proof.
  intros He. unfold lapsed. rewrite He. split.
  - intros (v & [= <-] & T & L). simpl in *.
    destruct (Z.eqb_spec e 0); [done|]. split; [done|].
    destruct (Z.ltb_spec e now_s); [done|]. by destruct L.
  - intros [Hz Hlt]. exists (JNum e). split; [done|]. simpl.
    destruct (Z.eqb_spec e 0); [done|]. split; [done|].
    destruct (Z.ltb_spec e now_s); [done|lia].
Qed.

End CodecSpec.

Section CodecProperties.
Context `{Runtime}.

Lemma exp_passed_otherwise (payload : json) (now_ms : Z) :
  exp_passed payload now_ms <> Normal false ->
  payload = JNull \/ lapsed payload (now_ms / 1000).
Proof.
  unfold exp_passed, lapsed.
  destruct payload as [| b | n | s | items | fields]; simpl;
    try (intros Hx; by destruct Hx); [by left|].
  intros Hx. right.
  destruct (assoc "exp" fields) as [v|]; [|done].
  exists v. split; [done|].
  change (match v with
          | JNull => false
          | JBool b => b
          | JNum n => negb (Z.eqb n 0)
          | JStr s => negb (String.eqb s "")
          | _ => true
          end) with (truthy (Some v)) in *.
  destruct (truthy (Some v)); [|done]. by split.
Qed.

(** The verdict on a token whose first three parts are [h], [p] and [s]. *)
Lemma verifyJWT_Invalid_iff (token : string) (now_ms : Z) :
  verifyJWT token now_ms = Invalid
  <-> three_parts token = None
      \/ exists h p s,
           three_parts token = Some (h, p, s)
           /\ (s <> hmac_sha256 (h ++ "." ++ p)
               \/ JSON_parse (base64url_decode p) = None
               \/ JSON_parse (base64url_decode p) = Some JNull
               \/ exists payload, JSON_parse (base64url_decode p) = Some payload
                                  /\ lapsed payload (now_ms / 1000)).
Proof.
  split.
  - destruct (three_parts token) as [[[h p] s]|] eqn:E; [|by left].
    intros Hinv. right. exists h, p, s. split; [done|].
    destruct (String.eqb_spec s (hmac_sha256 (h ++ "." ++ p))) as [Hs|Hs]; [|by left].
    right.
    destruct (JSON_parse (base64url_decode p)) as [payload|] eqn:P; [|by left].
    right.
    destruct (exp_passed_otherwise payload now_ms) as [->|Hl].
    + intros Hx. apply exp_passed_lapsed in Hx as [Hnn Hl].
      assert (verifyJWT token now_ms = Valid payload); [|congruence].
      apply verifyJWT_Valid_iff. by exists h, p, s.
    + by left.
    + right. by exists payload.
  - destruct (verifyJWT token now_ms) as [|payload] eqn:V; [done|].
    apply verifyJWT_Valid_iff in V as (h & p & s & Hparts & Hs & Hp & Hnn & Hl).
    intros [Hnone|(h' & p' & s' & Hparts' & Hcase)]; [congruence|].
    rewrite Hparts in Hparts'. injection Hparts' as <- <- <-.
    destruct Hcase as [?|[?|[?|(pl & Hpl & ?)]]]; congruence.
Qed.

(** C4, as the code has it.  Verification is a total function of the token
    and the clock and its result is a verdict, valid or invalid.  It is
    invalid exactly when the token has fewer than three dot-separated parts,
    or the third part differs from the signature recomputed over the first
    two, or the second part does not decode to a JSON value other than
    [null], or the expiry claim of the payload has passed; otherwise it is
    valid with the decoded payload.  A numeric expiry has passed when it is
    not zero and strictly less than the clock reading in whole seconds: a
    token verified in the very second of its expiry is still valid.  An
    exception raised while verifying is caught and gives invalid. *)
Theorem verifyJWT_verdict (token : string) (now_ms : Z) :
  (verifyJWT token now_ms = Invalid
   <-> three_parts token = None
       \/ exists h p s,
            three_parts token = Some (h, p, s)
            /\ (s <> hmac_sha256 (h ++ "." ++ p)
                \/ JSON_parse (base64url_decode p) = None
                \/ JSON_parse (base64url_decode p) = Some JNull
                \/ exists payload, JSON_parse (base64url_decode p) = Some payload
                                   /\ lapsed payload (now_ms / 1000)))
  /\ (forall payload,
        verifyJWT token now_ms = Valid payload
        <-> exists h p s,
              three_parts token = Some (h, p, s)
              /\ s = hmac_sha256 (h ++ "." ++ p)
              /\ JSON_parse (base64url_decode p) = Some payload
              /\ payload <> JNull
              /\ ~ lapsed payload (now_ms / 1000))
  /\ (forall payload e,
        get_prop payload "exp" = Normal (Some (JNum e)) ->
        lapsed payload (now_ms / 1000) <-> e <> 0 /\ e < now_ms / 1000)
  /\ (forall e, verifyJWT_try token now_ms = Throw e -> verifyJWT token now_ms = Invalid).
Proof.
  split; [apply verifyJWT_Invalid_iff|].
  split; [intros payload; apply verifyJWT_Valid_iff|].
  split; [intros payload e; apply lapsed_number|].
  intros e He. unfold verifyJWT. by rewrite He.
Qed.

End CodecProperties.

Lemma verifyJWT_verdict_witness :
  verifyJWT (H := Reference.runtime) SampleToken.token 1000 = Valid SampleToken.payload.
Proof.
  destruct (verifyJWT_verdict (H := Reference.runtime) SampleToken.token 1000)
    as (_ & Hvalid & Hexp & _).
  apply Hvalid.
  exists (encode (H := Reference.runtime) jwt_header),
         (encode (H := Reference.runtime) SampleToken.payload),
         (hmac_sha256 (Runtime := Reference.runtime)
            (encode (H := Reference.runtime) jwt_header ++ "."
             ++ encode (H := Reference.runtime) SampleToken.payload)).
  split; [vm_compute; reflexivity|].
  split; [reflexivity|].
  split; [vm_compute; reflexivity|].
  split; [discriminate|].
  rewrite (Hexp SampleToken.payload 1 eq_refl).
  intros [_ Hlt]. vm_compute in Hlt. discriminate.
Defined.

(** C4 as stated fails: the expiry claim of the sample token is 1 and the
    clock reads second 1, so the expiry is at the current time, yet the
    token is valid. *)
Lemma verifyJWT_valid_at_expiry :
  get_prop SampleToken.payload "exp" = Normal (Some (JNum 1))
  /\ 1000 / 1000 = 1
  /\ verifyJWT (H := Reference.runtime) SampleToken.token 1000 = Valid SampleToken.payload.
Proof. repeat split. Qed.

Lemma split_dotless (s : string) :
  dotless s = true -> split "." s = [s].
Proof.
  induction s as [|c r IH]; simpl; [done|].
  intros [Hc Hr]%andb_prop. apply negb_true_iff in Hc. rewrite Hc.
  by rewrite (IH Hr).
Qed.

Lemma split_dotless_app (s r : string) :
  dotless s = true -> split "." (s ++ "." ++ r) = s :: split "." r.
Proof.
  change ("." ++ r) with (String "." r).
  induction s as [|c s' IH]; [done|].
  change (String c s' ++ String "." r) with (String c (s' ++ String "." r)).
  simpl. intros [Hc Hs]%andb_prop. apply negb_true_iff in Hc. rewrite Hc.
  by rewrite (IH Hs).
Qed.

Lemma assoc_obj_set {A : Type} (k k' : string) (v : A) (fs : list (string * A)) :
  assoc k (obj_set k' v fs) = if String.eqb k' k then Some v else assoc k fs.
Proof.
  induction fs as [|[k0 v0] r IH]; simpl.
  - done.
  - destruct (String.eqb_spec k0 k') as [->|Hne]; simpl.
    + by destruct (String.eqb k' k).
    + rewrite IH. destruct (String.eqb_spec k0 k) as [->|]; [|done].
      destruct (String.eqb_spec k' k) as [->|]; done.
Qed.

Section RoundTrip.
Context `{Runtime}.

Lemma createJWT_parts (claims : list (string * json)) (ttl now_ms : Z) (jti : string) :
  let payload := JObj (fullPayload claims ttl (now_ms / 1000) jti) in
  codec_round_trips payload ->
  three_parts (createJWT claims ttl now_ms jti)
  = Some (encode jwt_header, encode payload,
          hmac_sha256 (encode jwt_header ++ "." ++ encode payload)).
Proof.
  intros payload (Hh & Hp & Hs & _). unfold three_parts, createJWT.
  fold payload. simpl.
  rewrite (split_dotless_app _ _ Hh), (split_dotless_app _ _ Hp), (split_dotless _ Hs).
  done.
Qed.

Lemma fullPayload_exp (claims : list (string * json)) (ttl now : Z) (jti : string) :
  get_prop (JObj (fullPayload claims ttl now jti)) "exp" = Normal (Some (JNum (now + ttl))).
Proof.
  unfold fullPayload. simpl. by rewrite !assoc_obj_set.
Qed.

(** The verdict on a freshly issued token depends on the clock only. *)
Lemma verify_issued (claims : list (string * json)) (ttl now_ms t_ms : Z) (jti : string) :
  let payload := JObj (fullPayload claims ttl (now_ms / 1000) jti) in
  codec_round_trips payload ->
  now_ms / 1000 + ttl <> 0 ->
  verifyJWT (createJWT claims ttl now_ms jti) t_ms
  = if Z.ltb (now_ms / 1000 + ttl) (t_ms / 1000) then Invalid else Valid payload.
Proof.
  intros payload Hc Hnz.
  pose proof (createJWT_parts claims ttl now_ms jti Hc) as Hparts.
  pose proof (fullPayload_exp claims ttl (now_ms / 1000) jti) as Hexp.
  fold payload in Hparts, Hexp.
  destruct (Z.ltb_spec (now_ms / 1000 + ttl) (t_ms / 1000)) as [Hlt|Hge].
  - apply verifyJWT_Invalid_iff. right. do 3 eexists. split; [exact Hparts|].
    do 3 right. exists payload. split; [apply Hc|].
    apply (lapsed_number _ _ _ Hexp). by split.
  - apply verifyJWT_Valid_iff. do 3 eexists. split; [exact Hparts|].
    split; [done|]. split; [apply Hc|]. split; [done|].
    rewrite (lapsed_number _ _ _ Hexp). lia.
Qed.

(** C5, as the code has it.  A token issued for some claims with a time to
    live that is a positive whole number of seconds, small enough for the
    expiry claim to be an exact number (second of issuance plus time to live at
    most 2^53), when the clock is at or after the epoch, on a runtime whose
    encodings round-trip on its payload, is valid exactly while the clock, in
    whole seconds, has not gone beyond the second of issuance plus the time to
    live.  So it is valid whenever at most [ttl] seconds have elapsed since
    issuance and invalid whenever at least [ttl + 1] seconds have elapsed.
    The payload returned is the claims with [iat], [exp] and [jti] set by the
    issuer: every other claim is reproduced as given. *)
Theorem issue_then_verify (claims : list (string * json)) (ttl now_ms t_ms : Z)
    (jti : string) :
  let payload := JObj (fullPayload claims ttl (now_ms / 1000) jti) in
  codec_round_trips payload ->
  0 < ttl ->
  0 <= now_ms ->
  now_ms / 1000 + ttl <= 2 ^ 53 ->
  (verifyJWT (createJWT claims ttl now_ms jti) t_ms = Valid payload
   <-> t_ms / 1000 <= now_ms / 1000 + ttl)
  /\ (verifyJWT (createJWT claims ttl now_ms jti) t_ms = Invalid
      <-> now_ms / 1000 + ttl < t_ms / 1000)
  /\ (t_ms - now_ms <= ttl * 1000 ->
      verifyJWT (createJWT claims ttl now_ms jti) t_ms = Valid payload)
  /\ ((ttl + 1) * 1000 <= t_ms - now_ms ->
      verifyJWT (createJWT claims ttl now_ms jti) t_ms = Invalid)
  /\ get_prop payload "iat" = Normal (Some (JNum (now_ms / 1000)))
  /\ get_prop payload "exp" = Normal (Some (JNum (now_ms / 1000 + ttl)))
  /\ get_prop payload "jti" = Normal (Some (JStr jti))
  /\ (forall k, k <> "iat" -> k <> "exp" -> k <> "jti" ->
      get_prop payload k = Normal (assoc k claims)).
Proof.
  intros payload Hc Httl Hnow _.
  assert (Hnz : now_ms / 1000 + ttl <> 0).
  { pose proof (Z.div_pos now_ms 1000 Hnow ltac:(lia)). lia. }
  pose proof (verify_issued claims ttl now_ms t_ms jti Hc Hnz) as Hv.
  fold payload in Hv. rewrite Hv.
  assert (Hclaims : get_prop payload "iat" = Normal (Some (JNum (now_ms / 1000)))
                    /\ get_prop payload "exp" = Normal (Some (JNum (now_ms / 1000 + ttl)))
                    /\ get_prop payload "jti" = Normal (Some (JStr jti))
                    /\ forall k, k <> "iat" -> k <> "exp" -> k <> "jti" ->
                         get_prop payload k = Normal (assoc k claims)).
  { unfold payload, fullPayload. simpl. rewrite !assoc_obj_set. simpl.
    do 3 (split; [done|]).
    intros k Hi He Hj. rewrite !assoc_obj_set.
    destruct (String.eqb_spec "jti" k); [congruence|].
    destruct (String.eqb_spec "exp" k); [congruence|].
    by destruct (String.eqb_spec "iat" k); [congruence|]. }
  destruct (Z.ltb_spec (now_ms / 1000 + ttl) (t_ms / 1000)) as [Hlt|Hge].
  - split; [split; [done|lia]|]. split; [done|]. split; [|by split].
    intros Hle. exfalso.
    assert (t_ms / 1000 <= (now_ms + ttl * 1000) / 1000)
      by (apply Z.div_le_mono; lia).
    rewrite Z.div_add in * by lia. lia.
  - split; [done|]. split; [split; [done|lia]|]. split; [done|]. split; [|done].
    intros Hle. exfalso.
    assert ((now_ms + (ttl + 1) * 1000) / 1000 <= t_ms / 1000)
      by (apply Z.div_le_mono; lia).
    rewrite Z.div_add in * by lia. lia.
Qed.

End RoundTrip.

Lemma issue_then_verify_witness :
  verifyJWT (H := Reference.runtime) SampleToken.token 1000 = Valid SampleToken.payload
  /\ verifyJWT (H := Reference.runtime) SampleToken.token 2000 = Invalid
  /\ get_prop SampleToken.payload "sub" = Normal (Some (JStr "a")).
Proof.
  assert (Hc : codec_round_trips (H := Reference.runtime) SampleToken.payload)
    by (repeat split; vm_compute; reflexivity).
  pose proof (issue_then_verify (H := Reference.runtime) [("sub", JStr "a")] 1 0 1000 "j"
                Hc ltac:(lia) ltac:(lia) ltac:(vm_compute; discriminate))
    as (_ & _ & Hbefore & _ & _ & _ & _ & Hclaims).
  pose proof (issue_then_verify (H := Reference.runtime) [("sub", JStr "a")] 1 0 2000 "j"
                Hc ltac:(lia) ltac:(lia) ltac:(vm_compute; discriminate)) as (_ & _ & _ & Hafter & _).
  split; [apply Hbefore; lia|]. split; [apply Hafter; lia|].
  apply (Hclaims "sub"); discriminate.
Defined.

(** C5 as stated fails.  The sample token is issued at time 0 with a time to
    live of one second; verified 1.5 seconds later, after the time to live has
    elapsed, it is still valid.  And a claim named [exp] is not reproduced:
    the issuer overwrites it. *)
Lemma verifyJWT_valid_after_ttl :
  1 * 1000 < 1500 - 0
  /\ verifyJWT (H := Reference.runtime) SampleToken.token 1500 = Valid SampleToken.payload
  /\ verifyJWT (H := Reference.runtime)
       (createJWT (H := Reference.runtime) [("exp", JNum 5)] 10 0 "j") 0
     = Valid (JObj [("exp", JNum 10); ("iat", JNum 0); ("jti", JStr "j")]).
Proof. repeat split. Qed.

(** ** The token endpoint *)

Section TokenEndpoint.
Context `{Runtime}.

(** What a first redemption does. *)
Lemma token_redeems (req : Request) (env : Env) (st : Store) (code : string)
    (authCode : AuthCode) :
  param "grant_type" (parse_form (req_body req)) = Some "authorization_code" ->
  param "code" (parse_form (req_body req)) = Some code ->
  code <> "" ->
  authCodes st !! code = Some authCode ->
  ac_used authCode = false ->
  token req env st
  = ({| transactions := transactions st;
        authCodes := <[code := mark_used authCode]> (authCodes st);
        registeredClients := registeredClients st;
        tokenStore :=
          <[randomBytes env 0 :=
              {| tr_metaTokens := ac_metaTokens authCode;
                 tr_createdAt := Date_now env 1 |}]> (tokenStore st) |},
     Responded (Json 200 (JObj
       [ ("access_token",
          JStr (createJWT (bearer_claims (randomBytes env 0)) 3600
                  (Date_now env 0) (randomBytes env 1)));
         ("token_type", JStr "Bearer");
         ("expires_in", JNum 3600);
         ("scope", JStr (join " " FACEBOOK_SCOPES)) ]))).
Proof.
  intros Hg Hc Hne Hin Hu. unfold token. rewrite Hg, Hc. simpl.
  destruct (String.eqb_spec code ""); [done|]. by rewrite Hin, Hu.
Qed.

(** What a redemption of a code that is used, or not in the table, does. *)
Lemma token_rejects (req : Request) (env : Env) (st : Store) (code : string) :
  param "grant_type" (parse_form (req_body req)) = Some "authorization_code" ->
  param "code" (parse_form (req_body req)) = Some code ->
  code <> "" ->
  match authCodes st !! code with
  | Some authCode => ac_used authCode = true
  | None => True
  end ->
  token req env st
  = (st, Responded (oauth_error "invalid_grant"
           (match authCodes st !! code with
            | Some _ => "Code already used"
            | None => "Invalid or expired code"
            end))).
Proof.
  intros Hg Hc Hne Hs. unfold token. rewrite Hg, Hc. simpl.
  destruct (String.eqb_spec code ""); [done|].
  destruct (authCodes st !! code) as [authCode|]; [|done]. by rewrite Hs.
Qed.


End TokenEndpoint.



(** ** Single use of a code *)

Section SingleUse.
Context `{Runtime}.

Lemma register_authCodes (req : Request) (env : Env) (st : Store) :
  authCodes (fst (register req env st)) = authCodes st
  /\ tokenStore (fst (register req env st)) = tokenStore st.
Proof.
  unfold register. destruct (JSON_parse _) as [body|]; [|done].
  by destruct (get_prop body "redirect_uris").
Qed.

Lemma authorize_authCodes (req : Request) (env : Env) (st : Store) :
  authCodes (fst (authorize req env st)) = authCodes st
  /\ tokenStore (fst (authorize req env st)) = tokenStore st.
Proof.
  unfold authorize.
  destruct (param "client_id" _) as [c|]; [|done].
  destruct (param "redirect_uri" _) as [r|]; [|done].
  by destruct (_ || _).
Qed.

Lemma callback_end_spent (code txnId : string) (txn : OAuthTransaction)
    (exchanged : completion MetaSession) (ourCode : string) (now : Z) (st : Store) :
  ourCode <> code -> spent code st ->
  spent code (fst (callback_end txnId txn exchanged ourCode now st)).
Proof.
  intros Hne Hs. unfold callback_end, client_redirect.
  destruct exchanged as [session|err]; destruct (URL_valid _); simpl; try done;
    unfold spent; simpl; by rewrite lookup_insert_ne.
Qed.

Lemma token_spent (code : string) (req : Request) (env : Env) (st : Store) :
  spent code st -> spent code (fst (token req env st)).
Proof.
  intros Hs. unfold token. destruct (strict_eq _ _); [|done].
  destruct (param "code" _) as [c|]; [|done].
  destruct (String.eqb c ""); [done|].
  destruct (authCodes st !! c) as [authCode|] eqn:E; [|done].
  destruct (ac_used authCode); [done|].
  unfold spent. simpl. destruct (decide (c = code)) as [->|Hne].
  - by rewrite lookup_insert_eq.
  - by rewrite lookup_insert_ne.
Qed.

Lemma sweep_spent (code : string) (now : Z) (st : Store) :
  spent code st -> spent code (sweep now st).
Proof.
  unfold spent. simpl. rewrite purge_lookup.
  destruct (authCodes st !! code) as [authCode|]; [|done].
  by destruct (Z.ltb _ _).
Qed.

(** No event brings a spent code back, unless a callback draws it again. *)
Lemma step_spent (code : string) (st : Store) (ev : event) :
  minted ev <> Some code -> spent code st -> spent code (fst (step st ev)).
Proof.
  intros Hm Hs. destruct ev as [req env|txnId txn exchanged ourCode now|now]; simpl.
  - destruct (handle req env st) as [st' o] eqn:Hh. simpl.
    change st' with (fst (st', o)). rewrite <- Hh. clear Hh st' o.
    unfold handle. simpl in Hm.
    destruct (String.eqb (req_method req) "OPTIONS"); [done|].
    destruct (String.eqb (req_pathname req) "/.well-known/oauth-authorization-server");
      [done|].
    destruct (_ && _).
    { unfold spent. by rewrite (proj1 (register_authCodes req env st)). }
    destruct (String.eqb (req_pathname req) "/oauth/authorize").
    { unfold spent. by rewrite (proj1 (authorize_authCodes req env st)). }
    destruct (String.eqb (req_pathname req) "/oauth/callback").
    { unfold callback. destruct (callback_begin req st) as [r|[[c t] x]]; [done|].
      apply callback_end_spent; [congruence|done]. }
    destruct (_ && _); [by apply token_spent|].
    by destruct (String.eqb (req_pathname req) "/health").
  - destruct (callback_end _ _ _ _ _ _) as [st' o] eqn:Hc. simpl.
    change st' with (fst (st', o)). rewrite <- Hc.
    apply callback_end_spent; [simpl in Hm; congruence|done].
  - by apply sweep_spent.
Qed.

Lemma run_spent (code : string) (evs : list event) (st : Store) :
  Forall (fun ev => minted ev <> Some code) evs ->
  spent code st -> spent code (run st evs).
Proof.
  intros Hall. revert st. induction Hall as [|ev evs Hev _ IH]; intros st Hs; [done|].
  simpl. apply IH. by apply step_spent.
Qed.

(** C1, as the code has it.  Once a stored, unused code has been redeemed
    by a POST to the token endpoint, the code is marked used, and after any
    further events in which no callback draws the same code again, every
    POST that presents the code with grant type [authorization_code] is
    answered with 400 [invalid_grant] and changes nothing in the store: no
    token record is stored and the response carries no token.  The
    description is "Code already used" while the code is still in the table
    and "Invalid or expired code" once the sweep has removed it. *)
Theorem code_redeemed_at_most_once (req : Request) (env : Env) (st : Store)
    (code : string) (authCode : AuthCode) (evs : list event) :
  req_method req = "POST" ->
  req_pathname req = "/oauth/token" ->
  param "grant_type" (parse_form (req_body req)) = Some "authorization_code" ->
  param "code" (parse_form (req_body req)) = Some code ->
  code <> "" ->
  authCodes st !! code = Some authCode ->
  ac_used authCode = false ->
  Forall (fun ev => minted ev <> Some code) evs ->
  let st1 := fst (handle req env st) in
  let st2 := run st1 evs in
  (exists data, snd (handle req env st) = Responded (Json 200 data))
  /\ authCodes st1 !! code = Some (mark_used authCode)
  /\ forall req' env',
       req_method req' = "POST" ->
       req_pathname req' = "/oauth/token" ->
       param "grant_type" (parse_form (req_body req')) = Some "authorization_code" ->
       param "code" (parse_form (req_body req')) = Some code ->
       handle req' env' st2
       = (st2, Responded (oauth_error "invalid_grant"
                 (match authCodes st2 !! code with
                  | Some _ => "Code already used"
                  | None => "Invalid or expired code"
                  end))).
Proof.
  intros Hm Hp Hg Hc Hne Hin Hu Hall st1 st2.
  assert (H1 : authCodes st1 !! code = Some (mark_used authCode)).
  { unfold st1. rewrite handle_token by done.
    rewrite (token_redeems req env st code authCode) by done. apply lookup_insert_eq. }
  split.
  - rewrite handle_token by done.
    rewrite (token_redeems req env st code authCode) by done. by eexists.
  - split; [exact H1|].
    intros req' env' Hm' Hp' Hg' Hc'. rewrite handle_token by done.
    apply token_rejects; try done.
    apply (run_spent code evs st1 Hall). unfold spent. by rewrite H1.
Qed.

End SingleUse.

(** The code stored by the callback of the sample round at 2 s is redeemed
    at 3 s; the sweep runs at 100 s and leaves it; the replay is rejected as
    used. *)
Lemma code_redeemed_at_most_once_witness :
  ac_used SampleFlow.issuedCode = false
  /\ handle (H := Reference.runtime) SampleFlow.redeem (SampleFlow.env 101000 "sub-2" "jti-2")
       (run (H := Reference.runtime) (fst SampleFlow.redeemed) (SampleFlow.later 100000))
     = (run (H := Reference.runtime) (fst SampleFlow.redeemed) (SampleFlow.later 100000),
        Responded (oauth_error "invalid_grant" "Code already used")).
Proof.
  split; [reflexivity|].
  destruct (code_redeemed_at_most_once (H := Reference.runtime)
              SampleFlow.redeem (SampleFlow.env 3000 "sub-1" "jti-1")
              (fst SampleFlow.calledBack) "local-code" SampleFlow.issuedCode
              (SampleFlow.later 100000)
              eq_refl eq_refl eq_refl eq_refl ltac:(discriminate) eq_refl eq_refl
              ltac:(repeat constructor; discriminate))
    as (_ & _ & Hagain).
  exact (Hagain SampleFlow.redeem (SampleFlow.env 101000 "sub-2" "jti-2")
           eq_refl eq_refl eq_refl eq_refl).
Defined.

(** C1 as stated fails on the description.  The code stored by the callback
    of the sample round at 2 s is redeemed at 3 s; the sweep then runs at
    400 s and removes it; the replay is rejected as "Invalid or expired
    code", not as "Code already used". *)
Lemma replay_after_sweep_is_reported_expired :
  (exists data, snd SampleFlow.redeemed = Responded (Json 200 data))
  /\ tokenStore (fst SampleFlow.redeemed) !! "sub-1"
     = Some {| tr_metaTokens := ac_metaTokens SampleFlow.issuedCode; tr_createdAt := 3001 |}
  /\ handle (H := Reference.runtime) SampleFlow.redeem (SampleFlow.env 401000 "sub-2" "jti-2")
       (run (H := Reference.runtime) (fst SampleFlow.redeemed) (SampleFlow.later 400000))
     = (run (H := Reference.runtime) (fst SampleFlow.redeemed) (SampleFlow.later 400000),
        Responded (oauth_error "invalid_grant" "Invalid or expired code")).
Proof. split; [eexists|split]; vm_compute; reflexivity. Qed.

(** ** What the token endpoint does not look at *)

(** C9.  The token endpoint reads two things of a request, the grant type
    and the code of its form body: two requests that agree on them are
    handled alike, whatever [code_verifier], [client_id], [client_secret] or
    [redirect_uri] they carry.  The code record stored by the callback does
    not depend on the PKCE challenge of the transaction, and the answer to a
    redemption does not depend on the client and redirect URI stored with the
    code.  So a POST that presents a stored, unused code is answered with the
    bearer token whatever else it carries. *)
Theorem token_needs_only_the_code `{Runtime} (req : Request) (env : Env) (st : Store) :
  (forall req',
     param "grant_type" (parse_form (req_body req'))
       = param "grant_type" (parse_form (req_body req)) ->
     param "code" (parse_form (req_body req'))
       = param "code" (parse_form (req_body req)) ->
     token req' env st = token req env st)
  /\ (forall txnId txn exchanged ourCode now challenge method,
        callback_end txnId (with_challenge challenge method txn) exchanged ourCode now st
        = callback_end txnId txn exchanged ourCode now st)
  /\ (forall code authCode clientId redirectUri,
        authCodes st !! code = Some authCode ->
        snd (token req env
               (with_authCodes (<[code := rebound clientId redirectUri authCode]>
                                  (authCodes st)) st))
        = snd (token req env st))
  /\ (forall code authCode,
        req_method req = "POST" ->
        req_pathname req = "/oauth/token" ->
        param "grant_type" (parse_form (req_body req)) = Some "authorization_code" ->
        param "code" (parse_form (req_body req)) = Some code ->
        code <> "" ->
        authCodes st !! code = Some authCode ->
        ac_used authCode = false ->
        exists accessToken,
          snd (handle req env st)
          = Responded (Json 200 (JObj
              [ ("access_token", JStr accessToken);
                ("token_type", JStr "Bearer");
                ("expires_in", JNum 3600);
                ("scope", JStr (join " " FACEBOOK_SCOPES)) ]))).
Proof.
  split; [|split; [|split]].
  - intros req' Hg Hc. unfold token. by rewrite Hg, Hc.
  - intros txnId txn exchanged ourCode now challenge method. reflexivity.
  - intros code authCode clientId redirectUri Hin. unfold token.
    destruct (strict_eq _ _); [|done].
    destruct (param "code" _) as [c|]; [|done].
    destruct (String.eqb c ""); [done|]. simpl.
    destruct (decide (code = c)) as [->|Hne].
    + rewrite lookup_insert_eq, Hin. simpl. by destruct (ac_used authCode).
    + rewrite lookup_insert_ne by done.
      destruct (authCodes st !! c) as [other|]; [|done]. by destruct (ac_used other).
  - intros code authCode Hm Hp Hg Hc Hne Hin Hu. rewrite handle_token by done.
    rewrite (token_redeems req env st code authCode) by done. by eexists.
Qed.

Lemma token_needs_only_the_code_witness :
  token (H := Reference.runtime) SampleReplay.redeemIntruder SampleReplay.env Sample.store
  = token (H := Reference.runtime) SampleReplay.redeem SampleReplay.env Sample.store
  /\ snd (token (H := Reference.runtime) SampleReplay.redeem SampleReplay.env
            (with_authCodes
               (<["code-1" := rebound "c9" "https://nine/cb" (Sample.authCode 0 false)]>
                  (authCodes Sample.store)) Sample.store))
     = snd (token (H := Reference.runtime) SampleReplay.redeem SampleReplay.env Sample.store)
  /\ exists accessToken,
       snd (handle (H := Reference.runtime) SampleReplay.redeemIntruder SampleReplay.env
              Sample.store)
       = Responded (Json 200 (JObj
           [ ("access_token", JStr accessToken);
             ("token_type", JStr "Bearer");
             ("expires_in", JNum 3600);
             ("scope", JStr (join " " FACEBOOK_SCOPES)) ])).
Proof.
  destruct (token_needs_only_the_code (H := Reference.runtime)
              SampleReplay.redeem SampleReplay.env Sample.store)
    as (Hsame & _ & Hstored & _).
  destruct (token_needs_only_the_code (H := Reference.runtime)
              SampleReplay.redeemIntruder SampleReplay.env Sample.store)
    as (_ & _ & _ & Hredeem).
  split; [exact (Hsame SampleReplay.redeemIntruder eq_refl eq_refl)|].
  split; [exact (Hstored "code-1" (Sample.authCode 0 false) "c9" "https://nine/cb" eq_refl)|].
  exact (Hredeem "code-1" (Sample.authCode 0 false)
           eq_refl eq_refl eq_refl eq_refl ltac:(discriminate) eq_refl eq_refl).
Defined.

(** ** The registered clients *)

Section Registration.
Context `{Runtime}.

(** No handler and no sweep reads the table of registered clients: run on
    two stores that differ in that table only, an event gives the same
    outcome and stores that again differ in that table only. *)
Lemma step_same_but_clients (st st' : Store) (ev : event) :
  same_but_clients st st' ->
  same_but_clients (fst (step st ev)) (fst (step st' ev))
  /\ snd (step st ev) = snd (step st' ev).
Proof.
  destruct st as [t a r k], st' as [t' a' r' k'].
  intros (Ht & Ha & Hk). simpl in *. subst t' a' k'.
  destruct ev as [req env|txnId txn exchanged ourCode now|now]; simpl.
  - unfold handle.
    destruct (String.eqb (req_method req) "OPTIONS"); [done|].
    destruct (String.eqb (req_pathname req) "/.well-known/oauth-authorization-server");
      [done|].
    destruct (_ && _).
    { unfold register. destruct (JSON_parse _) as [body|]; [|done].
      by destruct (get_prop body "redirect_uris"). }
    destruct (String.eqb (req_pathname req) "/oauth/authorize").
    { unfold authorize.
      destruct (param "client_id" _) as [c|]; [|done].
      destruct (param "redirect_uri" _) as [u|]; [|done].
      by destruct (_ || _). }
    destruct (String.eqb (req_pathname req) "/oauth/callback").
    { unfold callback, callback_begin. simpl.
      destruct (nonempty _); [done|].
      destruct (param "code" _) as [c|]; [|done].
      destruct (param "state" _) as [s|]; [|done].
      destruct (_ || _); [done|].
      destruct (t !! s) as [txn|]; [|done].
      unfold callback_end, client_redirect.
      destruct (exchangeFacebookCode _ _ _ _); by destruct (URL_valid _). }
    destruct (_ && _).
    { unfold token. destruct (strict_eq _ _); [|done].
      destruct (param "code" _) as [c|]; [|done].
      destruct (String.eqb c ""); [done|]. simpl.
      destruct (a !! c) as [authCode|]; [|done].
      by destruct (ac_used authCode). }
    by destruct (String.eqb (req_pathname req) "/health").
  - unfold callback_end, client_redirect.
    destruct exchanged; by destruct (URL_valid _).
  - done.
Qed.

(** C10.  A GET to the authorize endpoint with a non-empty [client_id], a
    non-empty [redirect_uri] and response type [code] stores a transaction
    for them under a fresh id and is answered with a 302 to the upstream
    authorization endpoint that carries the id as [state]; nothing is assumed
    of the table of registered clients.  No event reads that table: on two
    stores that differ in it only, every event has the same outcome and the
    same effect on the other three tables. *)
Theorem authorize_ignores_registration (req : Request) (env : Env) (st : Store)
    (clientId redirectUri : string) :
  req_method req = "GET" ->
  req_pathname req = "/oauth/authorize" ->
  param "client_id" (req_query req) = Some clientId ->
  clientId <> "" ->
  param "redirect_uri" (req_query req) = Some redirectUri ->
  redirectUri <> "" ->
  param "response_type" (req_query req) = Some "code" ->
  (exists txnId txn,
     snd (handle req env st)
     = Responded (Found {| url_href := FACEBOOK_AUTH_ENDPOINT;
                           url_searchParams :=
                             [ ("client_id", appId);
                               ("redirect_uri", callbackUri);
                               ("state", txnId);
                               ("scope", join "," FACEBOOK_SCOPES);
                               ("response_type", "code") ] |})
     /\ transactions (fst (handle req env st)) = <[txnId := txn]> (transactions st)
     /\ transactions (fst (handle req env st)) !! txnId = Some txn
     /\ txn_clientId txn = clientId
     /\ txn_redirectUri txn = redirectUri)
  /\ (forall st' ev,
        same_but_clients st st' ->
        same_but_clients (fst (step st ev)) (fst (step st' ev))
        /\ snd (step st ev) = snd (step st' ev)).
Proof.
  intros Hm Hp Hc Hcne Hr Hrne Ht. split.
  - rewrite handle_authorize by done. unfold authorize. rewrite Hc, Hr, Ht. simpl.
    destruct (String.eqb_spec clientId ""); [done|].
    destruct (String.eqb_spec redirectUri ""); [done|]. simpl.
    do 2 eexists. split; [reflexivity|]. split; [reflexivity|].
    split; [apply lookup_insert_eq|]. done.
  - intros st' ev. apply step_same_but_clients.
Qed.

End Registration.

Lemma authorize_ignores_registration_witness :
  (exists txnId txn,
     snd (handle (H := Reference.runtime) SampleAuthorize.request SampleReplay.env
            Sample.store)
     = Responded (Found {| url_href := FACEBOOK_AUTH_ENDPOINT;
                           url_searchParams :=
                             [ ("client_id", "app-id");
                               ("redirect_uri", "http://localhost:3000/oauth/callback");
                               ("state", txnId);
                               ("scope", join "," FACEBOOK_SCOPES);
                               ("response_type", "code") ] |})
     /\ transactions
          (fst (handle (H := Reference.runtime) SampleAuthorize.request SampleReplay.env
                  Sample.store))
        = <[txnId := txn]> (transactions Sample.store)
     /\ transactions
          (fst (handle (H := Reference.runtime) SampleAuthorize.request SampleReplay.env
                  Sample.store)) !! txnId = Some txn
     /\ txn_clientId txn = "never-registered"
     /\ txn_redirectUri txn = "https://elsewhere/cb")
  /\ snd (step (H := Reference.runtime) Sample.store
            (Handle SampleAuthorize.request SampleReplay.env))
     = snd (step (H := Reference.runtime) SampleAuthorize.noClients
              (Handle SampleAuthorize.request SampleReplay.env)).
Proof.
  destruct (authorize_ignores_registration (H := Reference.runtime)
              SampleAuthorize.request SampleReplay.env Sample.store
              "never-registered" "https://elsewhere/cb"
              eq_refl eq_refl eq_refl ltac:(discriminate) eq_refl ltac:(discriminate)
              eq_refl) as [Hstored Hnever].
  split; [exact Hstored|].
  exact (proj2 (Hnever SampleAuthorize.noClients
                  (Handle SampleAuthorize.request SampleReplay.env)
                  (conj eq_refl (conj eq_refl eq_refl)))).
Defined.

(** ** A whole round *)

(** Authorize, callback, redemption and use of the bearer token on the
    reference runtime, with an upstream that answers every call. *)
Example whole_round :
  snd SampleFlow.started
  = Responded (Found {| url_href := FACEBOOK_AUTH_ENDPOINT;
                        url_searchParams :=
                          [ ("client_id", "app-id");
                            ("redirect_uri", "http://localhost:3000/oauth/callback");
                            ("state", "txn-A");
                            ("scope", join "," FACEBOOK_SCOPES);
                            ("response_type", "code") ] |})
  /\ snd SampleFlow.calledBack
     = Responded (Found {| url_href := "https://client/cb";
                           url_searchParams := [("code", "local-code"); ("state", "s1")] |})
  /\ transactions (fst SampleFlow.calledBack) !! "txn-A" = None
  /\ snd SampleFlow.redeemed
     = Responded (Json 200 (JObj
         [ ("access_token", JStr SampleFlow.bearer);
           ("token_type", JStr "Bearer");
           ("expires_in", JNum 3600);
           ("scope", JStr (join " " FACEBOOK_SCOPES)) ]))
  /\ (userAccessToken <$>
       authenticate (H := Reference.runtime) (Some ("Bearer " ++ SampleFlow.bearer)) 4000
         (fst SampleFlow.redeemed)) = Some (Some "EAAB-long")
  /\ authenticate (H := Reference.runtime) (Some ("Bearer " ++ SampleFlow.bearer)) 3604000
       (fst SampleFlow.redeemed) = None
  /\ authenticate (H := Reference.runtime) (Some "Bearer not.a.token") 4000
       (fst SampleFlow.redeemed) = None.
Proof. repeat split; vm_compute; reflexivity. Qed.

(** * Further properties *)

(** ** Strings *)

Lemma substring_whole (s : string) : String.substring 0 (String.length s) s = s.
Proof. induction s as [|c r IH]; simpl; [done|]. by rewrite IH. Qed.

(** [s.startsWith(p)] gives [p] followed by [s.slice(p.length)]. *)
Lemma prefix_slice (p s : string) :
  String.prefix p s = true ->
  s = p ++ String.substring (String.length p) (String.length s - String.length p) s.
Proof.
  revert s. induction p as [|c p IH]; intros s.
  - intros _. change ("" ++ ?x) with x. simpl.
    rewrite Nat.sub_0_r. by rewrite substring_whole.
  - destruct s as [|d s]; [done|]. simpl.
    destruct (Ascii.ascii_dec c d) as [->|]; [|done].
    intros Hp. change (String d p ++ ?x) with (String d (p ++ x)).
    f_equal. by apply IH.
Qed.

Lemma slice_after_prefix (p s : string) :
  String.substring (String.length p) (String.length (p ++ s) - String.length p) (p ++ s) = s.
Proof.
  induction p as [|c p IH].
  - change ("" ++ s) with s. simpl. rewrite Nat.sub_0_r. apply substring_whole.
  - change (String c p ++ s) with (String c (p ++ s)). simpl. apply IH.
Qed.

Lemma prefix_append (p s : string) : String.prefix p (p ++ s) = true.
Proof.
  induction p as [|c p IH]; [by destruct s|].
  change (String c p ++ s) with (String c (p ++ s)). simpl.
  by destruct (Ascii.ascii_dec c c).
Qed.

(** ** The session resolver *)

Section Resolver.
Context `{Runtime}.

(** X1.  The resolver hands out a credential set only for a header that starts
    with "Bearer " and goes on with a token that verifies at that time, whose
    [sub] claim is a non-empty string under which the table of issued tokens
    holds that credential set. *)
Theorem authenticate_sound (authorization : option string) (now_ms : Z) (st : Store)
    (session : MetaSession) :
  authenticate authorization now_ms st = Some session ->
  exists token payload jti record,
    authorization = Some ("Bearer " ++ token)
    /\ verifyJWT token now_ms = Valid payload
    /\ get_prop payload "sub" = Normal (Some (JStr jti))
    /\ jti <> ""
    /\ tokenStore st !! jti = Some record
    /\ tr_metaTokens record = session.
Proof.
  unfold authenticate. destruct authorization as [authHeader|]; [|done].
  destruct (String.prefix "Bearer " authHeader) eqn:Hp; [|done].
  apply prefix_slice in Hp.
  set (token := String.substring 7 (String.length authHeader - 7) authHeader) in *.
  destruct (verifyJWT token now_ms) as [|payload] eqn:Hv; [done|].
  destruct (get_prop payload "sub") as [[[| | |jti| |]|]|] eqn:Hs; try done.
  destruct (String.eqb_spec jti "") as [|Hne]; [done|].
  destruct (tokenStore st !! jti) as [record|] eqn:Hr; [|done].
  simpl. intros [= <-]. exists token, payload, jti, record.
  split; [by rewrite Hp at 1|]. done.
Qed.

Lemma authenticate_bearer (token : string) (now_ms : Z) (st : Store) (payload : json)
    (jti : string) (record : TokenRecord) :
  verifyJWT token now_ms = Valid payload ->
  get_prop payload "sub" = Normal (Some (JStr jti)) ->
  jti <> "" ->
  tokenStore st !! jti = Some record ->
  authenticate (Some ("Bearer " ++ token)) now_ms st = Some (tr_metaTokens record).
Proof.
  intros Hv Hs Hne Hr. unfold authenticate.
  rewrite (prefix_append "Bearer " token).
  change 7%nat with (String.length "Bearer ").
  rewrite (slice_after_prefix "Bearer " token), Hv, Hs.
  destruct (String.eqb_spec jti ""); [done|]. by rewrite Hr.
Qed.

End Resolver.

Lemma authenticate_sound_witness :
  exists token payload jti record,
    Some ("Bearer " ++ SampleFlow.bearer) = Some ("Bearer " ++ token)
    /\ verifyJWT (H := Reference.runtime) token 4000 = Valid payload
    /\ get_prop payload "sub" = Normal (Some (JStr jti))
    /\ jti <> ""
    /\ tokenStore (fst SampleFlow.redeemed) !! jti = Some record
    /\ tr_metaTokens record = ac_metaTokens SampleFlow.issuedCode.
Proof.
  apply (authenticate_sound (H := Reference.runtime)
           (Some ("Bearer " ++ SampleFlow.bearer)) 4000 (fst SampleFlow.redeemed)
           (ac_metaTokens SampleFlow.issuedCode)).
  vm_compute. reflexivity.
Defined.

(** ** A bearer token during its hour *)

Section BearerLifetime.
Context `{Runtime}.

Lemma token_keeps_record (jti : string) (record : TokenRecord) (req : Request) (env : Env)
    (st : Store) :
  randomBytes env 0 <> jti ->
  tokenStore st !! jti = Some record ->
  tokenStore (fst (token req env st)) !! jti = Some record.
Proof.
  intros Hne Hr. unfold token. destruct (strict_eq _ _); [|done].
  destruct (param "code" _) as [c|]; [|done].
  destruct (String.eqb c ""); [done|].
  destruct (authCodes st !! c) as [authCode|]; [|done].
  destruct (ac_used authCode); [done|]. simpl. by rewrite lookup_insert_ne.
Qed.

Lemma callback_end_tokenStore (txnId : string) (txn : OAuthTransaction)
    (exchanged : completion MetaSession) (ourCode : string) (now : Z) (st : Store) :
  tokenStore (fst (callback_end txnId txn exchanged ourCode now st)) = tokenStore st.
Proof.
  unfold callback_end, client_redirect.
  destruct exchanged; by destruct (URL_valid _).
Qed.

Lemma step_keeps_record (jti : string) (record : TokenRecord) (st : Store) (ev : event) :
  keeps_record jti (tr_createdAt record) ev ->
  tokenStore st !! jti = Some record ->
  tokenStore (fst (step st ev)) !! jti = Some record.
Proof.
  intros Hk Hr. destruct ev as [req env|txnId txn exchanged ourCode now|now]; simpl in *.
  - destruct (handle req env st) as [st' o] eqn:Hh. simpl.
    change st' with (fst (st', o)). rewrite <- Hh. clear Hh st' o.
    unfold handle.
    destruct (String.eqb (req_method req) "OPTIONS"); [done|].
    destruct (String.eqb (req_pathname req) "/.well-known/oauth-authorization-server");
      [done|].
    destruct (_ && _).
    { by rewrite (proj2 (register_authCodes req env st)). }
    destruct (String.eqb (req_pathname req) "/oauth/authorize").
    { by rewrite (proj2 (authorize_authCodes req env st)). }
    destruct (String.eqb (req_pathname req) "/oauth/callback").
    { unfold callback. destruct (callback_begin req st) as [r|[[c t] x]]; [done|].
      by rewrite callback_end_tokenStore. }
    destruct (String.eqb_spec (req_pathname req) "/oauth/token") as [Hp|]; simpl.
    + destruct (String.eqb (req_method req) "POST").
      * apply token_keeps_record; auto.
      * by destruct (String.eqb (req_pathname req) "/health").
    + by destruct (String.eqb (req_pathname req) "/health").
  - destruct (callback_end _ _ _ _ _ _) as [st' o] eqn:Hc. simpl.
    change st' with (fst (st', o)). by rewrite <- Hc, callback_end_tokenStore.
  - apply purge_lookup_Some. split; [done|lia].
Qed.

Lemma run_keeps_record (jti : string) (record : TokenRecord) (evs : list event)
    (st : Store) :
  Forall (keeps_record jti (tr_createdAt record)) evs ->
  tokenStore st !! jti = Some record ->
  tokenStore (run st evs) !! jti = Some record.
Proof.
  intros Hall. revert st. induction Hall as [|ev evs Hev _ IH]; intros st Hr; [done|].
  simpl. apply IH. by apply step_keeps_record.
Qed.

(** X2.  The bearer token handed out by a redemption resolves to the credential
    set of the redeemed code for its whole hour: whenever at most 3600 s have
    elapsed since it was issued, and whatever requests and sweeps ran in
    between, as long as no sweep ran more than 3600 s after the record was
    stored and no later redemption drew the same subject identifier. *)
Theorem bearer_resolves_for_its_hour (req : Request) (env : Env) (st : Store)
    (code : string) (authCode : AuthCode) (evs : list event) (now_ms : Z) :
  let jti := randomBytes env 0 in
  let accessToken :=
    createJWT (bearer_claims jti) 3600 (Date_now env 0) (randomBytes env 1) in
  req_method req = "POST" ->
  req_pathname req = "/oauth/token" ->
  param "grant_type" (parse_form (req_body req)) = Some "authorization_code" ->
  param "code" (parse_form (req_body req)) = Some code ->
  code <> "" ->
  authCodes st !! code = Some authCode ->
  ac_used authCode = false ->
  jti <> "" ->
  codec_round_trips
    (JObj (fullPayload (bearer_claims jti) 3600 (Date_now env 0 / 1000) (randomBytes env 1))) ->
  0 <= Date_now env 0 ->
  Forall (keeps_record jti (Date_now env 1)) evs ->
  now_ms - Date_now env 0 <= 3600 * 1000 ->
  authenticate (Some ("Bearer " ++ accessToken)) now_ms (run (fst (handle req env st)) evs)
  = Some (ac_metaTokens authCode).
Proof.
  intros jti accessToken Hm Hp Hg Hc Hne Hin Hu Hj Hcodec Hnow Hall Ht.
  set (record := {| tr_metaTokens := ac_metaTokens authCode;
                    tr_createdAt := Date_now env 1 |}).
  change (ac_metaTokens authCode) with (tr_metaTokens record).
  apply (authenticate_bearer accessToken now_ms _
           (JObj (fullPayload (bearer_claims jti) 3600 (Date_now env 0 / 1000)
                    (randomBytes env 1))) jti record).
  - unfold accessToken.
    assert (Hdiv : 0 <= Date_now env 0 / 1000) by (apply Z.div_pos; lia).
    rewrite (verify_issued (bearer_claims jti) 3600 (Date_now env 0) now_ms
               (randomBytes env 1) Hcodec) by lia.
    destruct (Z.ltb_spec (Date_now env 0 / 1000 + 3600) (now_ms / 1000)) as [Hlt|]; [|done].
    exfalso.
    assert (now_ms / 1000 <= (Date_now env 0 + 3600 * 1000) / 1000)
      by (apply Z.div_le_mono; lia).
    rewrite Z.div_add in * by lia. lia.
  - done.
  - done.
  - apply run_keeps_record; [done|].
    rewrite handle_token by done.
    rewrite (token_redeems req env st code authCode) by done. apply lookup_insert_eq.
Qed.

End BearerLifetime.

(** The token of the sample round, issued at 3 s, still resolves at 3603 s,
    after a sweep at 100 s and another client's authorization. *)
Lemma bearer_resolves_for_its_hour_witness :
  authenticate (H := Reference.runtime) (Some ("Bearer " ++ SampleFlow.bearer)) 3603000
    (run (H := Reference.runtime) (fst SampleFlow.redeemed) (SampleFlow.later 100000))
  = Some (ac_metaTokens SampleFlow.issuedCode).
Proof.
  apply (bearer_resolves_for_its_hour (H := Reference.runtime)
           SampleFlow.redeem (SampleFlow.env 3000 "sub-1" "jti-1")
           (fst SampleFlow.calledBack) "local-code" SampleFlow.issuedCode
           (SampleFlow.later 100000) 3603000).
  - reflexivity.
  - reflexivity.
  - reflexivity.
  - reflexivity.
  - discriminate.
  - reflexivity.
  - reflexivity.
  - discriminate.
  - repeat split; vm_compute; reflexivity.
  - simpl. lia.
  - repeat constructor; simpl; [lia|discriminate].
  - simpl. lia.
Defined.

(** ** The other endpoints *)

Section Endpoints.
Context `{Runtime}.

(** X3.  Registration takes whatever the body asks for: whenever the body is
    JSON other than [null], the client is stored under a freshly drawn
    identifier, with the [redirect_uris] of the body as they come when they
    are truthy, and with the empty array when they are missing or falsy
    ([null], [false], [0], the empty string); the response gives that
    identifier as the client secret too, and the other three tables are left
    alone. *)
Theorem register_mints_client (req : Request) (env : Env) (st : Store) (body : json) :
  req_method req = "POST" ->
  req_pathname req = "/oauth/register" ->
  JSON_parse (req_body req) = Some body ->
  body <> JNull ->
  let clientId := randomBytes env 0 in
  exists uris fields,
    snd (handle req env st) = Responded (Json 200 (JObj fields))
    /\ assoc "client_id" fields = Some (JStr clientId)
    /\ assoc "client_secret" fields = Some (JStr clientId)
    /\ registeredClients (fst (handle req env st)) !! clientId
       = Some {| rc_redirectUris := uris; rc_createdAt := Date_now env 0 |}
    /\ (forall v, get_prop body "redirect_uris" = Normal (Some v) ->
          truthy (Some v) = true -> uris = v)
    /\ (forall r, get_prop body "redirect_uris" = Normal r ->
          truthy r = false -> uris = JArr [])
    /\ (forall k, k <> clientId ->
          registeredClients (fst (handle req env st)) !! k = registeredClients st !! k)
    /\ same_but_clients st (fst (handle req env st)).
Proof.
  intros Hm Hp Hb Hnn clientId. unfold handle. rewrite Hm, Hp. simpl.
  unfold register. rewrite Hb.
  destruct (get_prop body "redirect_uris") as [v|e] eqn:Hg; [|by destruct body].
  cbn [fst snd registeredClients]. do 2 eexists. split; [reflexivity|].
  split; [reflexivity|]. split; [reflexivity|].
  split; [apply lookup_insert_eq|].
  split; [intros w [= ->] Hw; destruct w; simpl in *; try done; by rewrite Hw|].
  split; [intros r [= ->] Hr; by rewrite Hr|].
  split; [intros k Hk; by apply lookup_insert_ne|done].
Qed.

(** X4.  A registration whose body is not JSON, or is the JSON [null], throws
    out of the handler: no response is written and nothing is stored. *)
Theorem register_bad_body_unhandled (req : Request) (env : Env) (st : Store) :
  req_method req = "POST" ->
  req_pathname req = "/oauth/register" ->
  JSON_parse (req_body req) = None \/ JSON_parse (req_body req) = Some JNull ->
  exists e, handle req env st = (st, Unhandled e).
Proof.
  intros Hm Hp Hb. unfold handle. rewrite Hm, Hp. simpl. unfold register.
  destruct Hb as [-> | ->]; by eexists.
Qed.

(** X5.  The authorize endpoint refuses, with 400 [invalid_request] and no change
    to the store, exactly the requests that lack a non-empty [client_id], lack
    a non-empty [redirect_uri], or whose [response_type] is not [code]. *)
Theorem authorize_refuses_iff (req : Request) (env : Env) (st : Store) :
  req_method req = "GET" ->
  req_pathname req = "/oauth/authorize" ->
  handle req env st
  = (st, Responded (oauth_error "invalid_request" "Missing required parameters"))
  <-> nonempty (param "client_id" (req_query req)) = false
      \/ nonempty (param "redirect_uri" (req_query req)) = false
      \/ param "response_type" (req_query req) <> Some "code".
Proof.
  intros Hm Hp. rewrite handle_authorize by done. unfold authorize.
  destruct (param "client_id" _) as [c|]; simpl; [|by split; [left|]].
  destruct (param "redirect_uri" _) as [r|]; simpl;
    [|by split; [intros _; right; left|]].
  destruct (param "response_type" _) as [t|]; simpl.
  - destruct (String.eqb_spec c ""); simpl; [by split; [left|]|].
    destruct (String.eqb_spec r ""); simpl; [by split; [right; left|]|].
    destruct (String.eqb_spec t "code") as [->|Hne]; simpl.
    + split; [done|]. by intros [|[|]].
    + split; [|done]. intros _. right. right. congruence.
  - destruct (String.eqb c ""), (String.eqb r ""); simpl;
      (split; [intros _; right; right; done|done]).
Qed.

(** X6.  What a successful callback stores: under the drawn code, a record bound
    to the client and redirect URI of the transaction, holding the credential
    set the exchange returned, not yet used, and dated by the next reading of
    the clock after those of the exchange: the second reading of the run when
    the exchange has set an expiry, the first when it has not.  No other
    code, no other transaction, no token record and no registered client is
    touched. *)
Theorem callback_stores_code (req : Request) (env : Env) (st : Store)
    (code txnId : string) (txn : OAuthTransaction) (session : MetaSession) :
  callback_begin req st = inr (code, txnId, txn) ->
  exchangeFacebookCode code callbackUri (fetch env) (Date_now env 0) = Normal session ->
  let ourCode := randomBytes env 0 in
  authCodes (fst (callback req env st)) !! ourCode
  = Some {| ac_clientId := txn_clientId txn;
            ac_redirectUri := txn_redirectUri txn;
            ac_metaTokens := session;
            ac_createdAt := Date_now env (match expiresAt session with
                                          | Some _ => 1
                                          | None => 0
                                          end);
            ac_used := false |}
  /\ (forall k, k <> ourCode ->
        authCodes (fst (callback req env st)) !! k = authCodes st !! k)
  /\ (forall k, k <> txnId ->
        transactions (fst (callback req env st)) !! k = transactions st !! k)
  /\ tokenStore (fst (callback req env st)) = tokenStore st
  /\ registeredClients (fst (callback req env st)) = registeredClients st.
Proof.
  intros Hb Hx ourCode. unfold callback. rewrite Hb, Hx.
  unfold callback_end, client_redirect.
  destruct (URL_valid _); simpl;
    (split; [apply lookup_insert_eq|];
     split; [intros k Hk; by apply lookup_insert_ne|];
     split; [intros k Hk; by apply lookup_delete_ne|done]).
Qed.

(** X7.  The token endpoint always answers, with a 200 or a 400 JSON response,
    and writes to the store only when it answers 200. *)
Theorem token_writes_only_on_success (req : Request) (env : Env) (st : Store) :
  (exists data, snd (token req env st) = Responded (Json 200 data))
  \/ (fst (token req env st) = st
      /\ exists data, snd (token req env st) = Responded (Json 400 data)).
Proof.
  unfold token. destruct (strict_eq _ _); [|right; split; [done|by eexists]].
  destruct (param "code" _) as [c|]; [|right; split; [done|by eexists]].
  destruct (String.eqb c ""); [right; split; [done|by eexists]|].
  destruct (authCodes st !! c) as [authCode|]; [|right; split; [done|by eexists]].
  destruct (ac_used authCode); [right; split; [done|by eexists]|].
  left. by eexists.
Qed.

(** X8.  A redemption with no code, or with an empty one, is answered 400
    [invalid_request]; with a code that is not in the table, 400
    [invalid_grant]. *)
Theorem token_missing_or_unknown_code (req : Request) (env : Env) (st : Store) :
  req_method req = "POST" ->
  req_pathname req = "/oauth/token" ->
  param "grant_type" (parse_form (req_body req)) = Some "authorization_code" ->
  (nonempty (param "code" (parse_form (req_body req))) = false ->
   handle req env st = (st, Responded (oauth_error "invalid_request" "Missing code")))
  /\ (forall code,
        param "code" (parse_form (req_body req)) = Some code ->
        code <> "" ->
        authCodes st !! code = None ->
        handle req env st
        = (st, Responded (oauth_error "invalid_grant" "Invalid or expired code"))).
Proof.
  intros Hm Hp Hg. rewrite handle_token by done. unfold token. rewrite Hg. simpl. split.
  - destruct (param "code" _) as [c|]; [|done]. simpl.
    destruct (String.eqb c ""); [done|discriminate].
  - intros code -> Hne Hnone. destruct (String.eqb_spec code ""); [done|].
    by rewrite Hnone.
Qed.

(** X9.  The listener writes to the store only on the four paths of
    registration, authorization, callback and token: a preflight ([OPTIONS], on
    any path) is answered 204, any other path leaves the store as it is, and
    the two endpoints that take a POST answer 404 [not_found] to any other
    method. *)
Theorem store_written_on_four_paths_only (req : Request) (env : Env) (st : Store) :
  (req_method req = "OPTIONS" -> handle req env st = (st, Responded NoContent))
  /\ (stateful_path (req_pathname req) = false -> fst (handle req env st) = st)
  /\ (req_method req <> "OPTIONS" -> req_method req <> "POST" ->
      req_pathname req = "/oauth/register" \/ req_pathname req = "/oauth/token" ->
      handle req env st = (st, Responded (Json 404 (JObj [("error", JStr "not_found")])))).
Proof.
  split; [intros Hm; unfold handle; by rewrite Hm|]. split.
  - unfold stateful_path, handle. intros Hs.
    apply orb_false_elim in Hs as [Hs Ht].
    apply orb_false_elim in Hs as [Hs Hc].
    apply orb_false_elim in Hs as [Hr Ha].
    rewrite Hr, Ha, Hc, Ht. simpl.
    destruct (String.eqb (req_method req) "OPTIONS"); [done|].
    destruct (String.eqb (req_pathname req) "/.well-known/oauth-authorization-server");
      [done|].
    by destruct (String.eqb (req_pathname req) "/health").
  - intros Ho Hpost Hpath. unfold handle.
    destruct (String.eqb_spec (req_method req) "OPTIONS"); [done|].
    destruct (String.eqb_spec (req_method req) "POST"); [done|].
    by destruct Hpath as [-> | ->].
Qed.

End Endpoints.

Lemma register_mints_client_witness :
  exists uris fields,
    snd (handle (H := Reference.runtime) SampleRegister.request SampleRegister.env
           Sample.store)
    = Responded (Json 200 (JObj fields))
    /\ assoc "client_id" fields = Some (JStr "client-9")
    /\ assoc "client_secret" fields = Some (JStr "client-9")
    /\ registeredClients
         (fst (handle (H := Reference.runtime) SampleRegister.request SampleRegister.env
                 Sample.store)) !! "client-9"
       = Some {| rc_redirectUris := uris; rc_createdAt := 500 |}
    /\ uris = JArr [JStr "https://client/cb"].
Proof.
  destruct (register_mints_client (H := Reference.runtime) SampleRegister.request
              SampleRegister.env Sample.store SampleRegister.body
              eq_refl eq_refl ltac:(vm_compute; reflexivity) ltac:(discriminate))
    as (uris & fields & Hr & Hid & Hsecret & Hstored & Huris & _).
  exists uris, fields. split; [exact Hr|]. split; [exact Hid|]. split; [exact Hsecret|].
  split; [exact Hstored|]. exact (Huris _ eq_refl eq_refl).
Defined.

Lemma register_bad_body_unhandled_witness :
  exists e,
    handle (H := Reference.runtime) SampleRegister.garbled SampleRegister.env Sample.store
    = (Sample.store, Unhandled e).
Proof.
  apply (register_bad_body_unhandled (H := Reference.runtime) SampleRegister.garbled
           SampleRegister.env Sample.store).
  - reflexivity.
  - reflexivity.
  - left. vm_compute. reflexivity.
Defined.

(** An authorization request with no redirect URI. *)
Lemma authorize_refuses_iff_witness :
  handle (H := Reference.runtime)
    (Sample.get "/oauth/authorize" [("client_id", "c1"); ("response_type", "code")])
    SampleRegister.env Sample.store
  = (Sample.store, Responded (oauth_error "invalid_request" "Missing required parameters")).
Proof.
  apply (authorize_refuses_iff (H := Reference.runtime)
           (Sample.get "/oauth/authorize" [("client_id", "c1"); ("response_type", "code")])
           SampleRegister.env Sample.store eq_refl eq_refl).
  right. left. reflexivity.
Defined.

(** The callback of the sample round, whose exchange sets an expiry, dates
    the code 2001, the second reading; the same callback against an upstream
    that gives no expiry dates it 1000, the first reading. *)
Lemma callback_stores_code_witness :
  authCodes (fst SampleFlow.calledBack) !! "local-code" = Some SampleFlow.issuedCode
  /\ ac_createdAt SampleFlow.issuedCode = 2001
  /\ tokenStore (fst SampleFlow.calledBack) = tokenStore (fst SampleFlow.started)
  /\ ac_createdAt <$> authCodes (fst SampleFlow.calledBackNoExpiry) !! "r0" = Some 1000.
Proof.
  destruct (callback_stores_code (H := Reference.runtime)
              (Sample.get "/oauth/callback" [("code", "upstream_code_1"); ("state", "txn-A")])
              (SampleFlow.env 2000 "local-code" "unused") (fst SampleFlow.started)
              "upstream_code_1" "txn-A" SampleFlow.startedTxn
              (ac_metaTokens SampleFlow.issuedCode) eq_refl eq_refl)
    as (Hcode & _ & _ & Htokens & _).
  destruct (callback_stores_code (H := Reference.runtime)
              (Sample.get "/oauth/callback" [("code", "upstream_code_1"); ("state", "txn-A")])
              (SampleUpstream.env SampleUpstream.noExpiry) (fst SampleFlow.started)
              "upstream_code_1" "txn-A" SampleFlow.startedTxn
              {| userAccessToken := Some "EAAB-short"; userId := Some "1001";
                 userName := Some "Ada"; expiresAt := None;
                 pageTokens := {[ "77" := {| pt_accessToken := "EAAB-page-77";
                                             pt_name := "Bakery";
                                             pt_category := Some "Food";
                                             pt_instagramBusinessAccountId := None |} ]} |}
              eq_refl eq_refl)
    as (Hplain & _).
  split; [exact Hcode|]. split; [reflexivity|]. split; [exact Htokens|].
  exact (f_equal (fmap ac_createdAt) Hplain).
Defined.

Lemma token_missing_or_unknown_code_witness :
  handle (H := Reference.runtime)
    (Sample.post "/oauth/token" "grant_type=authorization_code") SampleRegister.env
    Sample.store
  = (Sample.store, Responded (oauth_error "invalid_request" "Missing code"))
  /\ handle (H := Reference.runtime)
       (Sample.post "/oauth/token" "grant_type=authorization_code&code=nope")
       SampleRegister.env Sample.store
     = (Sample.store, Responded (oauth_error "invalid_grant" "Invalid or expired code")).
Proof.
  split.
  - exact (proj1 (token_missing_or_unknown_code (H := Reference.runtime)
             (Sample.post "/oauth/token" "grant_type=authorization_code")
             SampleRegister.env Sample.store eq_refl eq_refl eq_refl) eq_refl).
  - exact (proj2 (token_missing_or_unknown_code (H := Reference.runtime)
             (Sample.post "/oauth/token" "grant_type=authorization_code&code=nope")
             SampleRegister.env Sample.store eq_refl eq_refl eq_refl)
           "nope" eq_refl ltac:(discriminate) eq_refl).
Defined.

(** A preflight on the token path, a GET on the token path, and a path the
    listener does not know. *)
Lemma store_written_on_four_paths_only_witness :
  handle (H := Reference.runtime)
    {| req_method := "OPTIONS"; req_pathname := "/oauth/token"; req_query := [];
       req_body := "grant_type=authorization_code&code=code-1" |}
    SampleRegister.env Sample.store
  = (Sample.store, Responded NoContent)
  /\ handle (H := Reference.runtime) (Sample.get "/oauth/token" []) SampleRegister.env
       Sample.store
     = (Sample.store, Responded (Json 404 (JObj [("error", JStr "not_found")])))
  /\ fst (handle (H := Reference.runtime) (Sample.post "/oauth/revoke" "token=x")
            SampleRegister.env Sample.store)
     = Sample.store.
Proof.
  split; [|split].
  - exact (proj1 (store_written_on_four_paths_only (H := Reference.runtime)
             {| req_method := "OPTIONS"; req_pathname := "/oauth/token"; req_query := [];
                req_body := "grant_type=authorization_code&code=code-1" |}
             SampleRegister.env Sample.store) eq_refl).
  - exact (proj2 (proj2 (store_written_on_four_paths_only (H := Reference.runtime)
             (Sample.get "/oauth/token" []) SampleRegister.env Sample.store))
           ltac:(discriminate) ltac:(discriminate) (or_intror eq_refl)).
  - exact (proj1 (proj2 (store_written_on_four_paths_only (H := Reference.runtime)
             (Sample.post "/oauth/revoke" "token=x") SampleRegister.env Sample.store))
           eq_refl).
Defined.

(** ** The exchange, beyond the fallback *)


(** X11.  The two calls of the third step are never checked for success: whether
    the upstream answers them with a success or with a refusal, the exchange
    does the same. *)
Theorem exchange_ignores_step3_status (code redirectUri : string) (up : upstream)
    (now : Z) (okUser okPages : bool) :
  exchangeFacebookCode code redirectUri (with_step3_status okUser okPages up) now
  = exchangeFacebookCode code redirectUri up now.
Proof.
  unfold exchangeFacebookCode, with_step3_status. simpl.
  destruct (up_code up) as [e|[] [tokens|e]]; simpl; try done.
  destruct (member tokens "access_token" access_token); simpl; [|done].
  destruct (up_longLived up) as [e|okLong [longLived|e]]; simpl; try done.
  destruct (if okLong then _ else _); simpl; [|done].
  destruct (if okLong then _ else _); simpl; [|done].
  destruct (up_user up) as [e|ok1 [userData|e]]; simpl; try done.
  destruct (up_pages up) as [e|ok2 [pagesData|e]]; simpl; done.
Qed.

(** X12.  When the upgrade is answered with a success, the credential set carries
    the long-lived token and an expiry counted from its [expires_in]; there is
    no expiry when [expires_in] is missing or zero. *)
Theorem exchange_prefers_long_lived (code redirectUri : string) (up : upstream) (now : Z)
    (tokens longLived : TokenBody) (session : MetaSession) :
  up_code up = Answer true (Normal (Some tokens)) ->
  up_longLived up = Answer true (Normal (Some longLived)) ->
  exchangeFacebookCode code redirectUri up now = Normal session ->
  userAccessToken session = access_token longLived
  /\ (forall n, expires_in longLived = Some n -> n <> 0 ->
        expiresAt session = Some (now + n * 1000))
  /\ (expires_in longLived = None \/ expires_in longLived = Some 0 ->
      expiresAt session = None).
Proof.
  intros H1 H2. unfold exchangeFacebookCode. rewrite H1, H2. simpl.
  destruct (up_user up) as [e|ok1 [userData|e]]; simpl; try done.
  destruct (up_pages up) as [e|ok2 [[pagesData|]|e]]; simpl; try done.
  destruct (collect_pages (data pagesData)); simpl; [|done].
  destruct userData as [userData|]; simpl; [|done].
  intros [= <-]. simpl. split; [done|]. split.
  - intros n -> Hn. simpl. by destruct (Z.eqb_spec n 0).
  - by intros [-> | ->].
Qed.

Lemma or_else_nonempty (a : option string) (b : string) :
  b <> "" -> or_else a b <> "".
Proof.
  intros Hb. destruct a as [x|]; simpl; [|done].
  by destruct (String.eqb_spec x "").
Qed.

(** X13.  When the upstream refuses the code with a body other than [null],
    its message, or "Token exchange failed" when it gives none, is what the
    client receives: the callback redirects to the redirect URI of the
    transaction, when that parses, with [server_error] and the text "Error: "
    followed by that message as description, and stores nothing. *)
Theorem code_refusal_reaches_client `{Runtime} (req : Request) (env : Env) (st : Store)
    (code txnId : string) (txn : OAuthTransaction) (refusal : TokenBody) :
  callback_begin req st = inr (code, txnId, txn) ->
  URL_valid (txn_redirectUri txn) = true ->
  up_code (fetch env) = Answer false (Normal (Some refusal)) ->
  callback req env st
  = (st, Responded (Found
       {| url_href := txn_redirectUri txn;
          url_searchParams :=
            [ ("error", "server_error");
              ("error_description",
                "Error: " ++ or_else (error_message refusal) "Token exchange failed");
              ("state", txn_state txn) ] |})).
Proof.
  intros Hb Hurl Hup. unfold callback. rewrite Hb.
  unfold exchangeFacebookCode. rewrite Hup. simpl.
  unfold client_redirect. rewrite Hurl. unfold String_of_exn. simpl.
  destruct (String.eqb_spec (or_else (error_message refusal) "Token exchange failed") "")
    as [Hempty|_]; [|done].
  by apply or_else_nonempty in Hempty.
Qed.

(** ** Sweeps in a row *)

Lemma purge_purge {V : Type} (createdAt : V -> Z) (ttl now1 now2 : Z) (m : gmap string V) :
  now1 <= now2 ->
  purge createdAt ttl now2 (purge createdAt ttl now1 m) = purge createdAt ttl now2 m.
Proof.
  intros Hle. apply map_eq. intros k. rewrite !purge_lookup.
  destruct (m !! k) as [v|]; [|done].
  destruct (Z.ltb_spec ttl (now1 - createdAt v)); [|done].
  destruct (Z.ltb_spec ttl (now2 - createdAt v)); [done|lia].
Qed.

(** X14.  A sweep makes every earlier sweep redundant: sweeping at some time and
    again later leaves the store that the later sweep alone would leave.  In
    particular a second sweep at the same time changes nothing. *)
Theorem sweep_absorbs_earlier (now1 now2 : Z) (st : Store) :
  now1 <= now2 -> sweep now2 (sweep now1 st) = sweep now2 st.
Proof.
  intros Hle. unfold sweep. simpl. by rewrite !purge_purge.
Qed.

(** ** A whole round, for every input *)

(** X15.  Authorization, callback and redemption in a row: an authorize
    request with a client id, a redirect URI that parses as a URL and the
    response type [code]; then the callback with the transaction id as state,
    a non-empty upstream code the exchange accepts, and no [error] parameter;
    then the redemption of the code the callback drew (the identifiers drawn
    being non-empty).  The callback sends the client to the URL made from the
    redirect URI it gave to the authorize endpoint by setting the query
    parameters [code], to the drawn code, and [state], to the state the
    client gave (or the one drawn for it); the code is then redeemed for a
    bearer token, the token record holds the credential set the exchange
    returned, and the transaction is gone. *)
Theorem authorization_round `{Runtime} (st : Store) (authz cb tk : Request)
    (env1 env2 env3 : Env) (clientId redirectUri upstreamCode : string)
    (session : MetaSession) :
  let txnId :=
    randomBytes env1 (if nonempty (param "state" (req_query authz)) then 0 else 1)%nat in
  let state := or_else (param "state" (req_query authz)) (randomBytes env1 0) in
  let ourCode := randomBytes env2 0 in
  let jti := randomBytes env3 0 in
  let r1 := handle authz env1 st in
  let r2 := handle cb env2 (fst r1) in
  let r3 := handle tk env3 (fst r2) in
  req_method authz = "GET" ->
  req_pathname authz = "/oauth/authorize" ->
  param "client_id" (req_query authz) = Some clientId ->
  clientId <> "" ->
  param "redirect_uri" (req_query authz) = Some redirectUri ->
  redirectUri <> "" ->
  param "response_type" (req_query authz) = Some "code" ->
  txnId <> "" ->
  req_method cb = "GET" ->
  req_pathname cb = "/oauth/callback" ->
  param "code" (req_query cb) = Some upstreamCode ->
  upstreamCode <> "" ->
  param "state" (req_query cb) = Some txnId ->
  nonempty (param "error" (req_query cb)) = false ->
  exchangeFacebookCode upstreamCode callbackUri (fetch env2) (Date_now env2 0)
    = Normal session ->
  URL_valid redirectUri = true ->
  ourCode <> "" ->
  req_method tk = "POST" ->
  req_pathname tk = "/oauth/token" ->
  param "grant_type" (parse_form (req_body tk)) = Some "authorization_code" ->
  param "code" (parse_form (req_body tk)) = Some ourCode ->
  snd r2 = Responded (Found {| url_href := redirectUri;
                               url_searchParams := [("code", ourCode); ("state", state)] |})
  /\ (exists accessToken,
        snd r3 = Responded (Json 200 (JObj
          [ ("access_token", JStr accessToken);
            ("token_type", JStr "Bearer");
            ("expires_in", JNum 3600);
            ("scope",
              JStr "pages_show_list pages_read_engagement pages_manage_posts pages_read_user_content pages_manage_engagement read_insights instagram_basic instagram_content_publish instagram_manage_comments instagram_manage_insights") ])))
  /\ tokenStore (fst r3) !! jti
     = Some {| tr_metaTokens := session; tr_createdAt := Date_now env3 1 |}
  /\ transactions (fst r3) !! txnId = None.
Proof.
  intros txnId state ourCode jti r1 r2 r3
    Hm1 Hp1 Hc Hcne Hr Hrne Ht Htx Hm2 Hp2 Hcode Hcodene Hstate Herr Hx Hurl Hour
    Hm3 Hp3 Hg Hk.
  assert (H1 : r1 = ({| transactions :=
                          <[txnId := {| txn_clientId := clientId;
                                        txn_redirectUri := redirectUri;
                                        txn_state := state;
                                        txn_codeChallenge :=
                                          or_undefined (param "code_challenge" (req_query authz));
                                        txn_codeChallengeMethod :=
                                          or_undefined
                                            (param "code_challenge_method" (req_query authz));
                                        txn_scope :=
                                          match param "scope" (req_query authz) with
                                          | Some s => split " " s
                                          | None => FACEBOOK_SCOPES
                                          end;
                                        txn_createdAt := Date_now env1 0 |}]>
                            (transactions st);
                        authCodes := authCodes st;
                        registeredClients := registeredClients st;
                        tokenStore := tokenStore st |},
                      snd r1)).
  { unfold r1. rewrite handle_authorize by done. unfold authorize.
    rewrite Hc, Hr, Ht. simpl.
    destruct (String.eqb_spec clientId ""); [done|].
    by destruct (String.eqb_spec redirectUri ""). }
  assert (H2 : r2 = ({| transactions := delete txnId (transactions (fst r1));
                        authCodes :=
                          <[ourCode := {| ac_clientId := clientId;
                                          ac_redirectUri := redirectUri;
                                          ac_metaTokens := session;
                                          ac_createdAt := Date_now env2 (clock_reads session);
                                          ac_used := false |}]> (authCodes st);
                        registeredClients := registeredClients st;
                        tokenStore := tokenStore st |},
                      Responded (Found {| url_href := redirectUri;
                                          url_searchParams :=
                                            [("code", ourCode); ("state", state)] |}))).
  { unfold r2. rewrite handle_callback by done. unfold callback, callback_begin.
    rewrite Herr, Hcode, Hstate. rewrite H1 at 1. simpl.
    destruct (String.eqb_spec upstreamCode ""); [done|].
    destruct (String.eqb_spec txnId ""); [done|]. simpl.
    rewrite lookup_insert_eq, Hx. unfold callback_end, client_redirect. simpl.
    rewrite Hurl. by rewrite H1. }
  split; [by rewrite H2|].
  assert (H3 : r3 = token tk env3 (fst r2)) by (unfold r3; by rewrite handle_token).
  rewrite H3, (token_redeems tk env3 (fst r2) ourCode
                 {| ac_clientId := clientId; ac_redirectUri := redirectUri;
                    ac_metaTokens := session; ac_createdAt := Date_now env2 (clock_reads session);
                    ac_used := false |});
    try done; [|rewrite H2; apply lookup_insert_eq].
  split; [by eexists|]. simpl. split.
  - rewrite H2. simpl. apply lookup_insert_eq.
  - rewrite H2. simpl. apply lookup_delete_eq.
Qed.

(** ** Samples of the further properties *)

Lemma exchange_prefers_long_lived_witness :
  exists session,
    exchangeFacebookCode "up-1" "http://localhost:3000/oauth/callback"
      SampleUpstream.healthy 1000 = Normal session
    /\ userAccessToken session = Some "EAAB-long"
    /\ expiresAt session = Some 5184001000.
Proof.
  assert (Hx : exists session,
             exchangeFacebookCode "up-1" "http://localhost:3000/oauth/callback"
               SampleUpstream.healthy 1000 = Normal session) by (by eexists).
  destruct Hx as [session Hx]. exists session. split; [exact Hx|].
  destruct (exchange_prefers_long_lived "up-1" "http://localhost:3000/oauth/callback"
              SampleUpstream.healthy 1000 SampleUpstream.shortLived
              SampleUpstream.longLived session eq_refl eq_refl Hx)
    as (Htok & Hexp & _).
  split; [exact Htok|]. apply (Hexp 5184000); [reflexivity|lia].
Defined.

Lemma code_refusal_reaches_client_witness :
  SampleFlow.calledBackRefused
  = (fst SampleFlow.started,
     Responded (Found {| url_href := "https://client/cb";
                         url_searchParams :=
                           [ ("error", "server_error");
                             ("error_description",
                               "Error: This authorization code has been used.");
                             ("state", "s1") ] |})).
Proof.
  exact (code_refusal_reaches_client (H := Reference.runtime)
           (Sample.get "/oauth/callback" [("code", "upstream_code_1"); ("state", "txn-A")])
           (SampleUpstream.env SampleUpstream.codeRefused) (fst SampleFlow.started)
           "upstream_code_1" "txn-A" SampleFlow.startedTxn _ eq_refl eq_refl eq_refl).
Defined.

Lemma sweep_absorbs_earlier_witness :
  sweep 700000 (sweep 400000 Sample.store) = sweep 700000 Sample.store.
Proof. apply sweep_absorbs_earlier. lia. Defined.

Lemma authorization_round_witness :
  snd SampleFlow.calledBack
  = Responded (Found {| url_href := "https://client/cb";
                        url_searchParams := [("code", "local-code"); ("state", "s1")] |})
  /\ (exists accessToken,
        snd SampleFlow.redeemed = Responded (Json 200 (JObj
          [ ("access_token", JStr accessToken);
            ("token_type", JStr "Bearer");
            ("expires_in", JNum 3600);
            ("scope",
              JStr "pages_show_list pages_read_engagement pages_manage_posts pages_read_user_content pages_manage_engagement read_insights instagram_basic instagram_content_publish instagram_manage_comments instagram_manage_insights") ])))
  /\ tokenStore (fst SampleFlow.redeemed) !! "sub-1"
     = Some {| tr_metaTokens := ac_metaTokens SampleFlow.issuedCode; tr_createdAt := 3001 |}
  /\ transactions (fst SampleFlow.redeemed) !! "txn-A" = None.
Proof.
  apply (authorization_round (H := Reference.runtime) empty_store
           (Sample.get "/oauth/authorize"
              [ ("client_id", "c1"); ("redirect_uri", "https://client/cb");
                ("response_type", "code"); ("state", "s1") ])
           (Sample.get "/oauth/callback" [("code", "upstream_code_1"); ("state", "txn-A")])
           SampleFlow.redeem
           (SampleFlow.env 1000 "txn-A" "unused") (SampleFlow.env 2000 "local-code" "unused")
           (SampleFlow.env 3000 "sub-1" "jti-1")
           "c1" "https://client/cb" "upstream_code_1" (ac_metaTokens SampleFlow.issuedCode));
    try reflexivity; discriminate.
Defined.

(** ** The Graph client *)

Lemma append_assoc (a b c : string) : (a ++ b) ++ c = a ++ (b ++ c).
Proof.
  induction a as [|x a IH].
  - done.
  - change (String x ((a ++ b) ++ c) = String x (a ++ (b ++ c))). by rewrite IH.
Qed.

Lemma includes_app (c : ascii) (a b : string) :
  includes c (a ++ b) = includes c a || includes c b.
Proof.
  induction a as [|x a IH].
  - done.
  - change (String x a ++ b) with (String x (a ++ b)). simpl.
    rewrite IH. by rewrite orb_assoc.
Qed.

Lemma or_undefined_nonempty (a : option string) :
  or_undefined a = if nonempty a then a else None.
Proof. destruct a as [x|]; simpl; [by destruct (String.eqb x "")|done]. Qed.

Lemma nonempty_Some (a : option string) :
  nonempty a = true -> exists token, a = Some token /\ token <> "".
Proof.
  destruct a as [x|]; simpl; [|done].
  destruct (String.eqb_spec x ""); [done|]. by exists x.
Qed.

Lemma includes_relative (path : string) :
  includes "?" (if String.prefix "http" path then path else GRAPH_API_BASE ++ path)
  = includes "?" path.
Proof.
  destruct (String.prefix "http" path); [done|].
  by rewrite includes_app.
Qed.

(** What [buildRequest] gives once a token is there. *)
Lemma buildRequest_with_token (client : MetaGraphClient) (path : string)
    (options : RequestOptions) (token : string) :
  (if nonempty (opt_accessToken options) then opt_accessToken options
   else mgc_accessToken client) = Some token ->
  token <> "" ->
  buildRequest client path options
  = Normal {| gr_url := (if String.prefix "http" path then path else GRAPH_API_BASE ++ path)
                        ++ (if includes "?" path then "&" else "?")
                        ++ "access_token=" ++ token;
              gr_method := or_else (opt_method options) "GET";
              gr_headers := [ ("User-Agent", mgc_userAgent client);
                              ("Content-Type", "application/json") ];
              gr_body := opt_body options |}.
Proof.
  intros Htoken Hne. unfold buildRequest, or_nullable. rewrite Htoken. simpl.
  destruct (String.eqb_spec token ""); [done|].
  by rewrite includes_relative.
Qed.

(** X16.  [makeRequest] refuses with "No access token available", whatever the
    network would answer, exactly when neither the token of the call nor the
    token of the client is a non-empty string. *)
Theorem makeRequest_refuses_iff `{C : Conversions} (client : MetaGraphClient) (path : string)
    (options : RequestOptions) :
  (forall net, makeRequest client path options net
               = Throw (JsError "Error" "No access token available"))
  <-> nonempty (opt_accessToken options) = false /\ nonempty (mgc_accessToken client) = false.
Proof.
  split.
  - intros Hall. specialize (Hall unreachable).
    unfold makeRequest, buildRequest, or_nullable in Hall.
    destruct (nonempty (opt_accessToken options)) eqn:Ho.
    + destruct (nonempty_Some _ Ho) as (token & Htoken & Hne).
      rewrite Htoken in Hall. simpl in Hall.
      destruct (String.eqb_spec token ""); [done|]. simpl in Hall. discriminate.
    + destruct (nonempty (mgc_accessToken client)) eqn:Hc; [|done].
      destruct (nonempty_Some _ Hc) as (token & Htoken & Hne).
      rewrite Htoken in Hall. simpl in Hall.
      destruct (String.eqb_spec token ""); [done|]. simpl in Hall. discriminate.
  - intros [Ho Hc] net. unfold makeRequest, buildRequest, or_nullable.
    rewrite Ho, or_undefined_nonempty, Hc. done.
Qed.

(** X17.  The URL a request is sent to is the path, put after the base of the
    Graph API unless it starts with "http", then "&" if the path has a "?" and
    "?" otherwise, then the token: the token of the call if it is non-empty,
    the token of the client otherwise. *)
Theorem request_carries_chosen_token (client : MetaGraphClient) (path : string)
    (options : RequestOptions) (request : GraphRequest) :
  buildRequest client path options = Normal request ->
  exists token,
    (if nonempty (opt_accessToken options) then opt_accessToken options
     else mgc_accessToken client) = Some token
    /\ token <> ""
    /\ gr_url request
       = (if String.prefix "http" path then path else GRAPH_API_BASE ++ path)
         ++ (if includes "?" path then "&" else "?") ++ "access_token=" ++ token.
Proof.
  intros Hbuild.
  destruct (nonempty (if nonempty (opt_accessToken options) then opt_accessToken options
                      else mgc_accessToken client)) eqn:Hne.
  - destruct (nonempty_Some _ Hne) as (token & Htoken & Hnonempty).
    exists token. split; [done|]. split; [done|].
    rewrite (buildRequest_with_token _ _ _ _ Htoken Hnonempty) in Hbuild.
    by injection Hbuild as <-.
  - unfold buildRequest, or_nullable in Hbuild.
    rewrite or_undefined_nonempty, Hne in Hbuild. discriminate.
Qed.

Lemma request_carries_chosen_token_witness :
  exists token,
    Some "EAAB-page-77" = Some token /\ token <> ""
    /\ gr_url {| gr_url := "https://graph.facebook.com/v21.0/77/feed?fields=id&access_token=EAAB-page-77";
                 gr_method := "GET";
                 gr_headers := [ ("User-Agent", "MetaGraphMCPServer/1.0.0");
                                 ("Content-Type", "application/json") ];
                 gr_body := None |}
       = "https://graph.facebook.com/v21.0/77/feed?fields=id&access_token=" ++ token.
Proof.
  apply (request_carries_chosen_token
           (createMetaGraphClientFromSession SampleGraph.config SampleGraph.session)
           "/77/feed?fields=id"
           {| opt_method := None; opt_body := None; opt_accessToken := Some "EAAB-page-77" |}).
  vm_compute. reflexivity.
Defined.

(** A chain that ends in a throw never completes normally. *)
Ltac throws :=
  repeat match goal with
         | |- context [bind ?c _] => destruct c; simpl
         | |- context [if ?b then _ else _] => destruct b; simpl
         end; try done.

(** X18.  [handleResponse] returns the decoded body, unchanged, exactly when
    the status is a success and the body has no truthy member [error]; in
    every other case it throws. *)
Theorem handleResponse_returns_iff `{C : Conversions} (ok : bool) (data v : json) :
  handleResponse (ok, Normal data) = Normal v
  <-> ok = true /\ v = data
      /\ exists e, get_prop data "error" = Normal e /\ truthy e = false.
Proof.
  unfold handleResponse. cbn [fst snd bind].
  split.
  - destruct ok; cbn [negb].
    + destruct (get_prop data "error") as [e|x] eqn:He; cbn [bind]; [|done].
      destruct (truthy e) eqn:Ht.
      * intros Habs. exfalso. revert Habs. throws.
      * intros [= <-]. split; [done|]. split; [done|]. by exists e.
    + cbn [bind]. intros Habs. exfalso. revert Habs. throws.
  - intros (-> & -> & e & He & Ht). cbn [negb]. rewrite He. cbn [bind]. by rewrite Ht.
Qed.

(** X19.  When the answer is refused, or its member [error] is truthy, and that
    member is not an object, the error thrown reads
    "Meta API Error [undefined]: Unknown error", whatever the conversions. *)
Theorem refusal_without_details `{C : Conversions} (ok : bool) (data : json)
    (e : option json) :
  get_prop data "error" = Normal e ->
  ok = false \/ truthy e = true ->
  match e with Some (JObj _) => False | _ => True end ->
  handleResponse (ok, Normal data)
  = Throw (JsError "Error" "Meta API Error [undefined]: Unknown error").
Proof.
  intros He Hfailed Hshape. unfold handleResponse. cbn [fst snd bind].
  assert (Hf : (if negb ok then Normal true
                else let! e := get_prop data "error" in Normal (truthy e)) = Normal true).
  { destruct ok; cbn [negb]; [|done]. rewrite He. cbn [bind].
    destruct Hfailed as [Hok|Ht]; [done|by rewrite Ht]. }
  rewrite Hf, He. cbn [bind].
  destruct e as [[]|]; try done.
Qed.

Lemma refusal_without_details_witness :
  handleResponse (H := ReferenceConversions.conversions) (false, Normal (JObj []))
  = Throw (JsError "Error" "Meta API Error [undefined]: Unknown error").
Proof.
  apply (refusal_without_details (C := ReferenceConversions.conversions)
           false (JObj []) None).
  - reflexivity.
  - left. reflexivity.
  - exact I.
Defined.

(** ** The tools *)

(** X20.  Without a session, or with a session whose user token is empty, the
    tools [get_my_pages] and [delete_post] throw "Not authenticated" whatever
    the network would answer. *)
Theorem tools_need_a_session `{C : Conversions} (config : ServerConfig)
    (session : option MetaSession) (post_id page_id : string)
    (net : GraphRequest -> fetched json) :
  (forall s, session = Some s -> nonempty (userAccessToken s) = false) ->
  get_my_pages config session net = Throw (JsError "Error" "Not authenticated")
  /\ delete_post config post_id page_id session net
     = Throw (JsError "Error" "Not authenticated").
Proof.
  intros Hnone. unfold get_my_pages, delete_post, authenticated.
  destruct session as [s|]; [|done].
  by rewrite (Hnone s eq_refl).
Qed.

Lemma tools_need_a_session_witness :
  get_my_pages (H := ReferenceConversions.conversions) SampleGraph.config None
    SampleGraph.echoes = Throw (JsError "Error" "Not authenticated")
  /\ delete_post (H := ReferenceConversions.conversions) SampleGraph.config "123_456" "77" None
       SampleGraph.echoes = Throw (JsError "Error" "Not authenticated").
Proof.
  apply (tools_need_a_session (C := ReferenceConversions.conversions)).
  intros s Hs. discriminate Hs.
Defined.

(** X21.  [delete_post] never falls back to the token of the user: when the
    session holds no non-empty token for the page, it throws
    "No access token for page <id>" whatever the network would answer,
    although the client it would have built carries the user's token. *)
Theorem delete_post_needs_page_token `{C : Conversions} (config : ServerConfig)
    (post_id page_id : string) (s : MetaSession) (net : GraphRequest -> fetched json) :
  nonempty (userAccessToken s) = true ->
  (forall info, pageTokens s !! page_id = Some info -> pt_accessToken info = "") ->
  delete_post config post_id page_id (Some s) net
  = Throw (JsError "Error" ("No access token for page " ++ page_id)).
Proof.
  intros Huser Hpage. unfold delete_post, authenticated, pageToken.
  rewrite Huser. cbn [bind].
  destruct (pageTokens s !! page_id) as [info|] eqn:Hinfo; [|done].
  by rewrite (Hpage info eq_refl).
Qed.

Lemma delete_post_needs_page_token_witness :
  delete_post (H := ReferenceConversions.conversions) SampleGraph.config "123_456" "78"
    (Some SampleGraph.session) SampleGraph.echoes
  = Throw (JsError "Error" "No access token for page 78").
Proof.
  apply (delete_post_needs_page_token (C := ReferenceConversions.conversions)
           SampleGraph.config "123_456" "78" SampleGraph.session SampleGraph.echoes).
  - reflexivity.
  - intros info Hinfo. vm_compute in Hinfo. discriminate Hinfo.
Defined.

(** X22.  With a token for the page, [delete_post] sends one request: DELETE
    to the post under the base of the Graph API, with the token of the page,
    not of the user, in the query; the sentence of success is returned exactly
    when [handleResponse] accepts the answer. *)
Theorem delete_post_request `{C : Conversions} (config : ServerConfig)
    (post_id page_id : string) (s : MetaSession) (info : PageTokenInfo)
    (net : GraphRequest -> fetched json) :
  nonempty (userAccessToken s) = true ->
  pageTokens s !! page_id = Some info ->
  pt_accessToken info <> "" ->
  delete_post config post_id page_id (Some s) net
  = let! r := response (net {| gr_url := GRAPH_API_BASE ++ "/" ++ post_id
                                         ++ (if includes "?" post_id then "&" else "?")
                                         ++ "access_token=" ++ pt_accessToken info;
                               gr_method := "DELETE";
                               gr_headers :=
                                 [ ("User-Agent",
                                    or_else (Some (server_userAgent config))
                                      "MetaGraphMCPServer/1.0.0");
                                   ("Content-Type", "application/json") ];
                               gr_body := None |}) in
    let! _ := handleResponse r in
    Normal ("Post " ++ post_id ++ " deleted successfully.").
Proof.
  intros Huser Hinfo Hne. unfold delete_post, authenticated, pageToken.
  rewrite Huser. cbn [bind]. rewrite Hinfo.
  destruct (String.eqb_spec (pt_accessToken info) ""); [done|]. cbn [bind].
  unfold deletePost, makeRequest.
  rewrite (buildRequest_with_token _ _ _ (pt_accessToken info)).
  - cbn [bind]. change (includes "?" ("/" ++ post_id)) with (includes "?" post_id).
    change (String.prefix "http" ("/" ++ post_id)) with false. cbn iota.
    change (GRAPH_API_BASE ++ "/" ++ post_id)
      with ("https://graph.facebook.com/v21.0/" ++ post_id).
    change (("https://graph.facebook.com/v21.0" ++ "/" ++ post_id) ++
            (if includes "?" post_id then "&" else "?") ++
            "access_token=" ++ pt_accessToken info)
      with (("https://graph.facebook.com/v21.0/" ++ post_id) ++
            (if includes "?" post_id then "&" else "?") ++
            "access_token=" ++ pt_accessToken info).
    destruct (response (net _)) as [r|x]; cbn [bind]; [|done].
    by destruct (handleResponse r).
  - cbn [opt_accessToken nonempty].
    by destruct (String.eqb_spec (pt_accessToken info) "").
  - done.
Qed.

Lemma delete_post_request_witness :
  delete_post (H := ReferenceConversions.conversions) SampleGraph.config "123_456" "77"
    (Some SampleGraph.session) SampleGraph.rejects
  = Throw (TypeError "https://graph.facebook.com/v21.0/123_456?access_token=EAAB-page-77").
Proof.
  rewrite (delete_post_request (C := ReferenceConversions.conversions)
             SampleGraph.config "123_456" "77" SampleGraph.session
             {| pt_accessToken := "EAAB-page-77"; pt_name := "Bakery";
                pt_category := Some "Food"; pt_instagramBusinessAccountId := None |}
             SampleGraph.rejects).
  - reflexivity.
  - reflexivity.
  - vm_compute. reflexivity.
  - discriminate.
Defined.

(** X23.  [getPost] asks for the post with the token of the page when one is
    given and non-empty, with the token of the client otherwise; the path
    carries the list of fields, so the token is appended after "&", and a post
    identifier is never taken for an absolute URL. *)
Theorem getPost_request `{C : Conversions} (client : MetaGraphClient) (postId : string)
    (pageAccessToken : option string) (token : string)
    (net : GraphRequest -> fetched json) :
  (if nonempty pageAccessToken then pageAccessToken else mgc_accessToken client)
  = Some token ->
  token <> "" ->
  getPost client postId pageAccessToken net
  = let! r := response (net {| gr_url := GRAPH_API_BASE ++ "/" ++ postId
                                         ++ "?fields=id,message,story,created_time,updated_time,permalink_url,full_picture,attachments,shares,reactions.summary(true),comments.summary(true),is_published"
                                         ++ "&access_token=" ++ token;
                               gr_method := "GET";
                               gr_headers := [ ("User-Agent", mgc_userAgent client);
                                               ("Content-Type", "application/json") ];
                               gr_body := None |}) in
    handleResponse r.
Proof.
  intros Htoken Hne. unfold getPost, makeRequest.
  rewrite (buildRequest_with_token _ _ _ token).
  - cbn [bind]. rewrite includes_app.
    change (String.prefix "http" ("/" ++ _)) with false. cbn iota.
    replace (includes "?" "/" || includes "?" (postId ++ _)) with true.
    + cbn [opt_method opt_body or_else].
      rewrite !append_assoc. reflexivity.
    + rewrite includes_app. simpl. by rewrite orb_true_r.
  - cbn [opt_accessToken]. unfold or_nullable. rewrite Htoken.
    assert (Hn : nonempty (Some token) = true).
    { simpl. by destruct (String.eqb_spec token ""). }
    by rewrite Hn.
  - done.
Qed.

Lemma getPost_request_witness :
  getPost (H := ReferenceConversions.conversions)
    (createMetaGraphClientFromSession SampleGraph.config SampleGraph.session)
    "123_456" (Some "") SampleGraph.rejects
  = Throw (TypeError "https://graph.facebook.com/v21.0/123_456?fields=id,message,story,created_time,updated_time,permalink_url,full_picture,attachments,shares,reactions.summary(true),comments.summary(true),is_published&access_token=EAAB-user").
Proof.
  rewrite (getPost_request (C := ReferenceConversions.conversions)
             (createMetaGraphClientFromSession SampleGraph.config SampleGraph.session)
             "123_456" (Some "") "EAAB-user" SampleGraph.rejects).
  - reflexivity.
  - reflexivity.
  - discriminate.
Defined.

(** X24.  When the Graph API answers the list of pages with a success whose
    body has neither a truthy [error] nor a truthy [data], or whose [data] is
    the empty array, the tool [get_my_pages] answers "No pages found.". *)
Theorem get_my_pages_none `{C : Conversions} (config : ServerConfig) (s : MetaSession)
    (net : GraphRequest -> fetched json) (fs : list (string * json)) :
  nonempty (userAccessToken s) = true ->
  (forall request, net request = Answer true (Normal (JObj fs))) ->
  truthy (assoc "error" fs) = false ->
  truthy (assoc "data" fs) = false \/ assoc "data" fs = Some (JArr []) ->
  get_my_pages config (Some s) net = Normal "No pages found.".
Proof.
  intros Huser Hnet Herror Hdata.
  unfold get_my_pages, authenticated. rewrite Huser. cbn [bind].
  unfold getMyPages, makeRequest.
  destruct (nonempty_Some _ Huser) as (token & Htoken & Hne).
  rewrite (buildRequest_with_token _ _ _ token); [|by simpl|done].
  cbn [bind]. rewrite Hnet. cbn [response bind].
  unfold handleResponse. cbn [fst snd bind negb get_prop]. rewrite Herror.
  cbn [bind get_prop].
  destruct Hdata as [Hdata|Hdata]; rewrite Hdata.
  - by destruct (assoc "data" fs).
  - done.
Qed.

Lemma get_my_pages_none_witness :
  get_my_pages (H := ReferenceConversions.conversions) SampleGraph.config
    (Some SampleGraph.session) (SampleGraph.answers (JObj [("paging", JObj [])]))
  = Normal "No pages found.".
Proof.
  apply (get_my_pages_none (C := ReferenceConversions.conversions)
           SampleGraph.config SampleGraph.session
           (SampleGraph.answers (JObj [("paging", JObj [])])) [("paging", JObj [])]).
  - reflexivity.
  - intros request. reflexivity.
  - reflexivity.
  - left. reflexivity.
Defined.

(** ** The list of pages *)

Lemma assoc_obj_set_other {A : Type} (k k' : string) (v : A) (fs : list (string * A)) :
  String.eqb k k' = false -> assoc k' (obj_set k v fs) = assoc k' fs.
Proof. intros Hk. by rewrite assoc_obj_set, Hk. Qed.

Lemma page_lines_with_member `{C : Conversions} (k : string) (v : json) (i : nat)
    (page : json) :
  listed_member k = false -> page_lines i (with_member k v page) = page_lines i page.
Proof.
  intros Hk. unfold listed_member in Hk.
  repeat (apply orb_false_elim in Hk; destruct Hk as [Hk ?]).
  destruct page; try done.
  unfold page_lines, with_member, get_prop.
  by rewrite !assoc_obj_set_other.
Qed.

Lemma pages_lines_with_member `{C : Conversions} (k : string) (v : json)
    (pages : list json) (i : nat) :
  listed_member k = false ->
  pages_lines i (map (with_member k v) pages) = pages_lines i pages.
Proof.
  intros Hk. revert i. induction pages as [|page rest IH]; intros i; simpl.
  - done.
  - by rewrite page_lines_with_member, IH.
Qed.

(** X25.  [formatPageList] reads five members of a page ([name], [id],
    [category], [fanCount], [instagramBusinessAccount]): setting any other
    member of the pages, such as the [fan_count] the client asks the Graph API
    for, changes nothing of the text. *)
Theorem formatPageList_reads_five_members `{C : Conversions} (k : string) (v : json)
    (pages : list json) :
  listed_member k = false ->
  formatPageList (JArr (map (with_member k v) pages)) = formatPageList (JArr pages).
Proof.
  intros Hk. destruct pages as [|page rest]; [done|].
  unfold formatPageList.
  change (map (with_member k v) (page :: rest))
    with (with_member k v page :: map (with_member k v) rest).
  change (with_member k v page :: map (with_member k v) rest)
    with (map (with_member k v) (page :: rest)).
  rewrite pages_lines_with_member by done.
  by rewrite length_map.
Qed.

Lemma formatPageList_reads_five_members_witness :
  formatPageList (H := ReferenceConversions.conversions)
    (JArr (map (with_member "fan_count" (JNum 10000)) [SampleGraph.bakeryCamel]))
  = formatPageList (H := ReferenceConversions.conversions) (JArr [SampleGraph.bakeryCamel]).
Proof.
  apply (formatPageList_reads_five_members (C := ReferenceConversions.conversions)).
  reflexivity.
Defined.

(** The lines of one page that has no member [fanCount]. *)
Lemma page_lines_without_fanCount `{C : Conversions} (i : nat) (fs : list (string * json))
    (first : list string) :
  assoc "fanCount" fs = None ->
  page_lines i (JObj fs) = Normal first ->
  List.filter (String.prefix "- **Fans**: ") first = ["- **Fans**: N/A"].
Proof.
  intros Hfans. unfold page_lines. cbn [get_prop bind]. rewrite Hfans.
  cbn [localized_or_NA bind].
  destruct (template (assoc "name" fs)) as [nameText|]; cbn [bind]; [|done].
  destruct (template (assoc "id" fs)) as [idText|]; cbn [bind]; [|done].
  destruct (or_NA (assoc "category" fs)) as [categoryText|]; cbn [bind]; [|done].
  destruct (truthy (assoc "instagramBusinessAccount" fs)); cbn [bind].
  - destruct (optional_prop (assoc "instagramBusinessAccount" fs) "id")
      as [accountId|]; cbn [bind]; [|done].
    destruct (template accountId) as [accountText|]; cbn [bind]; [|done].
    by intros [= <-].
  - by intros [= <-].
Qed.

(** X26.  For pages that are objects without a member [fanCount], as the Graph
    API sends them, the list has one line of fans for each page and every one
    of them reads "N/A", whatever else the pages hold. *)
Theorem fans_unknown_without_fanCount `{C : Conversions} (pages : list json) (i : nat)
    (lines : list string) :
  Forall (fun page => exists fs, page = JObj fs /\ assoc "fanCount" fs = None) pages ->
  pages_lines i pages = Normal lines ->
  List.filter (String.prefix "- **Fans**: ") lines
  = repeat "- **Fans**: N/A" (length pages).
Proof.
  intros Hpages. revert i lines.
  induction Hpages as [|page rest (fs & -> & Hfans) _ IH]; intros i lines.
  - by intros [= <-].
  - cbn [pages_lines].
    destruct (page_lines i (JObj fs)) as [first|] eqn:Hfirst; cbn [bind]; [|done].
    destruct (pages_lines (S i) rest) as [others|] eqn:Hothers; cbn [bind]; [|done].
    intros [= <-]. rewrite List.filter_app.
    rewrite (page_lines_without_fanCount i fs first Hfans Hfirst).
    by rewrite (IH (S i) others Hothers).
Qed.

Lemma fans_unknown_without_fanCount_witness :
  List.filter (String.prefix "- **Fans**: ")
    [ "## 1. Bakery"; "- **ID**: 77"; "- **Category**: Food"; "- **Fans**: N/A"; "" ]
  = repeat "- **Fans**: N/A" (length [SampleGraph.bakery]).
Proof.
  apply (fans_unknown_without_fanCount (C := ReferenceConversions.conversions)
           [SampleGraph.bakery] 0).
  - apply List.Forall_cons.
    + eexists. split; reflexivity.
    + apply List.Forall_nil.
  - vm_compute. reflexivity.
Defined.

(** The heading of a page is the first of its lines. *)
Lemma page_lines_heading `{C : Conversions} (i : nat) (page : json) (name : option json)
    (text : string) (first : list string) :
  page_lines i page = Normal first ->
  get_prop page "name" = Normal name ->
  template name = Normal text ->
  In ("## " ++ Number_toString (Z.of_nat i + 1) ++ ". " ++ text) first.
Proof.
  intros Hfirst Hname Htext. unfold page_lines in Hfirst.
  rewrite Hname in Hfirst. cbn [bind] in Hfirst.
  rewrite Htext in Hfirst. cbn [bind] in Hfirst.
  revert Hfirst.
  repeat match goal with
         | |- context [bind ?c _] => destruct c; cbn [bind]
         end; try done.
  intros [= <-]. by left.
Qed.

Lemma pages_lines_heading `{C : Conversions} (pages : list json) (j i : nat) (page : json)
    (name : option json) (text : string) (lines : list string) :
  pages_lines j pages = Normal lines ->
  pages !! i = Some page ->
  get_prop page "name" = Normal name ->
  template name = Normal text ->
  In ("## " ++ Number_toString (Z.of_nat (j + i) + 1) ++ ". " ++ text) lines.
Proof.
  revert j i lines. induction pages as [|p rest IH]; intros j i lines; [done|].
  cbn [pages_lines].
  destruct (page_lines j p) as [first|] eqn:Hfirst; cbn [bind]; [|done].
  destruct (pages_lines (S j) rest) as [others|] eqn:Hothers; cbn [bind]; [|done].
  intros [= <-] Hi Hname Htext. apply in_or_app.
  destruct i as [|i].
  - left. injection Hi as ->. rewrite Nat.add_0_r.
    by apply (page_lines_heading j page name).
  - right. replace (j + S i)%nat with (S j + i)%nat by lia.
    by apply (IH (S j) i others).
Qed.

(** X27.  The text for a non-empty array of pages opens with the heading
    "# Your Facebook Pages (n)", n the number of pages, and an empty line, and
    holds for the page at index i the heading "## i+1. name". *)
Theorem formatPageList_headings `{C : Conversions} (pages : list json) (out : string) :
  pages <> [] ->
  formatPageList (JArr pages) = Normal out ->
  exists lines,
    out = join newline
            (("# Your Facebook Pages (" ++ Number_toString (Z.of_nat (length pages)) ++ ")")
             :: "" :: lines)
    /\ forall i page name text,
         pages !! i = Some page ->
         get_prop page "name" = Normal name ->
         template name = Normal text ->
         In ("## " ++ Number_toString (Z.of_nat i + 1) ++ ". " ++ text) lines.
Proof.
  intros Hne. destruct pages as [|p rest]; [done|].
  unfold formatPageList.
  destruct (pages_lines 0 (p :: rest)) as [lines|] eqn:Hlines; cbn [bind]; [|done].
  intros [= <-]. exists lines. split; [done|].
  intros i page name text Hi Hname Htext.
  by apply (pages_lines_heading (p :: rest) 0 i page name).
Qed.

Lemma formatPageList_headings_witness :
  exists lines,
    String.append "# Your Facebook Pages (2)"
      (String.append newline (String.append newline
         (join newline
            [ "## 1. Bakery"; "- **ID**: 77"; "- **Category**: Food"; "- **Fans**: N/A"; "";
              "## 2. Bakery"; "- **ID**: 77"; "- **Category**: Food"; "- **Fans**: 10,000";
              "- **Instagram**: Connected (ig77)"; "" ])))
    = join newline
        (("# Your Facebook Pages ("
          ++ Number_toString (Z.of_nat (length [SampleGraph.bakery; SampleGraph.bakeryCamel]))
          ++ ")") :: "" :: lines)
    /\ forall i page name text,
         [SampleGraph.bakery; SampleGraph.bakeryCamel] !! i = Some page ->
         get_prop page "name" = Normal name ->
         template (H := ReferenceConversions.conversions) name = Normal text ->
         In ("## " ++ Number_toString (Z.of_nat i + 1) ++ ". " ++ text) lines.
Proof.
  apply (formatPageList_headings (C := ReferenceConversions.conversions)
           [SampleGraph.bakery; SampleGraph.bakeryCamel]).
  - discriminate.
  - vm_compute. reflexivity.
Defined.
